(* ===== verification/_CoqProject ===== *)
-Q . S2P
Prelude.v
Dates.v
PyFloat.v
Pandas.v
Resample.v
Signal.v
Align.v
Backtest.v
Benchmark.v
Pipeline.v
PyDict.v
Batch.v
DataSource.v
Loop.v
Format.v
Plot.v
