(* ===== verification/Prelude.v ===== *)
(** * A verified model of [Weekly_jobs_strategy.py]

    The program (src/Weekly_jobs_strategy.py) backtests a trading signal
    derived from the weekly US initial jobless claims series (FRED series
    ICSA) on nine equities and ETFs, and compares each with a SPY
    buy-and-hold benchmark.  Its parts, leaf first, and how they interact:

    - float64 values (numpy / pandas): every column of every frame holds
      IEEE doubles with NaN as the missing-value marker; the comparisons
      and arithmetic of the script all act on such values;
    - pandas primitives the script relies on: [resample('W-FRI').last()],
      [pct_change], [ffill], [shift(1)], [cumprod], [dropna],
      [pd.concat(axis=1)], [mean], [std];
    - the signal generator [get_jobless_claims_data] (lines 16-22):
      weekly claims, their percentage change, the raw signal (1 below -2%,
      0 above +2%, NaN in between) and its forward fill;
    - the series aligner, first half of [backtest_strategy] (lines 27-38):
      weekly prices, the empty-data guard, the outer join with the claims
      frame and the [dropna] that makes it an inner join;
    - the backtest engine, second half of [backtest_strategy] (lines
      40-61): period returns, the one-period-lagged strategy returns,
      cumulative products, CAGR, Sharpe ratio, alpha, and the
      [try]/[except] that turns any exception into [None];
    - the benchmark calculator (lines 70-80): SPY weekly prices,
      buy-and-hold cumulative return and CAGR, computed once before the
      loop, with no exception handler around it;
    - the batch runner (lines 64-66 and 84-88): one [backtest_strategy]
      call per ticker, the [results] dictionary of the successful ones,
      which keeps its keys in insertion order;
    - the final plot (lines 90-104): a matplotlib figure with the SPY
      curve and one curve per entry of [results], labelled with CAGR,
      alpha and Sharpe through Python's [:.2%] and [:.2f] formatting;
    - the external services (lines 13, 17, 27-30, 70-73): the FRED client
      built with the API key and its [get_series('ICSA')], and
      [yf.download] over the window [index.min(), index.max()) of the
      claims frame, whose two dates travel as [strftime('%Y-%m-%d')]
      strings.

    Data flow: FRED claims -> signal generator -> claims frame; its first
    and last week -> date strings -> Yahoo download window; per ticker,
    downloaded prices + claims frame -> aligner -> aligned frame ->
    engine (with the benchmark CAGR) -> result dictionary -> plot.

    ** Files of the development

    - [Prelude] (this file): the [bt_scope] notations, list and option
      helpers shared by every component ([zip_with], [last_error],
      [StronglySorted_lt_ext]), the tactics and the [backtest] hint
      database.
    - [Dates]: day numbers and the proleptic Gregorian calendar
      ([civil_from_days], [days_from_civil], by 400-year eras as
      calendar libraries compute them), [strftime_ymd] (the
      [strftime('%Y-%m-%d')] of lines 28-29 and 71-72) and [parse_ymd]
      (what [yf.download] does with the string), with the reference
      [next_date] of the month lengths and leap years.
    - [PyFloat]: float64 values as [ext K] = [Fin k | PInf | NInf | NaN]
      over a number carrier given by the class [FloatCarrier]; exact
      rationals [Qc] are the executable carrier, reals [R] the carrier of
      the metrics that need [**] and [sqrt].  IEEE rounding and signed
      zero are not modelled: arithmetic on finite values is exact.
      [fpow] follows C99 [pow] (which numpy's [**] calls) on the special
      values and is [Rpower] on positive finite bases; [fsqrt] likewise.
    - [Pandas]: [ffill], [shift1], [pct_change], [cumprod], [dropna],
      [mean], [var] on a column (a [list F]), as pandas 2.x computes them,
      each with its row-by-row characterization and its commutation with
      [firstn] (causality).
    - [Resample]: a series is a [list (Z * F)] of day numbers and values;
      [resample_last] is [resample('W-FRI').last()], [index_union] and
      [value_at] are the reindexing of [pd.concat(axis=1)].
    - [Signal]: [get_jobless_claims_data] (lines 16-22) returning the
      record [ClaimsFrame] of its four columns; the abstract signal as the
      state machine [signal_step] over [position].
    - [Align]: the record [Row], frames as [list Row], and [align] (lines
      27-38): the guard of line 33 as [None], [concat_axis1] then
      [dropna_rows].
    - [Backtest]: [backtest_engine] (lines 40-57) with its result record
      [BacktestResult] and [IndexError] as a value of [py_exc + _]; the
      specification's reference model on rationals ([spec_returns],
      [spec_strategy], [growth]).
    - [Benchmark]: [benchmark] (lines 70-80), with the dates of the SPY
      series for the plot.
    - [Pipeline]: the composition signal generator -> aligner -> engine;
      no new definition, the theorems that connect the components.
    - [PyDict] (stdpp): a Python [dict] as its items in insertion order;
      [dict_setitem] is [d[k] = v]; [dict_to_map] is the abstraction to
      stdpp's [gmap], which every operation commutes with.
    - [Batch] (stdpp): [backtest_strategy] (lines 25-61, the [try]/
      [except] included), the loop of lines 84-88 as [run_loop], [main]
      (lines 64-88); [results] is a [PyDict] from ticker to result, the
      printed lines an output list, the download a section variable.
    - [DataSource] (stdpp): the interface [PriceSource] (a download keeps
      to its window) that the batch runner's composition theorems use;
      [yf_download] and [yf_close] ([yf.download] with its documented
      semantics: [end] excluded, a failed request returned empty) as its
      instance over the service's daily [history]; the FRED client
      [Fred], [fred_get_series], and [program], the script from line 13.
    - [Loop] (stdpp): the loop of lines 84-88 again, as a transition
      system: [LoopState] (tickers left, [results], output) and the step
      relation [loop_step], one rule per branch of [if result:]; stdpp's
      [rtc], [nsteps], [nf] and [sn] give its runs.
    - [Format] (stdpp): [format(x, '.2f')] and [format(x, '.2%')] on a
      float of the model: round half to even, sign, digits; a reader of
      the printed text to state what it says.
    - [Plot] (stdpp): [matplotlib.pyplot] as a state machine over open and
      displayed figures ([plt_step]); the script of lines 90-104 as the
      list of calls [plot_calls].

    ** What the theorems show

    - Engine: the code refines the specification's model (strategy
      return [s_t = signal_(t-1) * r_t], cumulative products of [1 + r]),
      the seed row being NaN instead of 1; no look-ahead (rows [0..t] of
      the strategy depend only on prices [0..t] and signals [0..t-1]);
      the cumulative series and the returns round-trip
      ([c_t / c_(t-1) - 1 = s_t]); CAGR in closed form; Sharpe NaN on a
      single return; [IndexError] exactly on an empty frame.  (Sharpe 0 on
      a constant return holds only in the model's exact arithmetic: in
      float64 the standard deviation of equal values need not be 0.)
    - Signal: the [Signal] column is the state machine's state row by row;
      a defined signal stays defined; strict thresholds.
    - Aligner: outer join + [dropna] is the inner join on complete rows;
      the aligned frame is well formed (dates strictly increasing
      Fridays, no NaN); a claims week without a release is NaN, not
      carried forward, and never reaches the engine; rejection exactly
      when no price is a number.
    - Pipeline: on the aligned frame of any claims series and positive
      prices the frame's [Signal] column holds long/flat signals, the
      engine succeeds and computes the specification's cumulative
      strategy of those signals and prices, which stays positive.
    - Sharpe: on at least two returns of positive variance, mean over
      sample standard deviation times [sqrt 52].
    - Resampling: the index is a grid of consecutive Fridays; the week of
      every observation (the Friday on or after it) is a row, valued by
      the week's last non-NaN observation ([bin_last]).
    - Benchmark: buy and hold telescopes to last / first price; the
      spec's 52-week example gives CAGR 0.10; failure exactly when SPY has
      no price.
    - Batch: [results] holds exactly the tickers whose [backtest_strategy]
      succeeded, with their results, keyed in ticker-list order and never
      twice; the printed output is exactly the notices in order; a
      skipped or failing ticker is reported and does not affect the
      others; an empty download is skipped; [main] aborts exactly when
      FRED returned nothing (the [TypeError] of [resample] on line 17),
      SPY's download raises or SPY has no price.
    - Dates: the conversion is the Gregorian calendar (epoch 1970-01-01,
      each next day the next date); the printout of a day with a
      four-digit year parses back to that day, and no two such days print
      alike.
    - Data retrieval: [yf_close] never raises on such a window and returns
      exactly the bars of [start, end); the close of the last claims
      Friday never reaches a backtest; with any [PriceSource] the join of
      line 37 has exactly the claims' weeks as rows; the program from line
      13 aborts exactly when FRED raises, FRED returns nothing, or Yahoo
      holds no valid SPY close in the window.
    - Loop: every reachable state is determined by the tickers already
      run (rule induction): [results] holds exactly those of them whose
      backtest succeeded, with their results and no key twice, and the
      output is their notices in order.  Lemmas show that every run stops
      after one step per ticker and ends in the state [run_loop]
      computes.
    - Plot: the script displays exactly one figure, SPY then one curve per
      result in dictionary order; the program's legend lists SPY and the
      successful tickers in ticker-list order; the formatting rounds to
      the nearest value, ties to even, and the text it prints of any
      finite value reads back (sign, integer digits, two decimals) as
      that rounding of the value.

    ** Bounds and fuel

    Every recursion is structural (over the lists of a column, a series
    or the ticker list), so no definition needs fuel and every operation
    is total; the engine and the loop are proved to return, and the
    transition-system view of the loop is proved to terminate by the
    number of tickers left.  The calendar proofs work on one era of
    146097 days by [lia] on divisions by constants and carry to every
    day by periodicity; nothing is checked by enumerating days.  Integers are
    unbounded ([Z], [nat]): the script's integers are Python ints (day
    counts, row counts), which do not overflow.  Float values are exact
    rationals: IEEE rounding is outside the model, so the theorems speak
    of the computation the code describes, not of its rounding error.

    ** Not modelled

    The network side of the FRED and Yahoo Finance clients (HTTP,
    caching, time zones): what the services answer, Yahoo's daily
    history of a ticker and FRED's reply to a key and a series id, is an
    input of the model; the imports (lines 1-5); [pd.set_option] (line 9,
    which only changes the dtype of object columns after [fillna] or
    [replace], while every column the script fills is float64); the
    rendering of the figure to pixels (the model stops at the figure's
    content).  [%Y] is modelled as four digits, which it is for the
    years a pandas [Timestamp] holds (1677-2262); the round trip is
    stated for four-digit years.
    Float formatting uses the exact value of the model's float, not the
    decimal expansion of the IEEE double, and [.2%] multiplies by 100
    exactly where CPython multiplies in float64.  [parse_ymd] reads only
    the [YYYY-MM-DD] form the script prints; other spellings
    [pd.Timestamp] accepts are outside the model.  [bin_last] takes a
    week's last observation in input order, where pandas sorts the index
    first; the services deliver sorted series.

    ** Plan (in order of importance)

    1. aligner: the number of aligned rows is the number of common
       complete dates;
    2. pandas: the [fill_method=None] variant of [pct_change] (pandas 3)
       and where the two differ on the script's inputs;
    3. resampling: [bin_last] characterized as the value of the latest
       non-NaN observation of the week (ties broken by input order);
    4. plot: the labels of a concrete run, end to end.
*)

From Stdlib Require Import List ZArith Lia Bool Sorted.
Import ListNotations.

Declare Scope bt_scope.
Delimit Scope bt_scope with bt.

Create HintDb backtest.
Create Rewrite HintDb backtest_rw.

(** ** Generic list helpers *)

(** Elementwise combination of two columns, as pandas does for two
    series on the same index; it stops at the shorter one. *)
Fixpoint zip_with {A B C} (f : A -> B -> C) (xs : list A) (ys : list B) : list C :=
  match xs, ys with
  | x :: xs', y :: ys' => f x y :: zip_with f xs' ys'
  | _, _ => []
  end.

(** [s.iloc[-1]]: the last element, or nothing for an empty sequence (the
    script raises [IndexError] there). *)
Fixpoint last_error {A} (xs : list A) : option A :=
  match xs with
  | [] => None
  | [x] => Some x
  | _ :: xs' => last_error xs'
  end.

Notation "xs !? i" := (nth_error xs i) (at level 20) : bt_scope.
Open Scope bt_scope.

Lemma length_zip_with {A B C} (f : A -> B -> C) xs ys :
  length (zip_with f xs ys) = Nat.min (length xs) (length ys).
Proof.
  revert ys; induction xs as [|x xs IH]; intros [|y ys]; simpl; auto.
Qed.

Lemma nth_error_zip_with {A B C} (f : A -> B -> C) xs ys i :
  zip_with f xs ys !? i =
  match xs !? i, ys !? i with
  | Some x, Some y => Some (f x y)
  | _, _ => None
  end.
Proof.
  revert ys i; induction xs as [|x xs IH]; intros [|y ys] [|i]; simpl; auto.
  destruct (xs !? i); reflexivity.
Qed.

Lemma last_error_app1 {A} (xs : list A) (x : A) :
  last_error (xs ++ [x]) = Some x.
Proof.
  induction xs as [|a xs IH]; [reflexivity|].
  simpl. rewrite IH. destruct xs; reflexivity.
Qed.

Lemma last_error_nth {A} (xs : list A) :
  last_error xs = xs !? (length xs - 1).
Proof.
  induction xs as [|a xs IH]; [reflexivity|].
  destruct xs as [|b xs]; [reflexivity|].
  simpl in *. rewrite IH. rewrite Nat.sub_0_r. reflexivity.
Qed.

Lemma last_error_None {A} (xs : list A) : last_error xs = None <-> xs = [].
Proof.
  split; [|intros ->; reflexivity].
  induction xs as [|a xs IH]; [auto|].
  destruct xs; simpl; intros H; [discriminate|]. specialize (IH H). discriminate.
Qed.

Lemma last_error_In {A} (xs : list A) x : last_error xs = Some x -> In x xs.
Proof.
  induction xs as [|a xs IH]; [discriminate|].
  destruct xs as [|b xs]; simpl; [intros [=]; auto|].
  intros H. right. apply IH. exact H.
Qed.

Lemma last_error_map {A B} (f : A -> B) xs :
  last_error (map f xs) = option_map f (last_error xs).
Proof.
  induction xs as [|a xs IH]; [reflexivity|].
  destruct xs as [|b xs]; [reflexivity|]. exact IH.
Qed.

Lemma last_error_cons {A} (x : A) xs : xs <> [] -> last_error (x :: xs) = last_error xs.
Proof. destruct xs; [contradiction|reflexivity]. Qed.

Lemma nth_error_firstn_lt {A} (xs : list A) n i :
  i < n -> firstn n xs !? i = xs !? i.
Proof.
  revert xs i; induction n as [|n IH]; intros [|x xs] [|i] H; simpl; auto; try lia.
  apply IH. lia.
Qed.

Lemma removelast_map {A B} (f : A -> B) xs :
  removelast (map f xs) = map f (removelast xs).
Proof.
  induction xs as [|x xs IH]; [reflexivity|].
  destruct xs as [|y xs]; [reflexivity|].
  change (f x :: removelast (map f (y :: xs)) = f x :: map f (removelast (y :: xs))).
  rewrite IH. reflexivity.
Qed.

Lemma zip_with_map {A B C A' B'} (f : A' -> B' -> C) (g : A -> A') (h : B -> B') xs ys :
  zip_with f (map g xs) (map h ys) = zip_with (fun x y => f (g x) (h y)) xs ys.
Proof.
  revert ys; induction xs as [|x xs IH]; intros [|y ys]; simpl; f_equal; auto.
Qed.

Lemma map_zip_with {A B C D} (f : A -> B -> C) (g : C -> D) xs ys :
  map g (zip_with f xs ys) = zip_with (fun x y => g (f x y)) xs ys.
Proof.
  revert ys; induction xs as [|x xs IH]; intros [|y ys]; simpl; f_equal; auto.
Qed.

(** Dropping the last element of the longer list does not change a
    combination with a list that is shorter by at least one. *)
Lemma zip_with_removelast_l {A B C} (f : A -> B -> C) xs ys :
  length ys < length xs -> zip_with f (removelast xs) ys = zip_with f xs ys.
Proof.
  revert ys; induction xs as [|x xs IH]; intros ys H; [simpl in H; lia|].
  destruct ys as [|y ys]; [destruct xs; reflexivity|].
  destruct xs as [|x' xs]; [simpl in H; lia|].
  change (removelast (x :: x' :: xs)) with (x :: removelast (x' :: xs)).
  simpl. f_equal. apply IH. simpl in *. lia.
Qed.

#[export] Hint Rewrite @length_zip_with @nth_error_zip_with : backtest_rw.
#[export] Hint Rewrite @last_error_app1 @length_map : backtest_rw.

(** Keeping some rows of a frame keeps its index strictly ordered. *)
Lemma StronglySorted_map_filter {A B} (R : B -> B -> Prop) (f : A -> B) (p : A -> bool) xs :
  StronglySorted R (map f xs) -> StronglySorted R (map f (filter p xs)).
Proof.
  induction xs as [|x xs IH]; intros H; [constructor|].
  apply StronglySorted_inv in H as [Hs Hf]. cbn [filter]. destruct (p x); [|auto].
  constructor; [auto|]. apply Forall_forall. intros y Hy.
  apply in_map_iff in Hy as (z & <- & Hz). apply filter_In in Hz as [Hz _].
  rewrite Forall_forall in Hf. apply Hf, in_map, Hz.
Qed.

(** A strictly ordered list has no duplicate. *)
Lemma StronglySorted_NoDup {A} (R : A -> A -> Prop) (l : list A) :
  (forall x, ~ R x x) -> StronglySorted R l -> NoDup l.
Proof.
  intros Hirr H. induction H as [|x l _ IH Hf]; constructor; [|exact IH].
  intros Hx. rewrite Forall_forall in Hf. exact (Hirr x (Hf x Hx)).
Qed.

(** Two strictly increasing lists of integers with the same elements are
    equal. *)
Lemma StronglySorted_lt_ext (l1 l2 : list Z) :
  StronglySorted Z.lt l1 -> StronglySorted Z.lt l2 -> (forall x, In x l1 <-> In x l2) -> l1 = l2.
Proof.
  revert l2; induction l1 as [|a l1 IH]; intros [|b l2] H1 H2 He;
    [reflexivity| destruct (proj2 (He b) (or_introl eq_refl))
    | destruct (proj1 (He a) (or_introl eq_refl))|].
  apply StronglySorted_inv in H1 as [H1 F1]. apply StronglySorted_inv in H2 as [H2 F2].
  rewrite Forall_forall in F1, F2.
  assert (a = b) as <-.
  { destruct (proj1 (He a) (or_introl eq_refl)) as [|Ha]; [congruence|].
    destruct (proj2 (He b) (or_introl eq_refl)) as [|Hb]; [congruence|].
    pose proof (F1 b Hb). pose proof (F2 a Ha). lia. }
  f_equal. apply IH; [exact H1|exact H2|]. intros x. specialize (He x). simpl in He.
  split; intros Hx.
  - destruct (proj1 He (or_intror Hx)) as [<-|]; [pose proof (F1 a Hx); lia|assumption].
  - destruct (proj2 He (or_intror Hx)) as [<-|]; [pose proof (F2 a Hx); lia|assumption].
Qed.

(** An equation decided by evaluating a decision procedure. *)
Lemma dec_true {A} (dec : forall x y : A, {x = y} + {x <> y}) (x y : A) :
  (if dec x y then true else false) = true -> x = y.
Proof. destruct (dec x y); congruence. Qed.

(** ** Tactics *)

(** Invert a hypothesis and substitute its equations. *)
Ltac inv H := inversion H; subst; clear H.

(** Lengths of columns built by the primitives, through the rewrite
    database that each component extends with its length lemmas. *)
Ltac simpl_length := autorewrite with backtest_rw; try lia.
