(* ===== verification/Dates.v ===== *)
(** * Dates: the calendar, [strftime('%Y-%m-%d')] and its parsing

    A date of the model is a day number counted from 1970-01-01, as a
    [datetime64[D]] value of pandas.  Lines 28-29 and 71-72 turn the first
    and last date of the claims frame into strings with
    [Timestamp.strftime('%Y-%m-%d')], and [yf.download] turns them back
    into dates ([pd.Timestamp(s)]).  [civil_from_days] and
    [days_from_civil] convert between day numbers and (year, month, day)
    in the proleptic Gregorian calendar that numpy and pandas use; they
    are computed the way calendar libraries do it, by eras of 400 years
    (146097 days) counted from 0000-03-01, each era split into days
    ([civil_of_doe], [doe_of_civil]).  [strftime_ymd] prints the year on
    four digits, the month and the day on two, zero-padded; [parse_ymd]
    reads that form back and rejects a month or a day out of range (the
    [ValueError] of pandas).  Only the [YYYY-MM-DD] form the script
    produces is modelled: [pd.Timestamp] also accepts other spellings
    ([2022-1-8], [20220108], ...), which [parse_ymd] rejects, so no
    theorem here says anything about strings the script does not print.

    The theorems show that the calendar is right (day 0 is 1970-01-01 and
    the next day of a date is the date [next_date] computes from the month
    lengths and the leap-year rule), that [days_from_civil] inverts
    [civil_from_days] on every day, which is always a valid date, and
    that parsing a printed date gives the day back, so that printing is
    injective, for every date with a four-digit year (the dates a pandas [Timestamp] can hold, 1677-2262,
    are among them).  The proofs work on one era, by [lia] on the
    divisions by constants; the periodicity of the calendar (400 years
    are 146097 days) carries them to every era. *)

From Stdlib Require Import ZArith Lia String Ascii List Bool.
From S2P Require Import Prelude.
Open Scope Z_scope.
Open Scope bool_scope.

(** ** The calendar *)

Definition is_leap (y : Z) : bool :=
  (y mod 4 =? 0) && (negb (y mod 100 =? 0) || (y mod 400 =? 0)).

Definition days_in_month (y m : Z) : Z :=
  if m =? 2 then (if is_leap y then 29 else 28)
  else if (m =? 4) || (m =? 6) || (m =? 9) || (m =? 11) then 30
  else 31.

(** A date that exists: a month of the year and a day of that month. *)
Definition valid_date (y m d : Z) : bool :=
  (1 <=? m) && (m <=? 12) && (1 <=? d) && (d <=? days_in_month y m).

(** The date of the next day. *)
Definition next_date (ymd : Z * Z * Z) : Z * Z * Z :=
  let '(y, m, d) := ymd in
  if d <? days_in_month y m then (y, m, d + 1)
  else if m <? 12 then (y, m + 1, 1)
  else (y + 1, 1, 1).

(** Day [doe] of an era (0 is March 1st of its year 0) as the year of the
    era, counted from March, the month and the day. *)
Definition civil_of_doe (doe : Z) : Z * Z * Z :=
  let yoe := (doe - doe / 1460 + doe / 36524 - doe / 146096) / 365 in
  let doy := doe - (365 * yoe + yoe / 4 - yoe / 100) in
  let mp := (5 * doy + 2) / 153 in
  (yoe, (if mp <? 10 then mp + 3 else mp - 9), doy - (153 * mp + 2) / 5 + 1).

(** The days from March 1st to the first day of month [m]. *)
Definition month_offset (m : Z) : Z := (153 * (if 2 <? m then m - 3 else m + 9) + 2) / 5.

(** The day of the era of a year of the era, a month and a day. *)
Definition doe_of_civil (yoe m d : Z) : Z :=
  yoe * 365 + yoe / 4 - yoe / 100 + month_offset m + d - 1.

(** January and February belong to the era year that started the March
    before: their calendar year is one more. *)
Definition jan_feb (m : Z) : Z := if m <=? 2 then 1 else 0.

(** [datetime64[D]] to (year, month, day); 719468 is the number of days
    from 0000-03-01 to 1970-01-01. *)
Definition civil_from_days (z : Z) : Z * Z * Z :=
  let z' := z + 719468 in
  let '(yoe, m, d) := civil_of_doe (z' mod 146097) in
  (yoe + z' / 146097 * 400 + jan_feb m, m, d).

(** (year, month, day) to [datetime64[D]]. *)
Definition days_from_civil (y m d : Z) : Z :=
  let y' := y - jan_feb m in
  y' / 400 * 146097 + doe_of_civil (y' mod 400) m d - 719468.

(** ** Printing and parsing *)

Definition digit_char (n : Z) : ascii := ascii_of_nat (48 + Z.to_nat n).

Definition char_digit (c : ascii) : option Z :=
  let n := nat_of_ascii c in
  if (48 <=? n)%nat && (n <=? 57)%nat then Some (Z.of_nat n - 48) else None.

(** The last [k] decimal digits of [n], zero-padded, followed by [rest]
    (the [%04d] and [%02d] of a C format). *)
Fixpoint show_fixed (k : nat) (n : Z) (rest : string) : string :=
  match k with
  | O => rest
  | S k' => show_fixed k' (n / 10) (String (digit_char (n mod 10)) rest)
  end.

(** Read exactly [k] decimal digits after the value [acc] read so far. *)
Fixpoint read_fixed (k : nat) (acc : Z) (s : string) : option (Z * string) :=
  match k with
  | O => Some (acc, s)
  | S k' =>
      match s with
      | String c s' =>
          match char_digit c with
          | Some v => read_fixed k' (10 * acc + v) s'
          | None => None
          end
      | EmptyString => None
      end
  end.

(** [Timestamp.strftime('%Y-%m-%d')]. *)
Definition strftime_ymd (z : Z) : string :=
  let '(y, m, d) := civil_from_days z in
  show_fixed 4 y (String "-" (show_fixed 2 m (String "-" (show_fixed 2 d EmptyString)))).

(** A field followed by the separator [-]. *)
Definition expect_dash (r : option (Z * string)) : option (Z * string) :=
  match r with
  | Some (v, String c s) => if Ascii.eqb c "-" then Some (v, s) else None
  | _ => None
  end.

(** [pd.Timestamp(s)] on a string of the form [YYYY-MM-DD]: the day, or
    nothing for an invalid date.  Other spellings pandas accepts are
    outside the model and give nothing here. *)
Definition parse_ymd (s : string) : option Z :=
  match expect_dash (read_fixed 4 0 s) with
  | Some (y, s1) =>
      match expect_dash (read_fixed 2 0 s1) with
      | Some (m, s2) =>
          match read_fixed 2 0 s2 with
          | Some (d, EmptyString) =>
              if valid_date y m d then Some (days_from_civil y m d) else None
          | _ => None
          end
      | None => None
      end
  | None => None
  end.

(** The year of a day. *)
Definition year_of (z : Z) : Z := fst (fst (civil_from_days z)).

(** A day whose year prints on exactly four digits. *)
Definition four_digit (z : Z) : bool := (1000 <=? year_of z) && (year_of z <=? 9999).


(** ** Lemmas *)


Lemma valid_date_bounds y m d :
  valid_date y m d = true <-> 1 <= m <= 12 /\ 1 <= d <= days_in_month y m.
Proof. unfold valid_date. rewrite !andb_true_iff, !Z.leb_le. tauto. Qed.

Lemma is_leap_spec y :
  is_leap y = true <-> y mod 4 = 0 /\ (y mod 100 <> 0 \/ y mod 400 = 0).
Proof.
  unfold is_leap. rewrite andb_true_iff, orb_true_iff, negb_true_iff, !Z.eqb_eq, Z.eqb_neq.
  reflexivity.
Qed.

(** The calendar repeats every 400 years. *)
Lemma is_leap_period y q : is_leap (y + q * 400) = is_leap y.
Proof.
  unfold is_leap.
  replace (y + q * 400) with (y + (q * 100) * 4) at 1 by ring. rewrite Z.mod_add by lia.
  replace (y + q * 400) with (y + (q * 4) * 100) at 1 by ring. rewrite Z.mod_add by lia.
  rewrite Z.mod_add by lia. reflexivity.
Qed.

Lemma days_in_month_period y q m : days_in_month (y + q * 400) m = days_in_month y m.
Proof. unfold days_in_month. rewrite is_leap_period. reflexivity. Qed.

Lemma next_date_period y q m d :
  next_date (y + q * 400, m, d) =
  let '(y2, m2, d2) := next_date (y, m, d) in (y2 + q * 400, m2, d2).
Proof.
  unfold next_date. rewrite days_in_month_period.
  destruct (d <? days_in_month y m); [reflexivity|]. destruct (m <? 12); f_equal; f_equal; ring.
Qed.

(** The year of an era that a day of the era falls in, when the day is
    [doy] days after the year's March 1st. *)
Lemma yoe_recover yoe doy :
  0 <= yoe < 400 -> 0 <= doy -> doy <= 364 \/ doy = 365 /\ is_leap (yoe + 1) = true ->
  let doe := yoe * 365 + yoe / 4 - yoe / 100 + doy in
  (doe - doe / 1460 + doe / 36524 - doe / 146096) / 365 = yoe.
Proof.
  intros Hy Hd [Hd'|[-> Hl]] doe; subst doe; [Z.div_mod_to_equations; lia|].
  destruct (Z.eq_dec yoe 399) as [->|Hne]; [reflexivity|].
  apply is_leap_spec in Hl as [H4 [H100|H400]]; [Z.div_mod_to_equations; lia|].
  exfalso. Z.div_mod_to_equations. lia.
Qed.

(** [civil_of_doe] on a day given by its year and its day of the year. *)
Lemma civil_of_doe_eq yoe doy :
  0 <= yoe < 400 -> 0 <= doy -> doy <= 364 \/ doy = 365 /\ is_leap (yoe + 1) = true ->
  civil_of_doe (yoe * 365 + yoe / 4 - yoe / 100 + doy) =
  (yoe, (if (5 * doy + 2) / 153 <? 10 then (5 * doy + 2) / 153 + 3 else (5 * doy + 2) / 153 - 9),
   doy - (153 * ((5 * doy + 2) / 153) + 2) / 5 + 1).
Proof.
  intros Hy Hd Hl. unfold civil_of_doe. rewrite (yoe_recover yoe doy Hy Hd Hl).
  replace (yoe * 365 + yoe / 4 - yoe / 100 + doy - (365 * yoe + yoe / 4 - yoe / 100)) with doy
    by ring.
  reflexivity.
Qed.


(** Evaluate the divisions of constants left by [cbn]. *)
Ltac const_div :=
  repeat match goal with
         | |- context [Zpos ?a / Zpos ?b] =>
             let v := eval vm_compute in (Zpos a / Zpos b) in change (Zpos a / Zpos b) with v
         | H : context [Zpos ?a / Zpos ?b] |- _ =>
             let v := eval vm_compute in (Zpos a / Zpos b) in change (Zpos a / Zpos b) with v in H
         end.

(** Substitute each value of a disjunction [x = a \/ x = b \/ ...] in its
    own goal. *)
Ltac case_values H :=
  lazymatch type of H with
  | _ \/ _ => destruct H as [-> | H]; [|case_values H]
  | ?x = _ => subst x
  end.

(** Split on the twelve months. *)
Ltac month_cases m :=
  let Hc := fresh "Hc" in
  assert (Hc : m = 1 \/ m = 2 \/ m = 3 \/ m = 4 \/ m = 5 \/ m = 6 \/ m = 7 \/
               m = 8 \/ m = 9 \/ m = 10 \/ m = 11 \/ m = 12) by lia;
  case_values Hc.

(** Close an arithmetic goal, using the leap-year hypothesis [L] when
    there is one. *)
Ltac leap_lia :=
  rewrite ?Z.add_simpl_r, ?Z.add_0_r, ?Z.sub_0_r;
  first [ lia
        | match goal with |- context [if is_leap ?y then _ else _] =>
            destruct (is_leap y); lia end
        | match goal with
          | L : is_leap _ = true |- _ => apply is_leap_spec in L
          | L : is_leap _ = false |- _ => apply not_true_iff_false in L; rewrite is_leap_spec in L
          end; Z.div_mod_to_equations; lia ].

(** Every day of an era is a valid date of its calendar year, whose
    conversion back gives the day. *)
Lemma civil_of_doe_spec doe :
  0 <= doe < 146097 ->
  let '(yoe, m, d) := civil_of_doe doe in
  0 <= yoe < 400 /\ valid_date (yoe + jan_feb m) m d = true /\ doe_of_civil yoe m d = doe.
Proof.
  intros H. unfold civil_of_doe.
  set (yoe := (doe - doe / 1460 + doe / 36524 - doe / 146096) / 365).
  set (doy := doe - (365 * yoe + yoe / 4 - yoe / 100)).
  set (mp := (5 * doy + 2) / 153).
  assert (Hfeb : doy = 365 -> is_leap (yoe + 1) = true).
  { intros E. apply is_leap_spec. subst doy yoe. Z.div_mod_to_equations. lia. }
  assert (Hy : 0 <= yoe < 400 /\ 0 <= doy <= 365) by (subst doy yoe; Z.div_mod_to_equations; lia).
  assert (Hm : 153 * mp <= 5 * doy + 2 < 153 * mp + 153) by (subst mp; Z.div_mod_to_equations; lia).
  assert (Hdoe : doe = 365 * yoe + yoe / 4 - yoe / 100 + doy) by (subst doy; ring).
  clearbody mp doy yoe. split; [lia|]. rewrite valid_date_bounds.
  unfold doe_of_civil, month_offset, days_in_month, jan_feb.
  assert (mp = 0 \/ mp = 1 \/ mp = 2 \/ mp = 3 \/ mp = 4 \/ mp = 5 \/ mp = 6 \/ mp = 7 \/
          mp = 8 \/ mp = 9 \/ mp = 10 \/ mp = 11) as Hc by lia.
  case_values Hc;
    cbn -[is_leap Z.div]; const_div.
  12: destruct (is_leap (yoe + 1)) eqn:L.
  all: split; [split; [lia|]|]; lia.
Qed.

(** Conversely every valid date of an era is the conversion of its day. *)
Lemma civil_of_doe_of_civil yoe m d :
  0 <= yoe < 400 -> valid_date (yoe + jan_feb m) m d = true ->
  civil_of_doe (doe_of_civil yoe m d) = (yoe, m, d).
Proof.
  intros Hy Hv. apply valid_date_bounds in Hv as [Hm Hd].
  unfold doe_of_civil, month_offset, days_in_month, jan_feb in *.
  month_cases m; cbn -[is_leap Z.div] in Hd |- *; const_div.
  2: destruct (is_leap (yoe + 1)) eqn:L.
  all: match goal with |- civil_of_doe (?x + ?c + ?e - 1) = _ =>
         replace (x + c + e - 1) with (x + (c + e - 1)) by ring end.
  all: rewrite civil_of_doe_eq; [|lia|lia|].
  all: try (destruct (Z.eq_dec d 29); [right; split; [lia|exact L]|left; lia]); try (left; lia).
  all: match goal with |- context [?a / 153 <? 10] => destruct (Z.ltb_spec (a / 153) 10) end.
  all: f_equal; [f_equal|]; Z.div_mod_to_equations; lia.
Qed.

(** The next day inside an era: the next date, one day later. *)
Lemma doe_of_civil_next yoe m d :
  0 <= yoe < 400 -> valid_date (yoe + jan_feb m) m d = true -> doe_of_civil yoe m d < 146096 ->
  let '(y2, m2, d2) := next_date (yoe + jan_feb m, m, d) in
  0 <= y2 - jan_feb m2 < 400 /\ valid_date y2 m2 d2 = true /\
  doe_of_civil (y2 - jan_feb m2) m2 d2 = doe_of_civil yoe m d + 1.
Proof.
  intros Hy Hv Hlt. apply valid_date_bounds in Hv as [Hm Hd].
  unfold next_date, doe_of_civil, month_offset, days_in_month, jan_feb in *.
  month_cases m; cbn -[is_leap Z.div valid_date] in Hd, Hlt |- *; const_div.
  2: destruct (is_leap (yoe + 1)) eqn:L.
  all: match goal with |- context [?a <? ?x] => is_var a; destruct (Z.ltb_spec a x) end.
  all: cbn -[is_leap Z.div valid_date]; rewrite valid_date_bounds;
    unfold days_in_month; cbn -[is_leap Z.div]; const_div.
  all: split; [|split; [split|]]; leap_lia.
Qed.

(** Division by 400 of a year given by its era and its year of era. *)
Lemma era_year_div yoe q : 0 <= yoe < 400 -> (yoe + q * 400) / 400 = q /\ (yoe + q * 400) mod 400 = yoe.
Proof. intros H. split; Z.div_mod_to_equations; lia. Qed.

(** [civil_from_days] of a day given by its era and its day of era. *)
Lemma civil_from_days_eq z q r :
  z + 719468 = q * 146097 + r -> 0 <= r < 146097 ->
  civil_from_days z = let '(yoe, m, d) := civil_of_doe r in (yoe + q * 400 + jan_feb m, m, d).
Proof.
  intros Hz Hr. unfold civil_from_days.
  replace ((z + 719468) / 146097) with q by (Z.div_mod_to_equations; lia).
  replace ((z + 719468) mod 146097) with r by (Z.div_mod_to_equations; lia). reflexivity.
Qed.

Lemma days_in_month_le y m : days_in_month y m <= 31.
Proof. unfold days_in_month. destruct (m =? 2), (is_leap y), ((m =? 4) || (m =? 6) || (m =? 9) || (m =? 11)); lia. Qed.

(** Every day is a valid date, and converting it back gives the day. *)
Lemma civil_from_days_spec z :
  let '(y, m, d) := civil_from_days z in valid_date y m d = true /\ days_from_civil y m d = z.
Proof.
  pose proof (Z.mod_pos_bound (z + 719468) 146097 ltac:(lia)) as Hr.
  pose proof (Z.div_mod (z + 719468) 146097 ltac:(lia)) as Hq.
  rewrite (civil_from_days_eq z ((z + 719468) / 146097) ((z + 719468) mod 146097)) by lia.
  pose proof (civil_of_doe_spec _ Hr) as Hs.
  destruct (civil_of_doe _) as [[yoe m] d]. destruct Hs as (Hy & Hv & He). split.
  - replace (yoe + _ * 400 + jan_feb m) with (yoe + jan_feb m + (z + 719468) / 146097 * 400)
      by ring.
    unfold valid_date in *. rewrite days_in_month_period. exact Hv.
  - unfold days_from_civil.
    replace (yoe + _ * 400 + jan_feb m - jan_feb m) with (yoe + (z + 719468) / 146097 * 400)
      by ring.
    destruct (era_year_div yoe ((z + 719468) / 146097) Hy) as [-> ->]. rewrite He. lia.
Qed.

Lemma char_digit_char v : 0 <= v < 10 -> char_digit (digit_char v) = Some v.
Proof.
  intros H. assert (v = 0 \/ v = 1 \/ v = 2 \/ v = 3 \/ v = 4 \/ v = 5 \/ v = 6 \/ v = 7 \/
                    v = 8 \/ v = 9) as Hc by lia.
  case_values Hc; reflexivity.
Qed.

(** Reading one digit more is reading the others, then that digit. *)
Lemma read_fixed_S k acc s :
  read_fixed (S k) acc s =
  match read_fixed k acc s with
  | Some (v, String c s') => option_map (fun x => (10 * v + x, s')) (char_digit c)
  | _ => None
  end.
Proof.
  revert acc s. induction k as [|k IH]; intros acc [|c s]; try reflexivity.
  change (read_fixed (S (S k)) acc (String c s)) with
    (match char_digit c with Some v => read_fixed (S k) (10 * acc + v) s | None => None end).
  change (read_fixed (S k) acc (String c s)) with
    (match char_digit c with Some v => read_fixed k (10 * acc + v) s | None => None end).
  destruct (char_digit c) as [v|]; [apply IH|reflexivity].
Qed.

(** Reading back [k] printed digits. *)
Lemma read_show_fixed k n acc rest :
  0 <= n < 10 ^ Z.of_nat k -> read_fixed k acc (show_fixed k n rest) = Some (acc * 10 ^ Z.of_nat k + n, rest).
Proof.
  revert n rest. induction k as [|k IH]; intros n rest Hn.
  - cbn in *. f_equal. f_equal. lia.
  - rewrite Nat2Z.inj_succ, Z.pow_succ_r in * by lia. cbn [show_fixed].
    rewrite read_fixed_S, IH by (split; [apply Z.div_pos|apply Z.div_lt_upper_bound]; lia).
    rewrite char_digit_char by (apply Z.mod_pos_bound; lia). cbn [option_map].
    f_equal. f_equal. pose proof (Z.div_mod n 10 ltac:(lia)). lia.
Qed.

(** Printing a day with a year of at most four digits and parsing the
    string gives the day back. *)
Lemma parse_strftime_day z :
  0 <= year_of z < 10000 -> parse_ymd (strftime_ymd z) = Some z.
Proof.
  unfold year_of, strftime_ymd. intros H4.
  pose proof (civil_from_days_spec z) as Hs.
  destruct (civil_from_days z) as [[y m] d]. cbn [fst] in H4. destruct Hs as [Hv He].
  pose proof Hv as Hb. apply valid_date_bounds in Hb as [Hm Hd].
  pose proof (days_in_month_le y m).
  unfold parse_ymd. rewrite read_show_fixed by (cbn; lia). cbn [expect_dash Ascii.eqb Bool.eqb].
  rewrite read_show_fixed by (cbn; lia). cbn [expect_dash Ascii.eqb Bool.eqb].
  rewrite read_show_fixed by (cbn; lia). cbv beta iota.
  replace (0 * 10 ^ Z.of_nat 4 + y) with y by ring.
  replace (0 * 10 ^ Z.of_nat 2 + m) with m by ring.
  replace (0 * 10 ^ Z.of_nat 2 + d) with d by ring.
  rewrite Hv, He. reflexivity.
Qed.

Lemma four_digit_year z : four_digit z = true -> 0 <= year_of z < 10000.
Proof. unfold four_digit. rewrite andb_true_iff, !Z.leb_le. lia. Qed.

(** The day of the era of a valid date of the era is in the era. *)
Lemma doe_of_civil_bounds yoe m d :
  0 <= yoe < 400 -> valid_date (yoe + jan_feb m) m d = true -> 0 <= doe_of_civil yoe m d < 146097.
Proof.
  intros Hy Hv. apply valid_date_bounds in Hv as [Hm Hd].
  unfold doe_of_civil, month_offset, days_in_month, jan_feb in *.
  month_cases m; cbn -[is_leap Z.div] in Hd |- *; const_div.
  2: destruct (is_leap (yoe + 1)).
  all: Z.div_mod_to_equations; lia.
Qed.

(** Converting a valid date to its day and back gives the date. *)
Lemma civil_of_days_from_civil y m d :
  valid_date y m d = true -> civil_from_days (days_from_civil y m d) = (y, m, d).
Proof.
  intros Hv. unfold days_from_civil. set (y' := y - jan_feb m).
  pose proof (Z.mod_pos_bound y' 400 ltac:(lia)) as Hy.
  assert (Hv' : valid_date (y' mod 400 + jan_feb m) m d = true).
  { unfold valid_date in *. replace (y' mod 400 + jan_feb m) with (y + (- (y' / 400)) * 400)
      by (pose proof (Z.div_mod y' 400 ltac:(lia)); subst y'; lia).
    rewrite days_in_month_period. exact Hv. }
  pose proof (civil_of_doe_spec (doe_of_civil (y' mod 400) m d)) as Hs.
  rewrite civil_of_doe_of_civil in Hs by assumption.
  rewrite (civil_from_days_eq _ (y' / 400) (doe_of_civil (y' mod 400) m d))
    by (lia || apply doe_of_civil_bounds; assumption).
  rewrite civil_of_doe_of_civil by assumption. f_equal. f_equal.
  pose proof (Z.div_mod y' 400 ltac:(lia)). subst y'. lia.
Qed.

(** ** Theorems *)

(** C15: The calendar.  Day 0 is 1970-01-01, and the date of the day
    after any day is the next date of its date: the following day of the
    month, or the first of the next month, or January 1st of the next
    year, by the month lengths and the Gregorian leap-year rule.  With
    the epoch this determines [civil_from_days] on every day, past and
    future. *)
Theorem calendar_next_day :
  civil_from_days 0 = (1970, 1, 1) /\
  forall z, civil_from_days (z + 1) = next_date (civil_from_days z).
Proof.
  split; [reflexivity|]. intros z.
  set (q := (z + 719468) / 146097). set (r := (z + 719468) mod 146097).
  pose proof (Z.mod_pos_bound (z + 719468) 146097 ltac:(lia)) as Hr.
  pose proof (Z.div_mod (z + 719468) 146097 ltac:(lia)) as Hq. fold q r in Hr, Hq.
  rewrite (civil_from_days_eq z q r) by lia.
  destruct (Z.eq_dec r 146096) as [Er|Er].
  - rewrite (civil_from_days_eq (z + 1) (q + 1) 0) by lia. rewrite Er.
    replace (civil_of_doe 146096) with (399, 2, 29) by reflexivity.
    replace (civil_of_doe 0) with (0, 3, 1) by reflexivity.
    change (jan_feb 2) with 1. change (jan_feb 3) with 0.
    replace (399 + q * 400 + 1) with (400 + q * 400) by ring. rewrite next_date_period.
    replace (next_date (400, 2, 29)) with (400, 3, 1) by reflexivity. f_equal. f_equal. ring.
  - rewrite (civil_from_days_eq (z + 1) q (r + 1)) by lia.
    pose proof (civil_of_doe_spec r Hr) as Hs.
    destruct (civil_of_doe r) as [[yoe m] d]. destruct Hs as (Hy & Hv & He).
    pose proof (doe_of_civil_next yoe m d Hy Hv ltac:(lia)) as Hn.
    replace (yoe + q * 400 + jan_feb m) with (yoe + jan_feb m + q * 400) by ring.
    rewrite next_date_period.
    destruct (next_date (yoe + jan_feb m, m, d)) as [[y2 m2] d2]. destruct Hn as (Hy2 & Hv2 & He2).
    rewrite He in He2. rewrite <- He2, civil_of_doe_of_civil; [f_equal; f_equal; ring|exact Hy2|].
    replace (y2 - jan_feb m2 + jan_feb m2) with y2 by ring. exact Hv2.
Qed.

(** C14: Round trip of the date strings.  For a day with a four-digit
    year, parsing its [strftime('%Y-%m-%d')] gives the day back, and no
    other such day prints the same string: the window the script prints
    on lines 28-29 and 71-72 is the window the download receives. *)
Theorem strftime_roundtrip z : four_digit z = true ->
  parse_ymd (strftime_ymd z) = Some z /\
  forall z', four_digit z' = true -> strftime_ymd z' = strftime_ymd z -> z' = z.
Proof.
  intros H4. split; [apply parse_strftime_day, four_digit_year, H4|].
  intros z' H4' Es. apply four_digit_year, parse_strftime_day in H4, H4'.
  rewrite Es, H4 in H4'. congruence.
Qed.

(** ** Witnesses *)

(** 2022-01-08 is day 19000 and prints as such. *)
Lemma strftime_roundtrip_witness :
  strftime_ymd 19000 = "2022-01-08"%string /\ parse_ymd "2022-01-08"%string = Some 19000.
Proof.
  split; [vm_compute; reflexivity|].
  change "2022-01-08"%string with (strftime_ymd 19000).
  apply (strftime_roundtrip 19000). vm_compute. reflexivity.
Defined.
