(* ===== verification/PyFloat.v ===== *)
(** * Float64 values of numpy and pandas

    Every column the script builds holds IEEE doubles, and pandas marks a
    missing value with NaN.  A value is modelled as [ext K]: a finite
    number of the carrier [K], one of the two infinities, or NaN.  The
    carrier is an interface, the class [FloatCarrier]: exact rationals
    [Qc] (executable, used for every column of the pipeline) and reals [R]
    (used for the metrics that need [**] and [sqrt]).  Rounding and the
    sign of zero are abstracted: finite arithmetic is exact, and [0.0]
    behaves as [+0.0].  The special values follow IEEE 754: NaN absorbs
    every operation, [inf - inf], [0 * inf], [0 / 0] and [inf / inf] are
    NaN, [x / 0] is an infinity of the sign of [x], and every comparison
    with NaN is false except [!=]. *)

From Stdlib Require Import List ZArith QArith Qcanon Lqa Reals Lra Lia ROrderedType Qreals.
From S2P Require Import Prelude.
Import ListNotations.

(** The number carrier: what the float model needs of its finite part. *)
Class FloatCarrier (K : Type) := {
  k_ofQ : Q -> K;
  k_add : K -> K -> K;
  k_mul : K -> K -> K;
  k_opp : K -> K;
  k_inv : K -> K;
  k_cmp : K -> K -> comparison
}.

Inductive ext (K : Type) : Type :=
| Fin (k : K)
| PInf
| NInf
| NaN.
Arguments Fin {K} k.
Arguments PInf {K}.
Arguments NInf {K}.
Arguments NaN {K}.

Section Ext.
Context {K : Type} `{FloatCarrier K}.

Definition k_zero : K := k_ofQ 0.
Definition k_one : K := k_ofQ 1.

(** A float literal. *)
Definition fq (q : Q) : ext K := Fin (k_ofQ q).

(** [math.isnan] / [pd.isna]. *)
Definition isnan (x : ext K) : bool :=
  match x with NaN => true | _ => false end.

Definition fneg (x : ext K) : ext K :=
  match x with
  | Fin a => Fin (k_opp a)
  | PInf => NInf
  | NInf => PInf
  | NaN => NaN
  end.

Definition fadd (x y : ext K) : ext K :=
  match x, y with
  | NaN, _ | _, NaN => NaN
  | Fin a, Fin b => Fin (k_add a b)
  | PInf, NInf | NInf, PInf => NaN
  | PInf, _ | _, PInf => PInf
  | NInf, _ | _, NInf => NInf
  end.

Definition fsub (x y : ext K) : ext K := fadd x (fneg y).

(** An infinity [i] scaled by a finite number of sign [c]. *)
Definition scale_inf (c : comparison) (i : ext K) : ext K :=
  match c with Eq => NaN | Gt => i | Lt => fneg i end.

Definition fsign (a : K) : comparison := k_cmp a k_zero.

Definition fmul (x y : ext K) : ext K :=
  match x, y with
  | NaN, _ | _, NaN => NaN
  | Fin a, Fin b => Fin (k_mul a b)
  | Fin a, i | i, Fin a => scale_inf (fsign a) i
  | PInf, PInf | NInf, NInf => PInf
  | _, _ => NInf
  end.

Definition fdiv (x y : ext K) : ext K :=
  match x, y with
  | NaN, _ | _, NaN => NaN
  | Fin a, Fin b =>
      match fsign b with
      | Eq => scale_inf (fsign a) PInf
      | _ => Fin (k_mul a (k_inv b))
      end
  | Fin _, _ => Fin k_zero
  | i, Fin b => match fsign b with Lt => fneg i | _ => i end
  | _, _ => NaN
  end.

(** The IEEE ordering; [None] when a NaN makes the values unordered. *)
Definition fcmp (x y : ext K) : option comparison :=
  match x, y with
  | NaN, _ | _, NaN => None
  | Fin a, Fin b => Some (k_cmp a b)
  | NInf, NInf | PInf, PInf => Some Eq
  | NInf, _ | _, PInf => Some Lt
  | _, _ => Some Gt
  end.

Definition flt (x y : ext K) : bool :=
  match fcmp x y with Some Lt => true | _ => false end.
Definition fgt (x y : ext K) : bool :=
  match fcmp x y with Some Gt => true | _ => false end.
(** [x != y] holds for unordered values. *)
Definition fne (x y : ext K) : bool :=
  match fcmp x y with Some Eq => false | _ => true end.

(** [sum(xs)] with numpy's left-to-right accumulation. *)
Definition fsum (xs : list (ext K)) : ext K := fold_left fadd xs (fq 0).

(** An [int] converted to a float. *)
Definition fnat (n : nat) : ext K := fq (inject_Z (Z.of_nat n)).
End Ext.

Declare Scope float_scope.
Delimit Scope float_scope with fl.
Infix "+." := fadd (at level 50, left associativity) : float_scope.
Infix "-." := fsub (at level 50, left associativity) : float_scope.
Infix "/." := fdiv (at level 40, left associativity) : float_scope.
Infix "<." := flt (at level 70, no associativity) : float_scope.
Infix ">." := fgt (at level 70, no associativity) : float_scope.
Open Scope float_scope.

#[export] Instance FloatCarrier_Qc : FloatCarrier Qc := {|
  k_ofQ := Q2Qc; k_add := Qcplus; k_mul := Qcmult; k_opp := Qcopp;
  k_inv := Qcinv; k_cmp := Qccompare |}.

#[export] Instance FloatCarrier_R : FloatCarrier R := {|
  k_ofQ := Q2R; k_add := Rplus; k_mul := Rmult; k_opp := Ropp;
  k_inv := Rinv; k_cmp := Rcompare |}.

(** The pipeline's values, with an executable carrier. *)
Abbreviation F := (ext Qc).
(** The metrics' values. *)
Abbreviation FR := (ext R).

(** The value of a pipeline float as a real. *)
Definition to_R (x : F) : FR :=
  match x with
  | Fin a => Fin (Q2R a)
  | PInf => PInf
  | NInf => NInf
  | NaN => NaN
  end.

(** [np.sqrt] on a float64. *)
Definition fsqrt (x : FR) : FR :=
  match x with
  | Fin a => match Rcompare a 0 with Lt => NaN | _ => Fin (sqrt a) end
  | PInf => PInf
  | NInf | NaN => NaN
  end.

(** [x ** y] for a float64 [x] and a finite exponent [y] (C99 [pow]):
    [x ** 0] is 1 even for NaN; a positive base gives [exp (y ln x)]; a
    negative base needs an integer exponent, otherwise the result is NaN;
    zero and the infinities follow the sign of [y]. *)
Definition is_int (y : Q) : bool := Pos.eqb (Qden (Qred y)) 1.
Definition is_odd_int (y : Q) : bool := is_int y && Z.odd (Qnum (Qred y)).

Definition fpow (x : FR) (y : Q) : FR :=
  if Qeq_bool y 0 then Fin 1%R else
  match x with
  | NaN => NaN
  | Fin a =>
      match Rcompare a 0 with
      | Gt => Fin (Rpower a (Q2R y))
      | Eq => if negb (Qle_bool y 0) then Fin 0%R else PInf
      | Lt => if is_int y then Fin (powerRZ a (Qnum (Qred y))) else NaN
      end
  | PInf => if negb (Qle_bool y 0) then PInf else Fin 0%R
  | NInf =>
      if negb (Qle_bool y 0) then (if is_odd_int y then NInf else PInf) else Fin 0%R
  end.

(** ** Facts about the special values *)

Section ExtFacts.
Context {K : Type} `{FloatCarrier K}.

Lemma fadd_nan_r (x : ext K) : x +. NaN = NaN.
Proof. destruct x; reflexivity. Qed.

Lemma fmul_nan_r (x : ext K) : fmul x NaN = NaN.
Proof. destruct x; reflexivity. Qed.

Lemma fdiv_nan_r (x : ext K) : x /. NaN = NaN.
Proof. destruct x; reflexivity. Qed.

Lemma flt_nan_l (y : ext K) : (NaN <. y) = false.
Proof. reflexivity. Qed.

Lemma fgt_nan_l (y : ext K) : (NaN >. y) = false.
Proof. reflexivity. Qed.

Lemma fne_nan_l (y : ext K) : fne NaN y = true.
Proof. reflexivity. Qed.
End ExtFacts.

#[export] Hint Rewrite @fadd_nan_r @fmul_nan_r @fdiv_nan_r : backtest_rw.

(** ** The [Qc] carrier *)

Lemma Qccompare_spec_eq (a b : Qc) : Qccompare a b = Eq <-> a = b.
Proof. symmetry. apply Qceq_alt. Qed.

Lemma fsign_Qc_pos (a : Qc) : (0 < a)%Qc -> fsign a = Gt.
Proof. intros Ha. apply Qcgt_alt. exact Ha. Qed.

Lemma fsign_Qc_neg (a : Qc) : (a < 0)%Qc -> fsign a = Lt.
Proof. intros Ha. apply Qclt_alt. exact Ha. Qed.

Lemma fsign_Qc_zero (a : Qc) : fsign a = Eq <-> a = 0%Qc.
Proof. apply Qccompare_spec_eq. Qed.

(** Finite arithmetic on [F] is the field arithmetic of [Qc]. *)
Lemma fadd_fin (a b : Qc) : Fin a +. Fin b = Fin (a + b)%Qc.
Proof. reflexivity. Qed.

Lemma fmul_fin (a b : Qc) : fmul (Fin a) (Fin b) = Fin (a * b)%Qc.
Proof. reflexivity. Qed.

Lemma fsub_fin (a b : Qc) : Fin a -. Fin b = Fin (a - b)%Qc.
Proof. reflexivity. Qed.

Lemma fdiv_fin (a b : Qc) : b <> 0%Qc -> Fin a /. Fin b = Fin (a / b)%Qc.
Proof.
  intros Hb. unfold fdiv.
  destruct (fsign b) eqn:E; try reflexivity.
  apply fsign_Qc_zero in E. contradiction.
Qed.

#[export] Hint Rewrite fadd_fin fmul_fin fsub_fin : backtest_rw.

(** Linear arithmetic over [Qc], through the underlying [Q]. *)
Ltac qc_lra := unfold Qclt, Qcle in *; simpl this in *; Lqa.lra.

Lemma flt_fin (a b : Qc) : (Fin a <. Fin b) = true <-> (a < b)%Qc.
Proof.
  unfold flt, fcmp. simpl. rewrite Qclt_alt.
  destruct (Qccompare a b); split; congruence.
Qed.

Lemma fgt_fin (a b : Qc) : (Fin a >. Fin b) = true <-> (b < a)%Qc.
Proof.
  unfold fgt, fcmp. simpl. change ((b < a)%Qc) with (Qcgt a b). rewrite Qcgt_alt.
  destruct (Qccompare a b); split; congruence.
Qed.

Lemma flt_fin_true (a b : Qc) : (a < b)%Qc -> (Fin a <. Fin b) = true.
Proof. apply flt_fin. Qed.

Lemma flt_fin_false (a b : Qc) : (b <= a)%Qc -> (Fin a <. Fin b) = false.
Proof.
  intros H. destruct (Fin a <. Fin b) eqn:E; [|reflexivity].
  apply flt_fin in E. qc_lra.
Qed.

Lemma fgt_fin_true (a b : Qc) : (b < a)%Qc -> (Fin a >. Fin b) = true.
Proof. apply fgt_fin. Qed.

Lemma fgt_fin_false (a b : Qc) : (a <= b)%Qc -> (Fin a >. Fin b) = false.
Proof.
  intros H. destruct (Fin a >. Fin b) eqn:E; [|reflexivity].
  apply fgt_fin in E. qc_lra.
Qed.

(** An [int] as an exact rational, the finite part of [fnat]. *)
Definition qn (n : nat) : Qc := Q2Qc (inject_Z (Z.of_nat n)).

Lemma fnat_qn n : (fnat n : F) = Fin (qn n).
Proof. reflexivity. Qed.

Lemma qn_S n : qn (S n) = (qn n + 1)%Qc.
Proof.
  unfold qn, Qcplus. apply Q2Qc_eq_iff. cbn [this Q2Qc].
  rewrite Qred_correct, Qred_correct, Nat2Z.inj_succ, <- Z.add_1_r, inject_Z_plus.
  reflexivity.
Qed.

Lemma qn_nonzero n : (1 <= n)%nat -> qn n <> 0%Qc.
Proof.
  intros Hn E. unfold qn in E. apply Q2Qc_eq_iff in E.
  unfold Qeq in E. simpl in E. lia.
Qed.

(** ** The [R] carrier *)

Lemma Rcompare_gt (x y : R) : (y < x)%R -> Rcompare x y = Gt.
Proof. intros H. destruct (Rcompare_spec x y); auto; lra. Qed.

Lemma Rcompare_refl (x : R) : Rcompare x x = Eq.
Proof. destruct (Rcompare_spec x x); auto; lra. Qed.

Lemma Q2R_Qc_pos (c : Qc) : (0 < c)%Qc -> (0 < Q2R c)%R.
Proof. intros H. apply Qlt_Rlt in H. unfold Q2R at 1 in H. simpl in H. lra. Qed.

Lemma Q2R_Qc0 : Q2R (this (Q2Qc 0)) = 0%R.
Proof. unfold Q2R. simpl. lra. Qed.

Lemma Q2R_one : Q2R 1 = 1%R.
Proof. unfold Q2R. simpl. lra. Qed.

(** A positive base raised to a nonzero exponent is [Rpower]. *)
Lemma fpow_pos (c : R) (y : Q) :
  (0 < c)%R -> Qeq_bool y 0 = false -> fpow (Fin c) y = Fin (Rpower c (Q2R y)).
Proof. intros Hc Hy. unfold fpow. rewrite Hy, Rcompare_gt by exact Hc. reflexivity. Qed.

(** The annualization exponent [52 / weeks] is never 0. *)
Lemma annual_exponent_nonzero (n : nat) :
  (1 <= n)%nat -> Qeq_bool (inject_Z 52 / inject_Z (Z.of_nat n)) 0 = false.
Proof.
  intros Hn. destruct (Qeq_bool _ _) eqn:E; [|reflexivity].
  apply Qeq_bool_eq in E. destruct n as [|n]; [lia|].
  unfold Qeq in E. simpl in E. lia.
Qed.

(** Decidable equality of pipeline floats, used to evaluate concrete runs. *)
Definition F_eq_dec (x y : F) : {x = y} + {x <> y}.
Proof. decide equality. apply Qc_eq_dec. Defined.

(** Closes an equation between concrete pipeline values by evaluation. *)
Definition optF_eq_dec (x y : option F) : {x = y} + {x <> y}.
Proof. decide equality. apply F_eq_dec. Defined.

Ltac f_compute :=
  first [ apply (dec_true F_eq_dec)
        | apply (dec_true optF_eq_dec)
        | apply (dec_true (list_eq_dec F_eq_dec)) ];
  vm_compute; reflexivity.
