(* ===== verification/Pandas.v ===== *)
(** * pandas column primitives

    The column operations the script calls, on the values of a series
    (the index is carried by the frames that use them, and every
    operation here keeps one value per row, so positions are rows):
    [ffill], [shift(1)], [pct_change], [cumprod], [dropna], [mean] and
    the sample variance behind [std].  Each is written the way pandas 2.x
    computes it (nanops, algos), with the NaN handling of the library:
    [pct_change] pads NaN before dividing (the default [fill_method] of
    pandas 2.x), [cumprod] skips NaN and leaves them in place, [mean] and
    [var] ignore NaN and [var] (ddof = 1) is NaN below two values.
    Each primitive comes with its reference characterization (what value
    sits at row [i]), which the components' theorems use. *)

From Stdlib Require Import List ZArith QArith Qcanon Lia.
From S2P Require Import Prelude PyFloat.
Open Scope nat_scope.
Import ListNotations.

(** ** Definitions *)

(** [s.ffill()]: each NaN takes the last non-NaN value before it. *)
Fixpoint ffill_from (prev : F) (xs : list F) : list F :=
  match xs with
  | [] => []
  | x :: xs' =>
      if isnan x then prev :: ffill_from prev xs' else x :: ffill_from x xs'
  end.

Definition ffill (xs : list F) : list F := ffill_from NaN xs.

(** [s.shift(1)]: one row down, NaN in the first row. *)
Definition shift1 (xs : list F) : list F :=
  match xs with
  | [] => []
  | _ => NaN :: removelast xs
  end.

(** [s.pct_change()]: [d / d.shift(1) - 1] on the padded series [d]. *)
Definition pct_change (xs : list F) : list F :=
  let d := ffill xs in
  zip_with (fun a b => a /. b -. fq 1) d (shift1 d).

(** [s.cumprod()] with [skipna=True]: a NaN row stays NaN and does not
    enter the running product. *)
Fixpoint cumprod_from (acc : F) (xs : list F) : list F :=
  match xs with
  | [] => []
  | x :: xs' =>
      if isnan x then NaN :: cumprod_from acc xs'
      else let a := fmul acc x in a :: cumprod_from a xs'
  end.

Definition cumprod (xs : list F) : list F := cumprod_from (fq 1) xs.

(** [s.dropna()] on the values of a series. *)
Definition dropna (xs : list F) : list F := filter (fun x => negb (isnan x)) xs.

(** [s.mean()]: sum over count of the non-NaN values (NaN when empty). *)
Definition mean (xs : list F) : F :=
  let v := dropna xs in fsum v /. fnat (length v).

(** [s.var()] (ddof = 1), the two-pass algorithm of [nanops.nanvar]. *)
Definition var (xs : list F) : F :=
  let v := dropna xs in
  let n := length v in
  if n <=? 1 then NaN
  else
    let avg := fsum v /. fnat n in
    fsum (map (fun x => fmul (avg -. x) (avg -. x)) v) /. fnat (n - 1).

(** The reference sum, mean and sample variance of a list of numbers. *)
Definition qsum (xs : list Qc) : Qc := fold_left Qcplus xs 0%Qc.
Definition qmean (xs : list Qc) : Qc := (qsum xs / qn (length xs))%Qc.
Definition qvar (xs : list Qc) : Qc :=
  let m := qmean xs in
  (qsum (map (fun x => (m - x) * (m - x)) xs) / qn (length xs - 1))%Qc.

(** ** Reference characterizations *)

(** The last non-NaN value of a sequence, [prev] if there is none. *)
Definition last_valid (prev : F) (xs : list F) : F :=
  fold_left (fun acc x => if isnan x then acc else x) xs prev.

(** The product of the non-NaN values, times [acc]. *)
Definition nanprod (acc : F) (xs : list F) : F := fold_left fmul (dropna xs) acc.

Lemma length_ffill_from prev xs : length (ffill_from prev xs) = length xs.
Proof.
  revert prev; induction xs as [|x xs IH]; intros prev; simpl; [reflexivity|].
  destruct (isnan x); simpl; rewrite IH; reflexivity.
Qed.

Lemma length_ffill xs : length (ffill xs) = length xs.
Proof. apply length_ffill_from. Qed.

Lemma length_shift1 xs : length (shift1 xs) = length xs.
Proof.
  destruct xs as [|x xs]; [reflexivity|]. unfold shift1.
  cbn [length]. rewrite removelast_firstn_len, length_firstn. simpl. lia.
Qed.

Lemma length_pct_change xs : length (pct_change xs) = length xs.
Proof.
  unfold pct_change. rewrite length_zip_with, length_shift1, length_ffill.
  apply Nat.min_id.
Qed.

Lemma length_cumprod_from acc xs : length (cumprod_from acc xs) = length xs.
Proof.
  revert acc; induction xs as [|x xs IH]; intros acc; simpl; [reflexivity|].
  destruct (isnan x); simpl; rewrite IH; reflexivity.
Qed.

Lemma length_cumprod xs : length (cumprod xs) = length xs.
Proof. apply length_cumprod_from. Qed.

#[export] Hint Rewrite length_ffill length_shift1 length_pct_change
  length_cumprod : backtest_rw.

(** Row [i] of [ffill_from prev xs] is the last valid value of rows
    [0..i], [prev] if they are all NaN. *)
Lemma ffill_from_nth prev xs i :
  i < length xs ->
  ffill_from prev xs !? i = Some (last_valid prev (firstn (S i) xs)).
Proof.
  revert prev i; induction xs as [|x xs IH]; intros prev i Hi; simpl in Hi; [lia|].
  unfold last_valid; cbn [ffill_from firstn fold_left].
  destruct i as [|i].
  - destruct (isnan x); reflexivity.
  - destruct (isnan x); simpl; apply IH; lia.
Qed.

Lemma ffill_nth xs i :
  i < length xs -> ffill xs !? i = Some (last_valid NaN (firstn (S i) xs)).
Proof. apply ffill_from_nth. Qed.

Lemma last_valid_app prev xs ys :
  last_valid prev (xs ++ ys) = last_valid (last_valid prev xs) ys.
Proof. unfold last_valid. apply fold_left_app. Qed.

(** Once a valid value has been seen, the last valid value is never NaN. *)
Lemma last_valid_not_nan prev xs :
  isnan prev = false -> isnan (last_valid prev xs) = false.
Proof.
  revert prev; induction xs as [|x xs IH]; intros prev Hp; [exact Hp|].
  unfold last_valid; simpl. fold (last_valid (if isnan x then prev else x) xs).
  apply IH. destruct (isnan x) eqn:E; [exact Hp|exact E].
Qed.

Lemma nth_error_shift1_0 x xs : shift1 (x :: xs) !? 0 = Some NaN.
Proof. reflexivity. Qed.

Lemma nth_error_shift1_S xs i :
  S i < length xs -> shift1 xs !? S i = xs !? i.
Proof.
  intros Hi. destruct xs as [|x xs]; [simpl in Hi; lia|].
  unfold shift1. cbn [nth_error].
  rewrite removelast_firstn_len, nth_error_firstn_lt; [reflexivity|].
  simpl in *. lia.
Qed.

(** Row [i] of [cumprod_from acc xs]: NaN on a NaN row, otherwise the
    product of [acc] and of the valid values of rows [0..i]. *)
Lemma cumprod_from_nth acc xs i x :
  xs !? i = Some x ->
  cumprod_from acc xs !? i =
  Some (if isnan x then NaN else nanprod acc (firstn (S i) xs)).
Proof.
  revert acc i; induction xs as [|y xs IH]; intros acc [|i] Hx; try discriminate.
  - cbn in Hx. injection Hx as <-. unfold nanprod; simpl.
    destruct (isnan y); reflexivity.
  - cbn in Hx. unfold nanprod. cbn [cumprod_from firstn dropna filter].
    destruct (isnan y); simpl; rewrite (IH _ _ Hx); reflexivity.
Qed.

(** ** Closed forms on NaN-free columns *)

(** Pairs of adjacent values, the later one first. *)
Fixpoint adjacent {A B} (g : A -> A -> B) (xs : list A) : list B :=
  match xs with
  | a :: ((b :: _) as xs') => g b a :: adjacent g xs'
  | _ => []
  end.

Lemma zip_with_removelast_adjacent {A B} (g : A -> A -> B) x xs :
  zip_with g xs (removelast (x :: xs)) = adjacent g (x :: xs).
Proof.
  revert x; induction xs as [|y xs IH]; intros x; [reflexivity|].
  change (removelast (x :: y :: xs)) with (x :: removelast (y :: xs)).
  simpl. f_equal. apply IH.
Qed.

Lemma length_adjacent {A B} (g : A -> A -> B) xs :
  length (adjacent g xs) = length xs - 1.
Proof.
  induction xs as [|x xs IH]; [reflexivity|].
  destruct xs as [|y xs]; [reflexivity|].
  change (S (length (adjacent g (y :: xs))) = length (x :: y :: xs) - 1).
  rewrite IH. simpl. lia.
Qed.

Lemma ffill_from_no_nan prev xs :
  Forall (fun x => isnan x = false) xs -> ffill_from prev xs = xs.
Proof.
  intros H. revert prev; induction H as [|x xs Hx _ IH]; intros prev; [reflexivity|].
  simpl. rewrite Hx, IH. reflexivity.
Qed.

(** [pct_change] on a non-empty column: NaN, then the relative change of
    each pair of adjacent (padded) values. *)
Lemma pct_change_cons x xs :
  pct_change (x :: xs) = NaN :: adjacent (fun a b => a /. b -. fq 1) (ffill (x :: xs)).
Proof.
  unfold pct_change. remember (ffill (x :: xs)) as d eqn:Hd.
  destruct d as [|y ys]; [unfold ffill in Hd; simpl in Hd; destruct (isnan x); discriminate|].
  unfold shift1. cbn [zip_with]. rewrite fdiv_nan_r.
  rewrite zip_with_removelast_adjacent. reflexivity.
Qed.

Lemma shift1_cons x xs : shift1 (x :: xs) = NaN :: removelast (x :: xs).
Proof. reflexivity. Qed.

(** ** Causality: row [i] of each primitive depends on rows [0..i] only *)

Lemma firstn_zip_with {A B C} (f : A -> B -> C) n xs ys :
  firstn n (zip_with f xs ys) = zip_with f (firstn n xs) (firstn n ys).
Proof.
  revert xs ys; induction n as [|n IH]; intros [|x xs] [|y ys]; simpl; auto.
  f_equal. apply IH.
Qed.

Lemma firstn_ffill_from n prev xs :
  firstn n (ffill_from prev xs) = ffill_from prev (firstn n xs).
Proof.
  revert n prev; induction xs as [|x xs IH]; intros [|n] prev; simpl; auto.
  destruct (isnan x); simpl; f_equal; apply IH.
Qed.

Lemma firstn_shift1 n xs : firstn n (shift1 xs) = shift1 (firstn n xs).
Proof.
  destruct n as [|n]; [destruct xs; reflexivity|].
  destruct xs as [|x xs]; [reflexivity|].
  change (firstn (S n) (shift1 (x :: xs))) with (NaN :: firstn n (removelast (x :: xs))).
  change (shift1 (firstn (S n) (x :: xs))) with (NaN :: removelast (firstn (S n) (x :: xs))).
  f_equal.
  destruct (Nat.lt_ge_cases n (length (x :: xs))) as [Hn|Hn].
  - rewrite firstn_removelast, removelast_firstn by exact Hn. reflexivity.
  - rewrite (firstn_all2 (x :: xs)) by (simpl in *; lia).
    apply firstn_all2. rewrite removelast_firstn_len, length_firstn. lia.
Qed.

Lemma firstn_pct_change n xs : firstn n (pct_change xs) = pct_change (firstn n xs).
Proof.
  unfold pct_change, ffill.
  rewrite firstn_zip_with, firstn_shift1, firstn_ffill_from. reflexivity.
Qed.

Lemma firstn_cumprod_from n acc xs :
  firstn n (cumprod_from acc xs) = cumprod_from acc (firstn n xs).
Proof.
  revert n acc; induction xs as [|x xs IH]; intros [|n] acc; simpl; auto.
  destruct (isnan x); simpl; f_equal; apply IH.
Qed.

(** Finite values are never NaN, so [ffill] leaves them alone. *)
Lemma ffill_fin (xs : list Qc) : ffill (map Fin xs) = map Fin xs.
Proof.
  apply ffill_from_no_nan. apply Forall_map. apply Forall_forall. reflexivity.
Qed.

(** ** [mean] and [var] on constant and short columns *)

Lemma dropna_fin (xs : list Qc) : dropna (map Fin xs) = map Fin xs.
Proof. induction xs as [|x xs IH]; simpl; [reflexivity|]. rewrite IH. reflexivity. Qed.

Lemma dropna_idem xs : dropna (dropna xs) = dropna xs.
Proof.
  induction xs as [|x xs IH]; [reflexivity|]. simpl.
  destruct (isnan x) eqn:E; simpl; [exact IH|]. rewrite E. simpl. rewrite IH. reflexivity.
Qed.

Lemma fsum_repeat_from (a c : Qc) n :
  fold_left fadd (repeat (Fin a) n) (Fin c) = Fin (c + qn n * a)%Qc.
Proof.
  revert c; induction n as [|n IH]; intros c.
  - simpl. f_equal. change (qn 0) with 0%Qc. ring.
  - simpl. rewrite IH, qn_S. f_equal. ring.
Qed.

(** The sample variance of [n >= 2] copies of a number is 0. *)
Lemma var_const (a : Qc) n : 2 <= n -> var (repeat (Fin a) n) = Fin 0%Qc.
Proof.
  intros Hn. unfold var.
  replace (dropna (repeat (Fin a) n)) with (repeat (Fin a) n)
    by (rewrite <- map_repeat, dropna_fin; reflexivity).
  rewrite repeat_length.
  destruct (Nat.leb_spec n 1) as [H|_]; [lia|].
  unfold fsum, fq. cbn [k_ofQ FloatCarrier_Qc]. change (Q2Qc 0) with 0%Qc.
  rewrite fsum_repeat_from, fnat_qn, fdiv_fin by (apply qn_nonzero; lia).
  replace ((0 + qn n * a) / qn n)%Qc with a
    by (field; apply qn_nonzero; lia).
  rewrite map_repeat, fsub_fin, fmul_fin, fsum_repeat_from, fnat_qn,
    fdiv_fin by (apply qn_nonzero; lia).
  f_equal. field. apply qn_nonzero. lia.
Qed.

(** Below two values the sample variance is NaN (ddof = 1). *)
Lemma var_short xs : length (dropna xs) <= 1 -> var xs = NaN.
Proof.
  intros H. unfold var. destruct (Nat.leb_spec (length (dropna xs)) 1); [reflexivity|lia].
Qed.

(** ** [mean] and [var] on NaN-free columns *)

Lemma fsum_fin_from (xs : list Qc) c :
  fold_left fadd (map Fin xs) (Fin c) = Fin (fold_left Qcplus xs c).
Proof. revert c; induction xs as [|x xs IH]; intros c; [reflexivity|]. apply IH. Qed.

Lemma fsum_fin (xs : list Qc) : fsum (map Fin xs) = Fin (qsum xs).
Proof. apply fsum_fin_from. Qed.

Lemma sq_dev_fin (m : Qc) xs :
  map (fun x => fmul (Fin m -. x) (Fin m -. x)) (map Fin xs) =
  map Fin (map (fun x => ((m - x) * (m - x))%Qc) xs).
Proof.
  induction xs as [|x xs IH]; [reflexivity|]. cbn [map].
  rewrite fsub_fin, fmul_fin, IH. reflexivity.
Qed.

(** [mean] of numbers is the reference mean. *)
Lemma mean_fin xs : xs <> [] -> mean (map Fin xs) = Fin (qmean xs).
Proof.
  intros Hne. unfold mean, qmean. cbv zeta.
  rewrite dropna_fin, length_map, fsum_fin, fnat_qn, fdiv_fin; [reflexivity|].
  apply qn_nonzero. destruct xs; [contradiction|simpl; lia].
Qed.

(** [var] of at least two numbers is the reference sample variance. *)
Lemma var_fin xs : 2 <= length xs -> var (map Fin xs) = Fin (qvar xs).
Proof.
  intros Hn. unfold var, qvar, qmean. cbv zeta. rewrite dropna_fin, length_map.
  destruct (Nat.leb_spec (length xs) 1); [lia|].
  rewrite fsum_fin, fnat_qn, fdiv_fin by (apply qn_nonzero; lia).
  rewrite sq_dev_fin, fsum_fin, fnat_qn, fdiv_fin by (apply qn_nonzero; lia). reflexivity.
Qed.
