(* ===== verification/Resample.v ===== *)
(** * Weekly resampling and index alignment

    A pandas series with a [DatetimeIndex] is a list of (date, value)
    pairs, a date being a day number counted from 1970-01-01 (a Thursday).
    [resample('W-FRI').last()] puts each observation in the week that
    ends on the Friday on or after it, labels the week with that Friday,
    emits one row for every week from the first to the last observation,
    and takes as value the last non-NaN observation of the week (NaN for
    a week without one).  [pd.concat([a, b], axis=1)] reindexes both
    sides on the sorted union of their indexes, a date missing on one side
    giving NaN there; [index_union] and [reindex] model those two steps. *)

From Stdlib Require Import List ZArith QArith Lia Sorted.
From S2P Require Import Prelude PyFloat Pandas.
Import ListNotations.
Open Scope Z_scope.

Abbreviation Series := (list (Z * F)).

(** ** Weekly anchors *)

(** Day 0 is a Thursday, so Fridays are the days [d] with [d mod 7 = 1]. *)
Definition is_friday (d : Z) : bool := d mod 7 =? 1.

(** The anchor of [W-FRI]: the Friday on or after [d]. *)
Definition week_anchor (d : Z) : Z := d + (1 - d) mod 7.

(** The weeks [lo], [lo + 7], ..., [n] of them. *)
Definition week_range (lo : Z) (n : nat) : list Z :=
  map (fun k => lo + 7 * Z.of_nat k) (seq 0 n).

(** The value of the week labelled [b]: the last non-NaN observation of
    the series that falls in that week. *)
Definition bin_last (s : Series) (b : Z) : F :=
  last_valid NaN (map snd (filter (fun p => week_anchor (fst p) =? b) s)).

(** [s.resample('W-FRI').last()]. *)
Definition resample_last (s : Series) : Series :=
  match s with
  | [] => []
  | (d0, _) :: _ =>
      let lo := week_anchor (fold_left Z.min (map fst s) d0) in
      let hi := week_anchor (fold_left Z.max (map fst s) d0) in
      map (fun b => (b, bin_last s b)) (week_range lo (Z.to_nat ((hi - lo) / 7 + 1)))
  end.

(** ** Alignment of two indexes *)

(** The sorted union of two sorted indexes ([Index.union]). *)
Fixpoint index_union (xs ys : list Z) : list Z :=
  let fix go ys :=
    match xs, ys with
    | [], _ => ys
    | _, [] => xs
    | x :: xs', y :: ys' =>
        if x <? y then x :: index_union xs' ys
        else if y <? x then y :: go ys'
        else x :: index_union xs' ys'
    end
  in go ys.

(** The value of a series at a date, NaN when the date is absent. *)
Fixpoint value_at (s : Series) (d : Z) : F :=
  match s with
  | [] => NaN
  | (d', v) :: s' => if d' =? d then v else value_at s' d
  end.

(** [s.reindex(idx)]. *)
Definition reindex (idx : list Z) (s : Series) : list F := map (value_at s) idx.

(** ** Anchors *)

Lemma week_anchor_friday d : is_friday (week_anchor d) = true.
Proof.
  unfold is_friday, week_anchor. apply Z.eqb_eq.
  pose proof (Z.mod_pos_bound (1 - d) 7 ltac:(lia)).
  rewrite Z.add_mod, Z.mod_mod by lia.
  rewrite <- Z.add_mod by lia.
  replace (d + (1 - d)) with 1 by lia. reflexivity.
Qed.

(** The anchor is the first Friday on or after the date. *)
Lemma week_anchor_bounds d : d <= week_anchor d < d + 7.
Proof.
  unfold week_anchor. pose proof (Z.mod_pos_bound (1 - d) 7 ltac:(lia)). lia.
Qed.

Lemma week_anchor_of_friday d : is_friday d = true -> week_anchor d = d.
Proof.
  unfold is_friday, week_anchor. intros H. apply Z.eqb_eq in H.
  pose proof (Z.div_mod d 7 ltac:(lia)).
  pose proof (Z.div_mod (1 - d) 7 ltac:(lia)).
  pose proof (Z.mod_pos_bound (1 - d) 7 ltac:(lia)). nia.
Qed.

Lemma length_week_range lo n : length (week_range lo n) = n.
Proof. unfold week_range. rewrite length_map, length_seq. reflexivity. Qed.

Lemma week_range_nth lo n k :
  (k < n)%nat -> week_range lo n !? k = Some (lo + 7 * Z.of_nat k).
Proof.
  intros Hk. unfold week_range. rewrite nth_error_map, nth_error_seq.
  destruct (Nat.ltb_spec k n); [reflexivity|lia].
Qed.

(** The anchor is the least Friday on or after the date. *)
Lemma week_anchor_least d f : is_friday f = true -> d <= f -> week_anchor d <= f.
Proof.
  unfold is_friday, week_anchor. intros Hf Hd. apply Z.eqb_eq in Hf.
  pose proof (Z.div_mod f 7 ltac:(lia)).
  pose proof (Z.div_mod (1 - d) 7 ltac:(lia)).
  pose proof (Z.mod_pos_bound (1 - d) 7 ltac:(lia)). nia.
Qed.

Lemma week_anchor_mono d d' : d <= d' -> week_anchor d <= week_anchor d'.
Proof.
  intros H. apply week_anchor_least; [apply week_anchor_friday|].
  pose proof (week_anchor_bounds d'). lia.
Qed.

(** Two Fridays are a whole number of weeks apart. *)
Lemma friday_diff f g : is_friday f = true -> is_friday g = true -> (g - f) mod 7 = 0.
Proof.
  unfold is_friday. intros Hf Hg. apply Z.eqb_eq in Hf, Hg.
  rewrite Zminus_mod, Hf, Hg. reflexivity.
Qed.

Lemma fold_min_le (xs : list Z) d0 : fold_left Z.min xs d0 <= d0 /\
  forall d, In d xs -> fold_left Z.min xs d0 <= d.
Proof.
  revert d0; induction xs as [|x xs IH]; intros d0; simpl; [split; [lia|tauto]|].
  destruct (IH (Z.min d0 x)) as [H1 H2]. split; [lia|].
  intros d [<-|Hd]; [lia|]. apply H2, Hd.
Qed.

Lemma fold_max_ge (xs : list Z) d0 : d0 <= fold_left Z.max xs d0 /\
  forall d, In d xs -> d <= fold_left Z.max xs d0.
Proof.
  revert d0; induction xs as [|x xs IH]; intros d0; simpl; [split; [lia|tauto]|].
  destruct (IH (Z.max d0 x)) as [H1 H2]. split; [lia|].
  intros d [<-|Hd]; [lia|]. apply H2, Hd.
Qed.

(** A Friday between two Fridays [lo <= b <= hi] is in the week range. *)
Lemma week_range_In lo hi b :
  is_friday lo = true -> is_friday b = true -> lo <= b <= hi ->
  In b (week_range lo (Z.to_nat ((hi - lo) / 7 + 1))).
Proof.
  intros Hlo Hb Hr. pose proof (friday_diff lo b Hlo Hb) as Hm.
  apply nth_error_In with (Z.to_nat ((b - lo) / 7)).
  rewrite week_range_nth.
  - f_equal. pose proof (Z.div_mod (b - lo) 7 ltac:(lia)).
    rewrite Z2Nat.id by (apply Z.div_pos; lia). lia.
  - apply Z2Nat.inj_lt; [apply Z.div_pos; lia| |].
    + pose proof (Z.div_pos (hi - lo) 7 ltac:(lia) ltac:(lia)). lia.
    + pose proof (Z.div_le_mono (b - lo) (hi - lo) 7 ltac:(lia) ltac:(lia)). lia.
Qed.

(** The week of an observation is a row of the weekly series. *)
Lemma resample_has_week (s : Series) d v :
  In (d, v) s -> In (week_anchor d, bin_last s (week_anchor d)) (resample_last s).
Proof.
  intros Hin. unfold resample_last. destruct s as [|[d0 v0] s']; [destruct Hin|].
  apply in_map_iff. exists (week_anchor d). split; [reflexivity|].
  apply (in_map fst) in Hin. cbn [fst] in Hin.
  destruct (fold_min_le (map fst ((d0, v0) :: s')) d0) as [_ Hmin].
  destruct (fold_max_ge (map fst ((d0, v0) :: s')) d0) as [_ Hmax].
  apply week_range_In; try apply week_anchor_friday.
  split; apply week_anchor_mono; [apply Hmin|apply Hmax]; exact Hin.
Qed.

(** The weekly series is empty exactly when the input is. *)
Lemma resample_nil_iff (s : Series) : resample_last s = [] <-> s = [].
Proof.
  split; [|intros ->; reflexivity]. intros H. destruct s as [|[d v] s']; [reflexivity|].
  exfalso. pose proof (resample_has_week ((d, v) :: s') d v (or_introl eq_refl)) as Hin.
  rewrite H in Hin. destruct Hin.
Qed.

Lemma last_valid_all_nan prev xs :
  Forall (fun x => isnan x = true) xs -> last_valid prev xs = prev.
Proof.
  intros H. revert prev. induction H as [|x xs Hx _ IH]; intros prev; [reflexivity|].
  unfold last_valid. simpl. rewrite Hx. apply IH.
Qed.

Lemma last_valid_In prev xs x :
  In x xs -> isnan x = false -> isnan (last_valid prev xs) = false.
Proof.
  intros Hin Hx. apply in_split in Hin as (pre & post & ->).
  rewrite last_valid_app. unfold last_valid at 1. cbn [fold_left]. rewrite Hx.
  apply last_valid_not_nan. exact Hx.
Qed.

(** The weekly series has a number iff the input has one. *)
Lemma resample_valid_iff (s : Series) :
  (exists x, In x (map snd (resample_last s)) /\ isnan x = false) <->
  (exists x, In x (map snd s) /\ isnan x = false).
Proof.
  split.
  - intros (x & Hx & Hv).
    destruct (existsb (fun y => negb (isnan y)) (map snd s)) eqn:E.
    { apply existsb_exists in E as (y & Hy & Hy'). exists y. split; [exact Hy|].
      destruct (isnan y); [discriminate|reflexivity]. }
    exfalso.
    assert (Hall : Forall (fun y => isnan y = true) (map snd s)).
    { apply Forall_forall. intros y Hy. destruct (isnan y) eqn:Ey; [reflexivity|].
      rewrite <- E. apply existsb_exists. exists y. rewrite Ey. auto. }
    unfold resample_last in Hx. destruct s as [|[d0 v0] s']; [destruct Hx|].
    rewrite map_map in Hx. apply in_map_iff in Hx as (b & <- & _). cbn [snd] in Hv.
    unfold bin_last in Hv. rewrite last_valid_all_nan in Hv; [discriminate|].
    apply Forall_forall. intros y Hy. rewrite Forall_forall in Hall. apply Hall.
    apply in_map_iff in Hy as ([d' y'] & Hyy & Hy). cbn [snd] in Hyy. subst y'.
    apply filter_In in Hy as [Hy _]. apply (in_map snd) in Hy. exact Hy.
  - intros (x & Hx & Hv). apply in_map_iff in Hx as ([d x'] & <- & Hin). cbn [snd] in Hv.
    exists (bin_last s (week_anchor d)). split.
    + exact (in_map snd _ _ (resample_has_week s d x' Hin)).
    + unfold bin_last. apply (last_valid_In _ _ x'); [|exact Hv].
      apply in_map_iff. exists (d, x'). split; [reflexivity|].
      apply filter_In. split; [exact Hin|]. apply Z.eqb_refl.
Qed.

(** ** The union of two indexes *)

Lemma index_union_In xs ys d : In d (index_union xs ys) <-> In d xs \/ In d ys.
Proof.
  revert ys; induction xs as [|x xs IHx]; intros ys; [destruct ys; simpl; tauto|].
  induction ys as [|y ys IHy]; [simpl; tauto|].
  cbn [index_union]. fold (index_union (x :: xs) ys).
  destruct (Z.ltb_spec x y); [|destruct (Z.ltb_spec y x)].
  - simpl. rewrite IHx. simpl. tauto.
  - simpl. rewrite IHy. simpl. tauto.
  - assert (x = y) by lia. subst y. simpl. rewrite IHx. tauto.
Qed.

(** The value of a weekly series at one of its weeks. *)
Lemma value_at_map_pair (g : Z -> F) idx b :
  In b idx -> value_at (map (fun b' => (b', g b')) idx) b = g b.
Proof.
  induction idx as [|b' idx IH]; [intros []|]. intros Hb. simpl.
  destruct (Z.eqb_spec b' b) as [->|Hne]; [reflexivity|].
  apply IH. destruct Hb as [->|Hb]; [contradiction|exact Hb].
Qed.

Lemma value_at_resample (s : Series) b :
  In b (map fst (resample_last s)) -> value_at (resample_last s) b = bin_last s b.
Proof.
  unfold resample_last. destruct s as [|[d0 v0] s']; [intros []|].
  rewrite map_map. cbn [fst]. rewrite map_id. apply value_at_map_pair.
Qed.

(** A week without any observation is NaN, not the previous week's value. *)
Lemma bin_last_empty (s : Series) b :
  (forall d v, In (d, v) s -> week_anchor d <> b) -> bin_last s b = NaN.
Proof.
  intros H. unfold bin_last. apply last_valid_all_nan. apply Forall_forall.
  intros x Hx. apply in_map_iff in Hx as ([d v] & <- & Hx). apply filter_In in Hx as [Hx Hb].
  apply Z.eqb_eq in Hb. exfalso. exact (H d v Hx Hb).
Qed.

(** ** Sortedness of the indexes *)

Lemma week_range_S lo n : week_range lo (S n) = lo :: week_range (lo + 7) n.
Proof.
  unfold week_range. cbn [seq map]. f_equal; [lia|].
  rewrite <- seq_shift, map_map. apply map_ext. intros k. lia.
Qed.

Lemma week_range_sorted lo n : StronglySorted Z.lt (week_range lo n).
Proof.
  revert lo; induction n as [|n IH]; intros lo; [constructor|].
  rewrite week_range_S. constructor; [apply IH|].
  apply Forall_forall. intros b Hb. unfold week_range in Hb.
  apply in_map_iff in Hb as (k & <- & _). lia.
Qed.

Lemma week_range_friday lo n b :
  is_friday lo = true -> In b (week_range lo n) -> is_friday b = true.
Proof.
  unfold is_friday, week_range. intros Hf Hb. apply in_map_iff in Hb as (k & <- & _).
  apply Z.eqb_eq in Hf. apply Z.eqb_eq.
  rewrite Z.add_mod, Hf by lia. rewrite Z.mul_comm, Z.mod_mul by lia. reflexivity.
Qed.

(** The index of a weekly series is a range of weeks from a Friday. *)
Lemma resample_index (s : Series) :
  exists lo n, is_friday lo = true /\ map fst (resample_last s) = week_range lo n.
Proof.
  destruct s as [|[d0 v0] s']; [exists 1, 0%nat; split; reflexivity|].
  eexists _, _. split; [apply week_anchor_friday|].
  unfold resample_last. rewrite map_map. cbn [fst]. rewrite map_id. reflexivity.
Qed.

Lemma resample_sorted s : StronglySorted Z.lt (map fst (resample_last s)).
Proof. destruct (resample_index s) as (lo & n & _ & ->). apply week_range_sorted. Qed.

Lemma resample_friday s b : In b (map fst (resample_last s)) -> is_friday b = true.
Proof.
  destruct (resample_index s) as (lo & n & Hlo & ->). apply week_range_friday, Hlo.
Qed.

(** Every element of the union is above a bound that is below both sides. *)
Lemma index_union_Forall (P : Z -> Prop) xs ys :
  Forall P xs -> Forall P ys -> Forall P (index_union xs ys).
Proof.
  rewrite !Forall_forall. intros Hx Hy d Hd. apply index_union_In in Hd as [Hd|Hd]; auto.
Qed.

(** The union of two strictly increasing indexes is strictly increasing. *)
Lemma index_union_sorted xs ys :
  StronglySorted Z.lt xs -> StronglySorted Z.lt ys -> StronglySorted Z.lt (index_union xs ys).
Proof.
  revert ys; induction xs as [|x xs IHx]; intros ys Hx Hy; [destruct ys; exact Hy|].
  induction ys as [|y ys IHy]; [exact Hx|].
  destruct (StronglySorted_inv Hx) as [Hxs Hxf]. destruct (StronglySorted_inv Hy) as [Hys Hyf].
  cbn [index_union]. fold (index_union (x :: xs) ys).
  destruct (Z.ltb_spec x y); [|destruct (Z.ltb_spec y x)]; constructor.
  - apply IHx; assumption.
  - apply index_union_Forall; [exact Hxf|]. constructor; [lia|].
    eapply Forall_impl; [|exact Hyf]. simpl. lia.
  - apply IHy; assumption.
  - change (Forall (Z.lt y) (index_union (x :: xs) ys)).
    apply index_union_Forall; [|exact Hyf]. constructor; [lia|].
    eapply Forall_impl; [|exact Hxf]. simpl. lia.
  - apply IHx; assumption.
  - apply index_union_Forall; [exact Hxf|].
    eapply Forall_impl; [|exact Hyf]. simpl. lia.
Qed.

Lemma value_at_notin (s : Series) d : ~ In d (map fst s) -> value_at s d = NaN.
Proof.
  induction s as [|[d' v] s IH]; intros H; [reflexivity|]. simpl in *.
  destruct (Z.eqb_spec d' d); [tauto|]. apply IH. tauto.
Qed.

(** ** Theorems *)

(** C34: Weekly grid.  The index of [resample('W-FRI').last()] holds only
    Fridays, each exactly one week after the previous one. *)
Theorem resample_weekly_grid (s : Series) :
  (forall b, In b (map fst (resample_last s)) -> is_friday b = true) /\
  (forall k b b', map fst (resample_last s) !? k = Some b ->
                  map fst (resample_last s) !? S k = Some b' -> b' = b + 7).
Proof.
  destruct (resample_index s) as (lo & n & Hlo & ->). split.
  - intros b. apply week_range_friday, Hlo.
  - intros k b b' Hb Hb'.
    assert (S k < n)%nat.
    { rewrite <- (length_week_range lo n). apply nth_error_Some. congruence. }
    rewrite week_range_nth in Hb, Hb' by lia.
    assert (b = lo + 7 * Z.of_nat k) by congruence.
    assert (b' = lo + 7 * Z.of_nat (S k)) by congruence. lia.
Qed.

(** ** Witnesses *)

Lemma resample_weekly_grid_witness :
  is_friday 8 = true /\ (15 = 8 + 7)%Z.
Proof.
  pose proof (resample_weekly_grid [(2, fq 1%Q); (9, fq 2%Q)]) as [H1 H2]. split.
  - apply H1. vm_compute. left. reflexivity.
  - apply (H2 0%nat); vm_compute; reflexivity.
Defined.

