(* ===== verification/Signal.v ===== *)
(** * The signal generator: [get_jobless_claims_data] (lines 16-22)

    The weekly claims level, its percentage change, the raw signal of
    [np.where] (1 when the change is below -2%, 0 when it is above +2%,
    NaN in the dead zone and on the first row) and its forward fill.  The
    frame is kept as pandas keeps it, one list per column over a shared
    index.  Beside it, the signal's abstract specification: a state
    machine over [Long | Flat | Undefined] that moves on a threshold
    crossing and holds otherwise.  The theorems show that the column the
    code computes is that machine's state, row by row, and derive its
    invariants: three values only, a defined signal never becomes
    undefined again, strict thresholds. *)

From Stdlib Require Import List ZArith QArith Qcanon Lia.
From S2P Require Import Prelude PyFloat Pandas Resample.
Import ListNotations.
Open Scope nat_scope.

(** The frame returned by [get_jobless_claims_data]. *)
Record ClaimsFrame := {
  cl_index : list Z;   (** weekly dates (Fridays) *)
  cl_claims : list F;  (** ['Initial Claims'] *)
  cl_chg : list F;     (** ['Claims Change %'] *)
  cl_signal : list F   (** ['Signal'] *)
}.

(** Line 20: [np.where(chg < -2, 1, np.where(chg > 2, 0, np.nan))]. *)
Definition raw_signal (chg : F) : F :=
  if chg <. fq (-2) then fq 1 else if chg >. fq 2 then fq 0 else NaN.

(** Lines 17-22, from the series [fred.get_series('ICSA')]. *)
Definition get_jobless_claims_data (icsa : Series) : ClaimsFrame :=
  let claims := resample_last icsa in
  let level := map snd claims in
  let chg := map (fun x => fmul x (fq 100)) (pct_change level) in
  {| cl_index := map fst claims;
     cl_claims := level;
     cl_chg := chg;
     cl_signal := ffill (map raw_signal chg) |}.

(** ** The abstract signal: a state machine *)

Inductive position := Long | Flat | Undefined.

(** The float that stands for a position in the [Signal] column. *)
Definition encode (p : position) : F :=
  match p with Long => fq 1 | Flat => fq 0 | Undefined => NaN end.

(** One week: a drop below -2% goes long, a rise above +2% goes flat, a
    change in the dead zone (or an undefined one) keeps the state. *)
Definition signal_step (st : position) (chg : F) : position :=
  if chg <. fq (-2) then Long else if chg >. fq 2 then Flat else st.

(** The state after the changes of rows [0..i]. *)
Definition state_at (chgs : list F) (i : nat) : position :=
  fold_left signal_step (firstn (S i) chgs) Undefined.

(** Four weekly releases dated on Saturdays (day 2 is 1970-01-03): 200000,
    then 210000 (+5%), 205000 (-2.38%), 204000 (-0.49%). *)
Definition icsa_example : Series :=
  [(2%Z, fq 200000); (9%Z, fq 210000); (16%Z, fq 205000); (23%Z, fq 204000)].

(** ** Lemmas *)

(** Forward filling the raw signal runs the state machine. *)
Lemma last_valid_raw_signal st chgs :
  last_valid (encode st) (map raw_signal chgs) = encode (fold_left signal_step chgs st).
Proof.
  revert st; induction chgs as [|c chgs IH]; intros st; [reflexivity|].
  unfold last_valid. cbn [map fold_left]. fold (last_valid (encode st) (map raw_signal chgs)).
  unfold raw_signal, signal_step.
  destruct (c <. fq (-2)); [apply (IH Long)|].
  destruct (c >. fq 2); [apply (IH Flat)|apply IH].
Qed.

(** A defined state stays defined. *)
Lemma fold_signal_step_defined chgs st :
  st <> Undefined -> fold_left signal_step chgs st <> Undefined.
Proof.
  revert st; induction chgs as [|c chgs IH]; intros st Hst; [exact Hst|].
  simpl. apply IH. unfold signal_step.
  destruct (c <. fq (-2)); [discriminate|]. destruct (c >. fq 2); [discriminate|exact Hst].
Qed.

Lemma length_claims_columns icsa :
  let cf := get_jobless_claims_data icsa in
  length (cl_claims cf) = length (cl_index cf) /\
  length (cl_chg cf) = length (cl_index cf) /\
  length (cl_signal cf) = length (cl_index cf).
Proof.
  simpl. simpl_length.
Qed.

Lemma encode_nan p : isnan (encode p) = true <-> p = Undefined.
Proof. destruct p; simpl; split; congruence. Qed.

Lemma firstn_S_split {A} (xs : list A) i j :
  i <= j ->
  firstn (S j) xs = firstn (S i) xs ++ skipn (S i) (firstn (S j) xs).
Proof.
  intros Hij. rewrite <- (firstn_skipn (S i) (firstn (S j) xs)) at 1.
  rewrite firstn_firstn. f_equal. f_equal. lia.
Qed.

(** ** Theorems *)

(** Row [i] of the [Signal] column is the machine's state after row [i]. *)
Lemma signal_state_nth icsa i :
  let cf := get_jobless_claims_data icsa in
  i < length (cl_index cf) ->
  cl_signal cf !? i = Some (encode (state_at (cl_chg cf) i)).
Proof.
  intros cf Hi. destruct (length_claims_columns icsa) as (_ & Hchg & _).
  unfold cf, get_jobless_claims_data, state_at in *; cbn [cl_signal cl_chg cl_index] in *.
  rewrite ffill_nth by (rewrite length_map; cbn in Hchg; lia).
  rewrite firstn_map. apply (f_equal Some), (last_valid_raw_signal Undefined).
Qed.

(** The values of the [Signal] column. *)
Lemma signal_column_values icsa x :
  In x (cl_signal (get_jobless_claims_data icsa)) -> x = fq 1 \/ x = fq 0 \/ x = NaN.
Proof.
  intros Hin. apply In_nth_error in Hin as [i Hi].
  pose proof (nth_error_Some (cl_signal (get_jobless_claims_data icsa)) i) as Hlen.
  rewrite Hi in Hlen. destruct (length_claims_columns icsa) as (_ & _ & Hs).
  rewrite signal_state_nth in Hi by (rewrite <- Hs; apply Hlen; discriminate).
  injection Hi as <-. destruct (state_at _ i); auto.
Qed.

(** C6: The [Signal] column is, row by row, the state of the abstract
    signal machine after the claims changes seen so far: the forward fill
    of [np.where] implements the persistent directional signal. *)
Theorem signal_is_state icsa i :
  let cf := get_jobless_claims_data icsa in
  i < length (cl_index cf) ->
  cl_signal cf !? i = Some (encode (state_at (cl_chg cf) i)).
Proof. apply signal_state_nth. Qed.

(** C7: Forward-fill monotonicity: once the [Signal] column holds a defined
    value, every later row holds a defined value too. *)
Theorem signal_defined_stays_defined icsa i j x :
  let cf := get_jobless_claims_data icsa in
  i <= j -> j < length (cl_index cf) ->
  cl_signal cf !? i = Some x -> isnan x = false ->
  exists y, cl_signal cf !? j = Some y /\ isnan y = false.
Proof.
  intros cf Hij Hj Hi Hx. subst cf.
  rewrite (signal_state_nth icsa i) in Hi by lia. injection Hi as <-.
  set (cf := get_jobless_claims_data icsa) in *.
  exists (encode (state_at (cl_chg cf) j)).
  split; [apply signal_state_nth; exact Hj|].
  destruct (isnan (encode (state_at (cl_chg cf) j))) eqn:E; [|reflexivity].
  apply encode_nan in E. exfalso. revert E.
  unfold state_at. rewrite (firstn_S_split _ i j Hij), fold_left_app.
  apply fold_signal_step_defined. intros Hu. unfold state_at in Hx.
  unfold cf in Hu. cbn [get_jobless_claims_data cl_chg] in Hu.
  rewrite Hu in Hx. discriminate.
Qed.

(** C33: The thresholds of line 20 are strict: a change below -2% gives 1, a
    change above +2% gives 0, and a change in [-2%, +2%], the bounds
    included, gives NaN (the previous position is held). *)
Theorem raw_signal_thresholds (c : Qc) :
  ((c < Q2Qc (-2))%Qc -> raw_signal (Fin c) = fq 1) /\
  ((Q2Qc 2 < c)%Qc -> raw_signal (Fin c) = fq 0) /\
  ((Q2Qc (-2) <= c)%Qc -> (c <= Q2Qc 2)%Qc -> raw_signal (Fin c) = NaN).
Proof.
  unfold raw_signal, fq. cbn [k_ofQ FloatCarrier_Qc].
  repeat split; intros H1.
  - rewrite flt_fin_true by exact H1. reflexivity.
  - rewrite flt_fin_false, fgt_fin_true by qc_lra. reflexivity.
  - intros H2. rewrite flt_fin_false, fgt_fin_false by qc_lra. reflexivity.
Qed.

(** ** A concrete run *)

Lemma signal_is_state_witness :
  2 < length (cl_index (get_jobless_claims_data icsa_example)) /\
  cl_signal (get_jobless_claims_data icsa_example) !? 2 =
  Some (encode (state_at (cl_chg (get_jobless_claims_data icsa_example)) 2)).
Proof. split; [vm_compute; lia | apply signal_is_state; vm_compute; lia]. Defined.

Lemma signal_defined_stays_defined_witness :
  exists y, cl_signal (get_jobless_claims_data icsa_example) !? 3 = Some y /\
            isnan y = false.
Proof.
  apply (signal_defined_stays_defined icsa_example 1 3 (fq 0));
    [lia | vm_compute; lia | f_compute | reflexivity].
Defined.

Lemma raw_signal_thresholds_witness :
  raw_signal (Fin (Q2Qc (-3))) = fq 1 /\ raw_signal (Fin (Q2Qc 2)) = NaN.
Proof.
  split.
  - apply (raw_signal_thresholds (Q2Qc (-3))). vm_compute. reflexivity.
  - apply (raw_signal_thresholds (Q2Qc 2)); vm_compute; discriminate.
Defined.
