(* ===== verification/Align.v ===== *)
(** * The series aligner: first half of [backtest_strategy] (lines 27-38)

    The downloaded close prices are resampled to the same [W-FRI] weeks
    as the claims frame (line 30); a ticker whose weekly prices are empty
    or all NaN is rejected (lines 33-35); otherwise the prices and the
    claims frame are joined with [pd.concat(axis=1)], which reindexes both
    on the union of their dates, and [dropna()] keeps the rows where the
    price, the claims level, the change and the signal are all present
    (line 37).  The theorems show that this outer join followed by
    [dropna] is the inner join of the two inputs on their dates, restricted
    to complete rows; that the result is a well-formed weekly frame (dates
    strictly increasing Fridays, no missing value) with no more rows than
    either input; and that a claims week without a release, NaN after the
    resampling, never reaches the engine. *)

From Stdlib Require Import List ZArith QArith Lia Bool Sorted.
From S2P Require Import Prelude PyFloat Pandas Resample Signal.
Import ListNotations.
Open Scope nat_scope.

(** A row of the aligned frame, with the column names of line 38. *)
Record Row := {
  r_date : Z;
  r_price : F;    (** ['Price'] *)
  r_claims : F;   (** ['Initial Claims'] *)
  r_chg : F;      (** ['Claims Change %'] *)
  r_signal : F    (** ['Signal'] *)
}.

Abbreviation Frame := (list Row).

(** Line 33: [prices.empty or prices.dropna().empty]. *)
Definition no_valid_prices (prices : Series) : bool :=
  match prices, dropna (map snd prices) with
  | [], _ | _, [] => true
  | _, _ => false
  end.

(** A column of the claims frame as a series on its index. *)
Definition claims_column (cf : ClaimsFrame) (col : ClaimsFrame -> list F) : Series :=
  combine (cl_index cf) (col cf).

(** The row of the joined frame at date [d]: NaN where a side has no
    value for [d]. *)
Definition concat_row (prices : Series) (cf : ClaimsFrame) (d : Z) : Row :=
  {| r_date := d;
     r_price := value_at prices d;
     r_claims := value_at (claims_column cf cl_claims) d;
     r_chg := value_at (claims_column cf cl_chg) d;
     r_signal := value_at (claims_column cf cl_signal) d |}.

(** [pd.concat([prices, jobless_claims], axis=1)]. *)
Definition concat_axis1 (prices : Series) (cf : ClaimsFrame) : Frame :=
  map (concat_row prices cf) (index_union (map fst prices) (cl_index cf)).

(** A row without NaN. *)
Definition row_complete (r : Row) : bool :=
  negb (isnan (r_price r) || isnan (r_claims r) || isnan (r_chg r) || isnan (r_signal r)).

(** [df.dropna()]. *)
Definition dropna_rows (rows : Frame) : Frame := filter row_complete rows.

(** Lines 27-38 once the raw prices are downloaded: [None] is the early
    [return None] of line 35. *)
Definition align (raw : Series) (cf : ClaimsFrame) : option Frame :=
  let prices := resample_last raw in
  if no_valid_prices prices then None
  else Some (dropna_rows (concat_axis1 prices cf)).

(** A well-formed weekly frame: its dates strictly increase, each is a
    Friday, and no row has a missing value. *)
Definition frame_wf (df : Frame) : Prop :=
  StronglySorted Z.lt (map r_date df) /\
  Forall (fun r => is_friday (r_date r) = true /\ row_complete r = true) df.

(** Daily closes around the weeks of [icsa_example], one of them NaN. *)
Definition prices_example : Series :=
  [(8%Z, fq 100%Q); (15%Z, fq 110%Q); (21%Z, NaN); (22%Z, fq 99%Q); (29%Z, fq 105%Q)].

(** Claims released in the weeks of days 8 and 22, none in the week of 15. *)
Definition icsa_gap : Series := [(2%Z, fq 200000); (16%Z, fq 205000)].

(** ** Lemmas *)

Lemma map_fst_combine_In {A B} (xs : list A) (ys : list B) d :
  In d (map fst (combine xs ys)) -> In d xs.
Proof.
  intros H. apply in_map_iff in H as ([d' y] & <- & H). apply in_combine_l in H. exact H.
Qed.

Lemma claims_column_notin cf col d :
  ~ In d (cl_index cf) -> value_at (claims_column cf col) d = NaN.
Proof. intros H. apply value_at_notin. intros H'. apply H, (map_fst_combine_In _ _ _ H'). Qed.

Lemma dropna_nil_iff xs :
  dropna xs = [] <-> ~ (exists x, In x xs /\ isnan x = false).
Proof.
  induction xs as [|x xs IH]; [simpl; split; [intros _ (y & [] & _)|reflexivity]|].
  unfold dropna in *. simpl. destruct (isnan x) eqn:E; simpl.
  - rewrite IH. split; intros H (y & Hy & Hn); apply H; exists y; split; auto.
    destruct Hy as [<-|Hy]; [congruence|exact Hy].
  - split; [discriminate|]. intros H. exfalso. apply H. exists x. auto.
Qed.

Lemma no_valid_prices_iff (p : Series) :
  no_valid_prices p = true <-> ~ (exists x, In x (map snd p) /\ isnan x = false).
Proof.
  rewrite <- dropna_nil_iff. unfold no_valid_prices.
  destruct p as [|a p]; [simpl; tauto|].
  destruct (dropna (map snd (a :: p))); split; congruence.
Qed.

Lemma map_r_date_concat prices cf :
  map r_date (concat_axis1 prices cf) = index_union (map fst prices) (cl_index cf).
Proof. unfold concat_axis1. rewrite map_map. apply map_id. Qed.

(** A complete row of the joined frame has a price and a claims row. *)
Lemma complete_row_dates prices cf d :
  row_complete (concat_row prices cf d) = true -> In d (map fst prices) /\ In d (cl_index cf).
Proof.
  intros Hc. unfold row_complete, concat_row in Hc. cbn [r_price r_claims] in Hc. split.
  - destruct (in_dec Z.eq_dec d (map fst prices)) as [H|H]; [exact H|].
    rewrite value_at_notin in Hc by exact H. discriminate.
  - destruct (in_dec Z.eq_dec d (cl_index cf)) as [H|H]; [exact H|].
    rewrite claims_column_notin in Hc by exact H. rewrite orb_true_r in Hc. discriminate.
Qed.

(** The dates of the aligned frame are dates of both inputs. *)
Lemma aligned_dates_incl raw cf df :
  align raw cf = Some df ->
  incl (map r_date df) (map fst (resample_last raw)) /\ incl (map r_date df) (cl_index cf).
Proof.
  unfold align. destruct (no_valid_prices _); [discriminate|]. intros [= <-].
  split; intros d Hd; apply in_map_iff in Hd as (r & <- & Hr);
    apply filter_In in Hr as [Hr Hc]; apply in_map_iff in Hr as (d & <- & _);
    apply complete_row_dates in Hc as [Hp Hi]; assumption.
Qed.

(** The dates of an aligned frame strictly increase. *)
Lemma align_sorted raw icsa df :
  align raw (get_jobless_claims_data icsa) = Some df -> StronglySorted Z.lt (map r_date df).
Proof.
  unfold align. destruct (no_valid_prices _); [discriminate|]. intros [= <-].
  unfold dropna_rows. apply StronglySorted_map_filter. rewrite map_r_date_concat.
  exact (index_union_sorted _ _ (resample_sorted raw) (resample_sorted icsa)).
Qed.

(** ** Theorems *)

(** C8: Inner join.  The aligned frame holds exactly the rows of the dates
    present both in the weekly prices and in the claims frame, each with
    that date's price and claims values, and with none of them NaN: the
    outer join of [pd.concat] followed by [dropna] is an inner join on
    complete rows. *)
Theorem align_inner_join raw cf frame :
  align raw cf = Some frame ->
  forall r, In r frame <->
    In (r_date r) (map fst (resample_last raw)) /\ In (r_date r) (cl_index cf) /\
    r = concat_row (resample_last raw) cf (r_date r) /\ row_complete r = true.
Proof.
  unfold align. set (prices := resample_last raw).
  destruct (no_valid_prices prices); [discriminate|]. intros [= <-] r.
  unfold dropna_rows, concat_axis1. rewrite filter_In, in_map_iff. split.
  - intros [(d & <- & Hd) Hc]. cbn [r_date].
    destruct (complete_row_dates prices cf d Hc) as [Hp Hi]. auto.
  - intros (Hp & Hi & Hr & Hc). split; [|exact Hc].
    exists (r_date r). split; [symmetry; exact Hr|]. apply index_union_In. left. exact Hp.
Qed.

(** C9: The aligned frame is a well-formed weekly frame.  On the claims
    frame of any ICSA series, its dates strictly increase (no date twice,
    in calendar order), each is a Friday, and no row has a missing value:
    the input the engine's [shift] and [pct_change] take row by row. *)
Theorem align_frame_wf raw icsa df :
  align raw (get_jobless_claims_data icsa) = Some df -> frame_wf df.
Proof.
  intros Ha. split; [exact (align_sorted raw icsa df Ha)|]. revert Ha.
  unfold align. destruct (no_valid_prices _); [discriminate|]. intros [= <-].
  apply Forall_forall. intros r Hr. apply filter_In in Hr as [Hr Hc]. split; [|exact Hc].
  apply in_map_iff in Hr as (d & <- & Hd). cbn [r_date].
  apply index_union_In in Hd as [Hd|Hd]; [exact (resample_friday raw d Hd)|].
  exact (resample_friday icsa d Hd).
Qed.

(** C10: Row bounds.  The aligned frame has no more rows than the weekly
    prices and no more than the claims frame: the join never duplicates a
    week. *)
Theorem align_length_bound raw icsa df :
  align raw (get_jobless_claims_data icsa) = Some df ->
  length df <= length (resample_last raw) /\
  length df <= length (cl_index (get_jobless_claims_data icsa)).
Proof.
  intros Ha. destruct (aligned_dates_incl _ _ _ Ha) as [Hp Hi].
  assert (Hnd : NoDup (map r_date df)).
  { apply (StronglySorted_NoDup Z.lt); [intros x; lia|exact (align_sorted raw icsa df Ha)]. }
  rewrite <- (length_map r_date df), <- (length_map fst (resample_last raw)).
  split; apply NoDup_incl_length; assumption.
Qed.

(** The claims level of a week of the claims frame. *)
Lemma claims_level_at icsa b :
  In b (cl_index (get_jobless_claims_data icsa)) ->
  value_at (claims_column (get_jobless_claims_data icsa) cl_claims) b = bin_last icsa b.
Proof.
  intros Hb. unfold claims_column. cbn [get_jobless_claims_data cl_index cl_claims] in *.
  rewrite <- (value_at_resample icsa b Hb). f_equal. clear Hb.
  induction (resample_last icsa) as [|[d v] rest IH]; [reflexivity|]. simpl. f_equal. exact IH.
Qed.

(** C29: No carry-forward of a missing week.  A week of the claims index
    in which FRED published no value has a NaN claims level (the
    specification carries the last observation forward instead), so that
    week is absent from every aligned frame, whatever the prices. *)
Theorem empty_week_dropped raw icsa df b :
  In b (cl_index (get_jobless_claims_data icsa)) ->
  (forall d v, In (d, v) icsa -> week_anchor d <> b) ->
  align raw (get_jobless_claims_data icsa) = Some df -> ~ In b (map r_date df).
Proof.
  intros Hb Hgap. unfold align. destruct (no_valid_prices _); [discriminate|]. intros [= <-] Hin.
  apply in_map_iff in Hin as (r & Hr & Hin). apply filter_In in Hin as [Hin Hc].
  apply in_map_iff in Hin as (d & <- & _). unfold concat_row in Hr. cbn [r_date] in Hr. subst d.
  unfold row_complete, concat_row in Hc. cbn [r_price r_claims r_chg r_signal] in Hc.
  rewrite claims_level_at, bin_last_empty in Hc by assumption.
  cbn [isnan] in Hc. rewrite orb_true_r in Hc. discriminate.
Qed.

(** When the aligner rejects a ticker. *)
Lemma align_none_iff raw cf :
  align raw cf = None <-> ~ (exists x, In x (map snd raw) /\ isnan x = false).
Proof.
  unfold align. rewrite <- resample_valid_iff, <- no_valid_prices_iff.
  destruct (no_valid_prices (resample_last raw)); split; congruence.
Qed.

(** ** A concrete run *)

Lemma align_inner_join_witness :
  In (concat_row (resample_last prices_example) (get_jobless_claims_data icsa_example) 22)
     (dropna_rows (concat_axis1 (resample_last prices_example)
                                (get_jobless_claims_data icsa_example))) <->
  In 22%Z (map fst (resample_last prices_example)) /\
  In 22%Z (cl_index (get_jobless_claims_data icsa_example)) /\
  concat_row (resample_last prices_example) (get_jobless_claims_data icsa_example) 22 =
  concat_row (resample_last prices_example) (get_jobless_claims_data icsa_example) 22 /\
  row_complete (concat_row (resample_last prices_example)
                           (get_jobless_claims_data icsa_example) 22) = true.
Proof.
  apply (align_inner_join prices_example (get_jobless_claims_data icsa_example)). reflexivity.
Defined.

Lemma align_frame_wf_witness :
  frame_wf [concat_row (resample_last prices_example) (get_jobless_claims_data icsa_example) 15;
            concat_row (resample_last prices_example) (get_jobless_claims_data icsa_example) 22;
            concat_row (resample_last prices_example) (get_jobless_claims_data icsa_example) 29].
Proof. apply (align_frame_wf prices_example icsa_example). vm_compute. reflexivity. Defined.

Lemma empty_week_dropped_witness :
  exists df, align prices_example (get_jobless_claims_data icsa_gap) = Some df /\
             ~ In 15%Z (map r_date df).
Proof.
  eexists. split; [reflexivity|].
  apply (empty_week_dropped prices_example icsa_gap).
  - vm_compute. auto.
  - intros d v [H|[H|[]]]; injection H as <- _; vm_compute; discriminate.
  - reflexivity.
Defined.

Lemma align_length_bound_witness :
  exists df, align prices_example (get_jobless_claims_data icsa_example) = Some df /\
    length df <= length (resample_last prices_example) /\
    length df <= length (cl_index (get_jobless_claims_data icsa_example)).
Proof.
  eexists. split; [reflexivity|].
  apply (align_length_bound prices_example icsa_example). reflexivity.
Defined.
