(* ===== verification/Backtest.v ===== *)
(** * The backtest engine: second half of [backtest_strategy] (lines 40-57)

    On the aligned frame: the period returns of the price (line 40), the
    strategy returns, signal of the previous row times return of this row
    (line 41), the two cumulative products (lines 43-44), the CAGR of the
    strategy with 52 weeks a year (lines 46-47), the Sharpe ratio of the
    strategy returns (lines 48-49) and the alpha against the benchmark
    CAGR (line 50).  [df['Cumulative Strategy'].iloc[-1]] raises
    [IndexError] on an empty frame; the engine returns that exception as a
    value and [Batch.backtest_strategy] catches it as the [except] of line
    59 does.  CAGR and Sharpe need [**] and [sqrt], so they are computed
    over the reals: the frame's values are exact rationals, converted by
    [to_R].

    Beside the engine, the reference model of the specification on plain
    rationals ([spec_returns], [spec_strategy], [spec_cumulative]): returns
    between adjacent prices, each weighted by the previous signal, and a
    running product seeded at 1.  The refinement theorem shows that the
    code computes exactly that model on a frame with positive prices,
    except for the seed: pandas' [cumprod] leaves the first row NaN. *)

From Stdlib Require Import List ZArith QArith Qcanon Reals Lia Lra.
From S2P Require Import Prelude PyFloat Pandas Resample Signal Align.
Import ListNotations.
Open Scope nat_scope.

(** The Python exceptions the engine can raise. *)
Inductive py_exc :=
| IndexError   (** [iloc[-1]] on an empty series *).

(** The dictionary returned on line 52, the frame's added columns kept
    beside its rows. *)
Record BacktestResult := {
  br_df : Frame;
  br_returns : list F;          (** ['Returns'] *)
  br_strategy : list F;         (** ['Strategy Returns'] *)
  br_cum_price : list F;        (** ['Cumulative Price'] *)
  br_cum_strategy : list F;     (** ['Cumulative Strategy'] *)
  br_cagr : FR;                 (** ['CAGR'] *)
  br_sharpe : FR;               (** ['Sharpe'] *)
  br_alpha : FR                 (** ['Alpha'] *)
}.

(** Line 40. *)
Definition period_returns (df : Frame) : list F := pct_change (map r_price df).

(** Line 41: [df['Signal'].shift(1) * df['Returns']]. *)
Definition strategy_returns (df : Frame) : list F :=
  zip_with fmul (shift1 (map r_signal df)) (period_returns df).

(** Lines 43-44: [(1 + returns).cumprod()]. *)
Definition cumulative (rets : list F) : list F := cumprod (map (fadd (fq 1)) rets).

(** Line 47 (and line 80): [cum.iloc[-1] ** (52 / weeks) - 1]. *)
Definition annualize (cum : list F) (weeks : nat) : py_exc + FR :=
  match last_error cum with
  | None => inl IndexError
  | Some c => inr (fpow (to_R c) (inject_Z 52 / inject_Z (Z.of_nat weeks)) -. fq 1)
  end.

(** Lines 48-49: the Sharpe ratio of the non-NaN strategy returns, 0 when
    their standard deviation is 0. *)
Definition sharpe_ratio (strat : list F) : FR :=
  let returns := dropna strat in
  let sd := fsqrt (to_R (var returns)) in
  if fne sd (fq 0) then fmul (to_R (mean returns) /. sd) (fsqrt (fq 52)) else fq 0.

(** Lines 40-57. *)
Definition backtest_engine (df : Frame) (spy_cagr : FR) : py_exc + BacktestResult :=
  let rets := period_returns df in
  let strat := strategy_returns df in
  let cum_p := cumulative rets in
  let cum_s := cumulative strat in
  match annualize cum_s (length df) with
  | inl e => inl e
  | inr cagr =>
      inr {| br_df := df; br_returns := rets; br_strategy := strat;
             br_cum_price := cum_p; br_cum_strategy := cum_s;
             br_cagr := cagr; br_sharpe := sharpe_ratio strat;
             br_alpha := cagr -. spy_cagr |}
  end.

(** ** The specification's model *)

(** Returns [p_t / p_(t-1) - 1] between adjacent prices. *)
Definition spec_returns (ps : list Qc) : list Qc :=
  adjacent (fun q p => (q / p - 1)%Qc) ps.

(** [s_t = signal_(t-1) * r_t]: the signal of each week weights the
    return of the next. *)
Definition spec_strategy (sigs ps : list Qc) : list Qc :=
  zip_with Qcmult sigs (spec_returns ps).

(** The running product of [1 + r] after a start value. *)
Fixpoint growth (acc : Qc) (rs : list Qc) : list Qc :=
  match rs with
  | [] => []
  | r :: rs' => let a := (acc * (1 + r))%Qc in a :: growth a rs'
  end.

(** The cumulative series of the specification, seeded at 1. *)
Definition spec_cumulative (rs : list Qc) : list Qc := 1%Qc :: growth 1 rs.

(** A frame whose prices are positive numbers and whose signals are
    numbers (the aligner's output on real data). *)
Definition prices_of (df : Frame) (ps : list Qc) : Prop :=
  map r_price df = map Fin ps /\ Forall (fun p => (0 < p)%Qc) ps.

Definition signals_of (df : Frame) (sigs : list Qc) : Prop :=
  map r_signal df = map Fin sigs.

(** The exponent of line 47 for a frame of [n] weeks. *)
Definition annual_exponent (n : nat) : Q := inject_Z 52 / inject_Z (Z.of_nat n).

(** A row with a price and a signal; the claims columns are irrelevant to
    the engine and hold 1. *)
Definition mk_row (d : Z) (price signal : F) : Row :=
  {| r_date := d; r_price := price; r_claims := fq 1; r_chg := fq 1; r_signal := signal |}.

(** Signal [Flat, Long, Long] over three weeks priced 100, 110, 99. *)
Definition scenario_df : Frame :=
  [mk_row 1 (fq 100) (fq 0); mk_row 8 (fq 110) (fq 1); mk_row 15 (fq 99) (fq 1)].

(** ** Closed forms of the engine's columns *)

Lemma length_spec_returns ps : length (spec_returns ps) = length ps - 1.
Proof. apply length_adjacent. Qed.

Lemma adjacent_pct_fin ps :
  Forall (fun p => (0 < p)%Qc) ps ->
  adjacent (fun a b => a /. b -. fq 1) (map Fin ps) = map Fin (spec_returns ps).
Proof.
  unfold spec_returns. induction 1 as [|p ps Hp Hps IH]; [reflexivity|].
  destruct ps as [|q ps]; [reflexivity|].
  change (adjacent (fun a b => a /. b -. fq 1) (map Fin (p :: q :: ps)))
    with ((Fin q /. Fin p -. fq 1) :: adjacent (fun a b => a /. b -. fq 1) (map Fin (q :: ps))).
  rewrite IH, fdiv_fin by (intros E; rewrite E in Hp; qc_lra).
  reflexivity.
Qed.

(** [pct_change] of positive prices: NaN, then the spec's returns. *)
Lemma pct_change_fin ps :
  Forall (fun p => (0 < p)%Qc) ps -> ps <> [] ->
  pct_change (map Fin ps) = NaN :: map Fin (spec_returns ps).
Proof.
  intros Hpos Hne. destruct ps as [|p ps]; [contradiction|].
  cbn [map]. rewrite pct_change_cons.
  change (Fin p :: map Fin ps) with (map Fin (p :: ps)).
  rewrite ffill_fin, adjacent_pct_fin by exact Hpos. reflexivity.
Qed.

(** Line 40 on positive prices. *)
Lemma period_returns_spec df ps :
  prices_of df ps -> df <> [] ->
  period_returns df = NaN :: map Fin (spec_returns ps).
Proof.
  intros [Hp Hpos] Hne. unfold period_returns. rewrite Hp.
  apply pct_change_fin; [exact Hpos|]. intros ->. destruct df; [contradiction|discriminate].
Qed.

(** Line 41 on positive prices and numeric signals. *)
Lemma strategy_returns_spec df ps sigs :
  prices_of df ps -> signals_of df sigs -> df <> [] ->
  strategy_returns df = NaN :: map Fin (spec_strategy sigs ps).
Proof.
  intros Hp Hs Hne. unfold strategy_returns, signals_of in *.
  rewrite (period_returns_spec df ps Hp Hne), Hs.
  destruct sigs as [|s sigs]; [destruct df; [contradiction|discriminate]|].
  cbn [map]. rewrite shift1_cons. cbn [zip_with].
  change (Fin s :: map Fin sigs) with (map Fin (s :: sigs)).
  rewrite removelast_map, zip_with_map, zip_with_removelast_l.
  - unfold spec_strategy. rewrite map_zip_with. reflexivity.
  - destruct Hp as [Hp _].
    apply (f_equal (@length F)) in Hp, Hs. rewrite !length_map in Hp, Hs.
    rewrite length_spec_returns. cbn [length] in *. destruct df; [contradiction|]. lia.
Qed.

Lemma cumprod_from_growth (acc : Qc) rs :
  cumprod_from (Fin acc) (map (fadd (fq 1)) (map Fin rs)) = map Fin (growth acc rs).
Proof.
  revert acc; induction rs as [|r rs IH]; intros acc; [reflexivity|].
  simpl. f_equal. apply IH.
Qed.

(** Lines 43-44 on a column that is NaN and then numbers. *)
Lemma cumulative_spec rs :
  cumulative (NaN :: map Fin rs) = NaN :: map Fin (growth 1 rs).
Proof. apply (f_equal (cons NaN)), cumprod_from_growth. Qed.

(** ** The spec model's arithmetic *)

(** A signal that is long (1) or flat (0). *)
Definition binary (s : Qc) : Prop := s = 0%Qc \/ s = 1%Qc.

Lemma Qc_div_pos (q p : Qc) : (0 < q)%Qc -> (0 < p)%Qc -> (0 < q / p)%Qc.
Proof.
  unfold Qclt, Qcdiv, Qcmult, Qcinv, Q2Qc. cbn [this]. intros Hq Hp.
  rewrite !Qred_correct. apply Qmult_lt_0_compat; [exact Hq|].
  apply Qinv_lt_0_compat. exact Hp.
Qed.

Lemma Qc_mul_pos (a b : Qc) : (0 < a)%Qc -> (0 < b)%Qc -> (0 < a * b)%Qc.
Proof.
  intros Ha Hb. apply (Qcmult_lt_compat_r 0 a b) in Ha; [|exact Hb].
  rewrite Qcmult_0_l in Ha. exact Ha.
Qed.

#[export] Hint Resolve Qc_div_pos Qc_mul_pos : backtest.

Lemma length_growth acc rs : length (growth acc rs) = length rs.
Proof. revert acc; induction rs; intros acc; simpl; auto. Qed.

(** Each value of the running product is the previous one times [1 + r]. *)
Lemma growth_nth_S acc rs k :
  S k < length rs ->
  exists c r, growth acc rs !? k = Some c /\ rs !? S k = Some r /\
              growth acc rs !? S k = Some (c * (1 + r))%Qc.
Proof.
  revert acc k; induction rs as [|r0 rs IH]; intros acc k Hk; [simpl in Hk; lia|].
  destruct k as [|k].
  - destruct rs as [|r1 rs]; [simpl in Hk; lia|].
    exists (acc * (1 + r0))%Qc, r1. repeat split.
  - destruct (IH (acc * (1 + r0))%Qc k) as (c & r & H1 & H2 & H3); [simpl in Hk; lia|].
    exists c, r. exact (conj H1 (conj H2 H3)).
Qed.

Lemma growth_pos acc rs :
  (0 < acc)%Qc -> Forall (fun r => (0 < 1 + r)%Qc) rs ->
  Forall (fun c => (0 < c)%Qc) (growth acc rs).
Proof.
  intros Hacc Hrs. revert acc Hacc.
  induction Hrs as [|r rs Hr _ IH]; intros acc Hacc; constructor; auto with backtest.
Qed.

(** With a long or flat signal and positive prices, every strategy factor
    [1 + s_t] is positive: 1 when flat, [p_t / p_(t-1)] when long. *)
Lemma spec_strategy_factor_pos sigs ps :
  Forall binary sigs -> Forall (fun p => (0 < p)%Qc) ps ->
  Forall (fun s => (0 < 1 + s)%Qc) (spec_strategy sigs ps).
Proof.
  intros Hs. revert ps. induction Hs as [|s sigs Hs _ IH]; intros ps Hps; [constructor|].
  destruct Hps as [|p ps Hp Hps]; [constructor|].
  destruct ps as [|q ps]; [constructor|].
  inversion Hps as [|? ? Hq _]; subst.
  change (spec_strategy (s :: sigs) (p :: q :: ps))
    with ((s * (q / p - 1))%Qc :: spec_strategy sigs (q :: ps)).
  constructor.
  - destruct Hs as [-> | ->].
    + rewrite Qcmult_0_l, Qcplus_0_r. qc_lra.
    + replace (1 + 1 * (q / p - 1))%Qc with (q / p)%Qc
        by (field; intros E; rewrite E in Hp; qc_lra).
      auto with backtest.
  - apply IH. assumption.
Qed.

Lemma strategy_prefix df t :
  t < length df ->
  firstn (S t) (strategy_returns df) =
  zip_with fmul (NaN :: firstn t (map r_signal df)) (pct_change (firstn (S t) (map r_price df))).
Proof.
  intros Ht. unfold strategy_returns, period_returns.
  rewrite firstn_zip_with, firstn_shift1, firstn_pct_change.
  destruct df as [|r df]; [simpl in Ht; lia|].
  cbn [map firstn]. rewrite shift1_cons. f_equal.
  change (r_signal r :: firstn t (map r_signal df)) with (firstn (S t) (map r_signal (r :: df))).
  rewrite removelast_firstn by (rewrite length_map; exact Ht). reflexivity.
Qed.

Lemma firstn_cumulative n xs : firstn n (cumulative xs) = cumulative (firstn n xs).
Proof. unfold cumulative, cumprod. rewrite firstn_cumprod_from, firstn_map. reflexivity. Qed.

Lemma nth_error_cons_S {A} (x : A) xs k : (x :: xs) !? S k = xs !? k.
Proof. reflexivity. Qed.

(** The cumulative strategy of a frame with positive prices and numeric
    signals. *)
Lemma cumulative_strategy_spec df ps sigs :
  prices_of df ps -> signals_of df sigs -> df <> [] ->
  cumulative (strategy_returns df) = NaN :: map Fin (growth 1 (spec_strategy sigs ps)).
Proof.
  intros Hp Hs Hne. rewrite (strategy_returns_spec df ps sigs Hp Hs Hne). apply cumulative_spec.
Qed.

Lemma length_strategy_returns df : length (strategy_returns df) = length df.
Proof.
  unfold strategy_returns, period_returns. simpl_length.
Qed.

Lemma length_cumulative xs : length (cumulative xs) = length xs.
Proof. unfold cumulative. simpl_length. Qed.

#[export] Hint Rewrite length_strategy_returns length_cumulative : backtest_rw.

(** The engine succeeds on every non-empty frame. *)
Lemma engine_nonempty_ok df spy : df <> [] -> exists r, backtest_engine df spy = inr r.
Proof.
  intros Hne. unfold backtest_engine, annualize.
  destruct (last_error (cumulative (strategy_returns df))) eqn:E; [eexists; reflexivity|].
  apply last_error_None in E. apply (f_equal (@length F)) in E.
  rewrite length_cumulative, length_strategy_returns in E.
  destruct df; [contradiction|discriminate].
Qed.

(** ** Theorems *)

(** C1: Refinement of the specification's backtest.  On a frame with
    positive prices and numeric signals, the strategy returns the code
    computes are NaN followed by the spec's [s_t = signal_(t-1) * r_t],
    and both cumulative series are the spec's running products of
    [1 + r] with the seed row replaced by NaN (pandas' [cumprod] keeps the
    NaN of the first return instead of starting at 1). *)
Theorem engine_refines_spec df ps sigs :
  prices_of df ps -> signals_of df sigs -> df <> [] ->
  strategy_returns df = NaN :: map Fin (spec_strategy sigs ps) /\
  cumulative (strategy_returns df) = NaN :: map Fin (tl (spec_cumulative (spec_strategy sigs ps))) /\
  cumulative (period_returns df) = NaN :: map Fin (tl (spec_cumulative (spec_returns ps))).
Proof.
  intros Hp Hs Hne. rewrite (cumulative_strategy_spec df ps sigs Hp Hs Hne).
  rewrite (strategy_returns_spec df ps sigs Hp Hs Hne), (period_returns_spec df ps Hp Hne).
  split; [reflexivity|]. split; [reflexivity|apply cumulative_spec].
Qed.

(** C2: No lookahead.  The strategy returns and the cumulative strategy up
    to week [t] depend only on the prices up to week [t] and on the
    signals strictly before week [t]: changing the signal of week [t] or
    anything after it changes nothing up to [t]. *)
Theorem no_lookahead df1 df2 t :
  t < length df1 -> t < length df2 ->
  firstn (S t) (map r_price df1) = firstn (S t) (map r_price df2) ->
  firstn t (map r_signal df1) = firstn t (map r_signal df2) ->
  firstn (S t) (strategy_returns df1) = firstn (S t) (strategy_returns df2) /\
  firstn (S t) (cumulative (strategy_returns df1)) =
  firstn (S t) (cumulative (strategy_returns df2)).
Proof.
  intros H1 H2 Hp Hs.
  assert (E : firstn (S t) (strategy_returns df1) = firstn (S t) (strategy_returns df2))
    by (rewrite !strategy_prefix by assumption; rewrite Hp, Hs; reflexivity).
  split; [exact E|]. rewrite !firstn_cumulative, E. reflexivity.
Qed.

(** C4: Round trip between returns and cumulative values.  With long/flat
    signals and positive prices, from the second row on the cumulative
    strategy is a positive number, and the relative change between two
    adjacent cumulative values recovers the strategy return of the later
    week exactly. *)
Theorem cumulative_roundtrip df ps sigs t :
  prices_of df ps -> signals_of df sigs -> Forall binary sigs ->
  1 <= t -> S t < length df ->
  exists c_prev c s,
    cumulative (strategy_returns df) !? t = Some (Fin c_prev) /\
    cumulative (strategy_returns df) !? S t = Some (Fin c) /\
    strategy_returns df !? S t = Some (Fin s) /\
    (0 < c_prev)%Qc /\ (c / c_prev - 1)%Qc = s.
Proof.
  intros Hp Hs Hbin Ht Hlen.
  assert (Hne : df <> []) by (intros ->; simpl in Hlen; lia).
  rewrite (cumulative_strategy_spec df ps sigs Hp Hs Hne), (strategy_returns_spec df ps sigs Hp Hs Hne).
  set (ss := spec_strategy sigs ps).
  assert (Hlen_ss : length ss = length df - 1).
  { unfold ss, spec_strategy. rewrite length_zip_with, length_spec_returns.
    destruct Hp as [Hp _]. apply (f_equal (@length F)) in Hp, Hs.
    rewrite !length_map in Hp, Hs. lia. }
  destruct t as [|k]; [lia|].
  destruct (growth_nth_S 1 ss k) as (c & r & Hc & Hr & Hc'); [lia|].
  exists c, (c * (1 + r))%Qc, r.
  rewrite !nth_error_cons_S, !nth_error_map, Hc, Hc', Hr.
  assert (Hpos : (0 < c)%Qc).
  { eapply Forall_forall; [|eapply nth_error_In; exact Hc].
    apply growth_pos; [qc_lra|]. apply spec_strategy_factor_pos; [exact Hbin|apply Hp]. }
  repeat split; [exact Hpos|]. field. intros E. rewrite E in Hpos. qc_lra.
Qed.


Lemma all_eq_repeat {A} (xs : list A) a :
  (forall x, In x xs -> x = a) -> xs = repeat a (length xs).
Proof.
  induction xs as [|x xs IH]; intros H; [reflexivity|]. simpl.
  rewrite (H x (or_introl eq_refl)), <- IH; [reflexivity|]. intros y Hy. apply H. now right.
Qed.

(** C24: The engine fails, with the [IndexError] of [iloc[-1]], exactly on
    an empty aligned frame; on any other frame it returns a result. *)
Theorem engine_error_iff df spy :
  (exists e, backtest_engine df spy = inl e) <-> df = [].
Proof.
  split; [|intros ->; exists IndexError; reflexivity].
  intros [e He]. destruct df as [|r df]; [reflexivity|].
  destruct (engine_nonempty_ok (r :: df) spy ltac:(discriminate)) as [res Hres]. congruence.
Qed.

(** Zero-variance fallback, in the model's exact arithmetic: when every
    defined strategy return has the same value and there are at least two
    of them, the standard deviation is 0 and the Sharpe ratio is the
    fallback 0.  In float64 the two-pass variance of equal non-zero
    returns is in general a tiny positive number, so the program does not
    have this property (see the header of [Prelude]). *)
Lemma sharpe_zero_variance strat (a : Qc) :
  (forall x, In x (dropna strat) -> x = Fin a) -> 2 <= length (dropna strat) ->
  sharpe_ratio strat = fq 0.
Proof.
  intros Hall Hlen. unfold sharpe_ratio.
  rewrite (all_eq_repeat _ _ Hall), var_const by exact Hlen.
  unfold fsqrt, to_R, fne, fcmp, fq. cbn [k_cmp k_ofQ FloatCarrier_R].
  rewrite Q2R_Qc0, Rcompare_refl, sqrt_0.
  replace (Q2R 0) with 0%R by (unfold Q2R; simpl; lra).
  rewrite Rcompare_refl. reflexivity.
Qed.

(** C22: The Sharpe ratio in closed form.  When the non-NaN strategy
    returns are at least two numbers of positive sample variance, line 49
    computes their mean over their sample standard deviation (ddof = 1),
    times [sqrt 52]. *)
Theorem sharpe_closed_form strat xs :
  dropna strat = map Fin xs -> 2 <= length xs -> (0 < qvar xs)%Qc ->
  sharpe_ratio strat = Fin (Q2R (qmean xs) / sqrt (Q2R (qvar xs)) * sqrt (Q2R 52))%R.
Proof.
  intros Hd Hn Hv. unfold sharpe_ratio. cbv zeta. rewrite Hd.
  rewrite mean_fin, var_fin by (exact Hn || (destruct xs; [simpl in Hn; lia|discriminate])).
  assert (Hs : (0 < sqrt (Q2R (qvar xs)))%R) by apply sqrt_lt_R0, Q2R_Qc_pos, Hv.
  unfold to_R, fsqrt, fq. cbn [k_ofQ FloatCarrier_R].
  rewrite (Rcompare_gt (Q2R (qvar xs))) by apply Q2R_Qc_pos, Hv.
  rewrite (Rcompare_gt (Q2R 52)) by (unfold Q2R; simpl; lra).
  replace (Q2R 0) with 0%R by (unfold Q2R; simpl; lra).
  unfold fne, fcmp, fdiv, fsign, k_zero. cbn [k_cmp k_ofQ FloatCarrier_R].
  replace (Q2R 0) with 0%R by (unfold Q2R; simpl; lra).
  rewrite Rcompare_gt by exact Hs. reflexivity.
Qed.

(** With a single defined strategy return the sample standard
    deviation (ddof = 1) is NaN, the test [std != 0] holds, and the
    Sharpe ratio is NaN. *)
Theorem sharpe_single_return_nan strat x :
  dropna strat = [x] -> sharpe_ratio strat = NaN.
Proof.
  intros H. unfold sharpe_ratio. rewrite var_short by (rewrite H; simpl; destruct (isnan x); simpl; lia).
  cbn [fsqrt to_R fne fcmp]. rewrite fdiv_nan_r. reflexivity.
Qed.

(** C5: CAGR of a real backtest.  On a frame of at least two weeks with
    positive prices and long/flat signals, the engine succeeds; its CAGR
    is [c ** (52 / N) - 1] where [c] is the final value of the spec's
    cumulative strategy, a positive number, so the CAGR is a number above
    -1; the alpha is that CAGR minus the benchmark's. *)
Theorem engine_cagr df ps sigs spy :
  prices_of df ps -> signals_of df sigs -> Forall binary sigs -> 2 <= length df ->
  exists r c,
    backtest_engine df spy = inr r /\
    last_error (spec_cumulative (spec_strategy sigs ps)) = Some c /\ (0 < c)%Qc /\
    br_cagr r = Fin (Rpower (Q2R c) (Q2R (annual_exponent (length df))) - 1)%R /\
    (-1 < Rpower (Q2R c) (Q2R (annual_exponent (length df))) - 1)%R /\
    br_alpha r = br_cagr r -. spy.
Proof.
  intros Hp Hs Hbin Hlen.
  assert (Hne : df <> []) by (intros ->; simpl in Hlen; lia).
  pose proof (cumulative_strategy_spec df ps sigs Hp Hs Hne) as Ecum.
  set (ss := spec_strategy sigs ps) in *.
  assert (Hss : ss <> []).
  { intros E. apply (f_equal (@length Qc)) in E.
    unfold ss, spec_strategy in E. rewrite length_zip_with, length_spec_returns in E.
    destruct Hp as [Hp _]. apply (f_equal (@length F)) in Hp, Hs.
    rewrite !length_map in Hp, Hs. simpl in E. lia. }
  assert (Hg : growth 1 ss <> []) by (destruct ss; [contradiction|discriminate]).
  destruct (last_error (growth 1 ss)) as [c|] eqn:Hc;
    [|apply last_error_None in Hc; contradiction].
  assert (Hpos : (0 < c)%Qc).
  { eapply Forall_forall; [|apply last_error_In; exact Hc].
    apply growth_pos; [qc_lra|]. apply spec_strategy_factor_pos; [exact Hbin|apply Hp]. }
  destruct (backtest_engine df spy) as [e|r] eqn:E;
    [destruct (engine_nonempty_ok df spy Hne) as [r' Hr']; congruence|].
  exists r, c.
  unfold backtest_engine, annualize in E.
  rewrite Ecum, last_error_cons, last_error_map, Hc in E
    by (intros E'; apply map_eq_nil in E'; contradiction).
  cbn [option_map to_R] in E. injection E as <-. cbn [br_cagr br_alpha].
  unfold annual_exponent.
  rewrite fpow_pos by (apply Q2R_Qc_pos, Hpos || apply annual_exponent_nonzero; lia).
  unfold fsub, fq. cbn [fadd fneg k_add k_opp k_ofQ FloatCarrier_R]. rewrite Q2R_one.
  split; [reflexivity|].
  split; [unfold spec_cumulative; rewrite last_error_cons by exact Hg; exact Hc|].
  split; [exact Hpos|]. split; [reflexivity|]. split; [|reflexivity].
  pose proof (exp_pos (Q2R (inject_Z 52 / inject_Z (Z.of_nat (length df))) * ln (Q2R c))).
  unfold Rpower. lra.
Qed.

(** C23: A frame of exactly two weeks has one defined strategy return, and
    the engine reports a NaN Sharpe ratio, not 0. *)
Theorem engine_two_weeks_sharpe_nan df ps sigs spy :
  prices_of df ps -> signals_of df sigs -> length df = 2 ->
  exists r, backtest_engine df spy = inr r /\ br_sharpe r = NaN.
Proof.
  intros Hp Hs Hlen.
  assert (Hne : df <> []) by (intros ->; discriminate).
  destruct (backtest_engine df spy) as [e|r] eqn:E.
  - destruct (engine_nonempty_ok df spy Hne) as [r' Hr']. congruence.
  - exists r. split; [reflexivity|].
    unfold backtest_engine in E. destruct (annualize _ _); [discriminate|].
    injection E as <-. cbn [br_sharpe].
    pose proof (strategy_returns_spec df ps sigs Hp Hs Hne) as Estrat.
    assert (Hss : length (spec_strategy sigs ps) = 1).
    { unfold spec_strategy. rewrite length_zip_with, length_spec_returns.
      destruct Hp as [Hp _]. apply (f_equal (@length F)) in Hp, Hs.
      rewrite !length_map in Hp, Hs. lia. }
    destruct (spec_strategy sigs ps) as [|s [|]] eqn:Ess; try discriminate.
    apply (sharpe_single_return_nan _ (Fin s)). rewrite Estrat. reflexivity.
Qed.

(** ** The specification's scenario *)

(** The specification's scenario, evaluated.  The returns are 0.10 and -0.10,
    the strategy returns [s_1 = 0 * 0.10 = 0] and [s_2 = 1 * -0.10], and
    the cumulative strategy is [NaN, 1, 0.9] where the specification
    expects [1, 1, 0.9]: only the seed row differs. *)
Example scenario_run :
  period_returns scenario_df = [NaN; fq (1#10); fq (-1#10)] /\
  strategy_returns scenario_df = [NaN; fq 0; fq (-1#10)] /\
  cumulative (strategy_returns scenario_df) = [NaN; fq 1; fq (9#10)] /\
  map Fin (spec_cumulative (spec_strategy [Q2Qc 0; Q2Qc 1; Q2Qc 1]
                                          [Q2Qc 100; Q2Qc 110; Q2Qc 99]))
  = [fq 1; fq 1; fq (9#10)].
Proof. repeat split; f_compute. Qed.

Lemma scenario_prices : prices_of scenario_df [Q2Qc 100; Q2Qc 110; Q2Qc 99].
Proof. split; [reflexivity|]. repeat constructor. Qed.

Lemma scenario_signals : signals_of scenario_df [Q2Qc 0; Q2Qc 1; Q2Qc 1].
Proof. reflexivity. Qed.

Lemma scenario_binary : Forall binary [Q2Qc 0; Q2Qc 1; Q2Qc 1].
Proof.
  apply Forall_forall. intros x Hx. unfold binary. simpl in Hx.
  destruct Hx as [<-|[<-|[<-|[]]]]; [left|right|right]; reflexivity.
Qed.

(** ** Witnesses *)

Lemma engine_refines_spec_witness :
  strategy_returns scenario_df =
  NaN :: map Fin (spec_strategy [Q2Qc 0; Q2Qc 1; Q2Qc 1] [Q2Qc 100; Q2Qc 110; Q2Qc 99]).
Proof.
  apply (engine_refines_spec scenario_df _ _ scenario_prices scenario_signals).
  discriminate.
Defined.

Lemma no_lookahead_witness :
  firstn 2 (strategy_returns scenario_df) =
  firstn 2 (strategy_returns [mk_row 1 (fq 100) (fq 0); mk_row 8 (fq 110) NaN]).
Proof.
  apply (no_lookahead scenario_df [mk_row 1 (fq 100) (fq 0); mk_row 8 (fq 110) NaN] 1);
    [simpl; lia | simpl; lia | reflexivity | reflexivity].
Defined.

Lemma cumulative_roundtrip_witness :
  exists c_prev c s,
    cumulative (strategy_returns scenario_df) !? 1 = Some (Fin c_prev) /\
    cumulative (strategy_returns scenario_df) !? 2 = Some (Fin c) /\
    strategy_returns scenario_df !? 2 = Some (Fin s) /\
    (0 < c_prev)%Qc /\ (c / c_prev - 1)%Qc = s.
Proof.
  apply (cumulative_roundtrip scenario_df _ _ 1 scenario_prices scenario_signals scenario_binary);
    simpl; lia.
Defined.

Lemma engine_error_iff_witness :
  exists e, backtest_engine [] (fq 0) = inl e.
Proof. apply (proj2 (engine_error_iff [] (fq 0))). reflexivity. Defined.

Lemma sharpe_single_return_nan_witness : sharpe_ratio [NaN; fq (1#10)] = NaN.
Proof. apply (sharpe_single_return_nan _ (fq (1#10))). reflexivity. Defined.

Lemma engine_cagr_witness :
  exists r c,
    backtest_engine scenario_df (fq 0) = inr r /\
    last_error (spec_cumulative (spec_strategy [Q2Qc 0; Q2Qc 1; Q2Qc 1]
                                               [Q2Qc 100; Q2Qc 110; Q2Qc 99])) = Some c /\
    (0 < c)%Qc /\
    br_cagr r = Fin (Rpower (Q2R c) (Q2R (annual_exponent (length scenario_df))) - 1)%R /\
    (-1 < Rpower (Q2R c) (Q2R (annual_exponent (length scenario_df))) - 1)%R /\
    br_alpha r = br_cagr r -. fq 0.
Proof.
  apply (engine_cagr scenario_df _ _ (fq 0) scenario_prices scenario_signals scenario_binary).
  simpl. lia.
Defined.

Lemma engine_two_weeks_sharpe_nan_witness :
  exists r, backtest_engine [mk_row 1 (fq 100) (fq 0); mk_row 8 (fq 110) (fq 1)] (fq 0) = inr r /\
            br_sharpe r = NaN.
Proof.
  apply (engine_two_weeks_sharpe_nan _ [Q2Qc 100; Q2Qc 110] [Q2Qc 0; Q2Qc 1]);
    [split; [reflexivity|repeat constructor] | reflexivity | reflexivity].
Defined.

Lemma sharpe_closed_form_witness :
  sharpe_ratio [NaN; fq (1 # 10); fq (-1 # 20)] =
  Fin (Q2R (qmean [Q2Qc (1 # 10); Q2Qc (-1 # 20)]) /
       sqrt (Q2R (qvar [Q2Qc (1 # 10); Q2Qc (-1 # 20)])) * sqrt (Q2R 52))%R.
Proof.
  apply sharpe_closed_form; [f_compute | simpl; lia | vm_compute; reflexivity].
Defined.
