(* ===== verification/Benchmark.v ===== *)
(** * The benchmark calculator (lines 70-80)

    SPY's close prices over the claims window, resampled to [W-FRI] weeks
    with the NaN weeks dropped (lines 70-73), their returns (line 75), the
    buy-and-hold cumulative product (line 76) and its CAGR over the number
    of weeks (lines 77-80), by the same formula as the engine's.  The code
    runs this at the top level, with no [try]: an [IndexError] here (no
    SPY price at all) ends the program before any ticker is tested.  The
    theorems: the buy-and-hold value telescopes to last price over first
    price, the CAGR is that ratio to the power [52 / N] minus 1 (so the
    specification's 52-week example with final value 1.10 gives exactly
    0.10), and the benchmark fails exactly when SPY has no price. *)

From Stdlib Require Import List ZArith QArith Qcanon Reals Lia Lra.
From S2P Require Import Prelude PyFloat Pandas Resample Signal Align Backtest.
Import ListNotations.
Open Scope nat_scope.

(** [s.dropna()] on a series with its index. *)
Definition dropna_series (s : Series) : Series :=
  filter (fun p => negb (isnan (snd p))) s.

(** What lines 70-80 leave for the rest of the program. *)
Record BenchmarkResult := {
  bm_dates : list Z;        (** the index of [spy_cumulative] *)
  bm_cumulative : list F;   (** [spy_cumulative] *)
  bm_cagr : FR              (** [spy_cagr] *)
}.

(** Lines 70-80, from the downloaded SPY closes. *)
Definition benchmark (raw : Series) : py_exc + BenchmarkResult :=
  let spy_prices := dropna_series (resample_last raw) in
  let spy_returns := pct_change (map snd spy_prices) in
  let spy_cumulative := cumulative spy_returns in
  match annualize spy_cumulative (length spy_cumulative) with
  | inl e => inl e
  | inr c => inr {| bm_dates := map fst spy_prices; bm_cumulative := spy_cumulative;
                    bm_cagr := c |}
  end.

(** The weekly SPY prices the benchmark works on. *)
Definition spy_weekly (raw : Series) : list F := map snd (dropna_series (resample_last raw)).

(** 51 weeks at 100, then one at 110, dated on Fridays. *)
Definition spy_52_example : Series :=
  map (fun k => (Z.of_nat (1 + 7 * k), fq 100%Q)) (seq 0 51) ++ [(358%Z, fq 110%Q)].

(** ** Lemmas *)

Lemma length_benchmark_cumulative raw :
  length (cumulative (pct_change (spy_weekly raw))) = length (spy_weekly raw).
Proof. rewrite length_cumulative, length_pct_change. reflexivity. Qed.

Lemma Qc_neq_of_pos (p : Qc) : (0 < p)%Qc -> p <> 0%Qc.
Proof. intros Hp E. rewrite E in Hp. qc_lra. Qed.

(** Buy and hold telescopes: the running product of [1 + r] over the
    returns of [p :: ps] ends at [acc * last / p]. *)
Lemma growth_telescopes acc p ps q :
  Forall (fun x => (0 < x)%Qc) (p :: ps) -> last_error ps = Some q ->
  last_error (growth acc (spec_returns (p :: ps))) = Some (acc * q / p)%Qc.
Proof.
  revert acc p. induction ps as [|p1 ps IH]; intros acc p Hpos Hq; [discriminate|].
  inversion Hpos as [|? ? Hp Hpos']; subst. inversion Hpos' as [|? ? Hp1 _]; subst.
  change (spec_returns (p :: p1 :: ps)) with ((p1 / p - 1)%Qc :: spec_returns (p1 :: ps)).
  cbn [growth]. destruct ps as [|p2 ps].
  - injection Hq as <-. simpl. f_equal. field. apply Qc_neq_of_pos, Hp.
  - rewrite last_error_cons by (destruct ps; discriminate).
    rewrite (IH _ p1 Hpos' Hq). f_equal. field.
    split; apply Qc_neq_of_pos; assumption.
Qed.

Lemma map_snd_dropna_series s : map snd (dropna_series s) = dropna (map snd s).
Proof.
  induction s as [|[d v] s IH]; [reflexivity|]. unfold dropna_series, dropna in *. simpl.
  destruct (isnan v); simpl; rewrite ?IH; reflexivity.
Qed.

(** ** Theorems *)

(** The benchmark on positive weekly prices, in closed form. *)
Lemma benchmark_closed_form raw ps :
  spy_weekly raw = map Fin ps -> Forall (fun p => (0 < p)%Qc) ps -> 2 <= length ps ->
  exists r p0 pn,
    benchmark raw = inr r /\ ps !? 0 = Some p0 /\ last_error ps = Some pn /\
    last_error (bm_cumulative r) = Some (Fin (pn / p0)%Qc) /\
    bm_cagr r = Fin (Rpower (Q2R (pn / p0)%Qc) (Q2R (annual_exponent (length ps))) - 1)%R.
Proof.
  intros Hw Hpos Hlen.
  destruct ps as [|p0 ps]; [simpl in Hlen; lia|].
  destruct (last_error ps) as [pn|] eqn:Hpn;
    [|apply last_error_None in Hpn; subst ps; simpl in Hlen; lia].
  assert (Hps : ps <> []) by (intros ->; discriminate).
  assert (Hcum : cumulative (pct_change (spy_weekly raw)) =
                 NaN :: map Fin (growth 1 (spec_returns (p0 :: ps)))).
  { rewrite Hw, pct_change_fin by (exact Hpos || discriminate). apply cumulative_spec. }
  assert (Hlast : last_error (cumulative (pct_change (spy_weekly raw))) = Some (Fin (pn / p0)%Qc)).
  { rewrite Hcum, last_error_cons, last_error_map, (growth_telescopes 1 p0 ps pn Hpos Hpn).
    - cbn [option_map]. do 2 f_equal. field. apply Qc_neq_of_pos. inversion Hpos; assumption.
    - intros E. apply map_eq_nil in E. destruct ps; [contradiction|discriminate]. }
  assert (Hq : (0 < pn / p0)%Qc).
  { inv Hpos. apply Qc_div_pos; [|assumption].
    eapply Forall_forall; [eassumption|apply last_error_In; exact Hpn]. }
  unfold benchmark. cbv zeta. fold (spy_weekly raw).
  unfold annualize. rewrite Hlast, length_benchmark_cumulative, Hw, length_map.
  cbn [to_R]. rewrite fpow_pos by (apply Q2R_Qc_pos, Hq || apply annual_exponent_nonzero; simpl; lia).
  eexists; exists p0, pn. split; [reflexivity|]. split; [reflexivity|].
  split; [rewrite last_error_cons by exact Hps; exact Hpn|].
  cbn [bm_cumulative bm_cagr]. split.
  - rewrite <- Hw. exact Hlast.
  - unfold fsub, fq. cbn [fadd fneg k_add k_opp k_ofQ FloatCarrier_R]. rewrite Q2R_one. reflexivity.
Qed.

(** C25: Buy and hold.  On weekly SPY prices that are positive numbers (at
    least two weeks), the benchmark succeeds; its cumulative return ends
    at last price over first price, and its CAGR is that ratio to the
    power [52 / N] minus 1, [N] the number of weeks. *)
Theorem benchmark_buy_and_hold raw ps :
  spy_weekly raw = map Fin ps -> Forall (fun p => (0 < p)%Qc) ps -> 2 <= length ps ->
  exists r p0 pn,
    benchmark raw = inr r /\ ps !? 0 = Some p0 /\ last_error ps = Some pn /\
    last_error (bm_cumulative r) = Some (Fin (pn / p0)%Qc) /\
    bm_cagr r = Fin (Rpower (Q2R (pn / p0)%Qc) (Q2R (annual_exponent (length ps))) - 1)%R.
Proof. apply benchmark_closed_form. Qed.

(** C26: The specification's benchmark example.  Over 52 weekly prices
    whose last is 1.10 times the first, the benchmark CAGR is exactly
    0.10: the exponent [52 / 52] is 1. *)
Theorem benchmark_52_weeks raw ps p0 pn :
  spy_weekly raw = map Fin ps -> Forall (fun p => (0 < p)%Qc) ps -> length ps = 52 ->
  ps !? 0 = Some p0 -> last_error ps = Some pn -> (pn / p0)%Qc = Q2Qc (11 # 10) ->
  exists r, benchmark raw = inr r /\ bm_cagr r = Fin (Q2R (1 # 10)).
Proof.
  intros Hw Hpos Hlen H0 Hn Hratio.
  destruct (benchmark_closed_form raw ps Hw Hpos ltac:(lia))
    as (r & p0' & pn' & Hr & H0' & Hn' & _ & Hcagr).
  rewrite H0 in H0'. rewrite Hn in Hn'. injection H0' as <-. injection Hn' as <-.
  exists r. split; [exact Hr|]. rewrite Hcagr, Hratio, Hlen. f_equal.
  replace (Q2R (annual_exponent 52)) with 1%R by (unfold Q2R; simpl; field).
  rewrite Rpower_1 by (unfold Q2R; simpl; lra). unfold Q2R. simpl. field.
Qed.

(** When the benchmark fails. *)
Lemma benchmark_fails_iff raw :
  (exists e, benchmark raw = inl e) <-> ~ (exists x, In x (map snd raw) /\ isnan x = false).
Proof.
  rewrite <- resample_valid_iff, <- dropna_nil_iff, <- map_snd_dropna_series.
  fold (spy_weekly raw). unfold benchmark, annualize. cbv zeta. fold (spy_weekly raw).
  destruct (last_error (cumulative (pct_change (spy_weekly raw)))) as [c|] eqn:E.
  - split; [intros [e0 He]; discriminate|]. intros Hn. exfalso.
    apply last_error_In in E. apply (f_equal (@length F)) in Hn.
    rewrite <- length_benchmark_cumulative in Hn.
    destruct (cumulative (pct_change (spy_weekly raw))); [destruct E|discriminate].
  - split; [|intros _; eexists; reflexivity]. intros _.
    apply last_error_None in E. apply (f_equal (@length F)) in E.
    rewrite length_benchmark_cumulative in E. destruct (spy_weekly raw); [reflexivity|discriminate].
Qed.

(** ** Witnesses *)

Lemma benchmark_52_weeks_witness :
  exists r, benchmark spy_52_example = inr r /\ bm_cagr r = Fin (Q2R (1 # 10)).
Proof.
  apply (benchmark_52_weeks spy_52_example (repeat (Q2Qc 100) 51 ++ [Q2Qc 110])
           (Q2Qc 100) (Q2Qc 110)).
  - f_compute.
  - apply Forall_app. split; [apply Forall_forall; intros x Hx; apply repeat_spec in Hx; subst x|];
      repeat constructor.
  - reflexivity.
  - reflexivity.
  - reflexivity.
  - apply Qc_is_canon. vm_compute. reflexivity.
Defined.

Lemma benchmark_buy_and_hold_witness :
  exists r p0 pn,
    benchmark [(1%Z, fq 100%Q); (8%Z, fq 110%Q); (15%Z, fq 99%Q)] = inr r /\
    [Q2Qc 100; Q2Qc 110; Q2Qc 99] !? 0 = Some p0 /\
    last_error [Q2Qc 100; Q2Qc 110; Q2Qc 99] = Some pn /\
    last_error (bm_cumulative r) = Some (Fin (pn / p0)%Qc) /\
    bm_cagr r = Fin (Rpower (Q2R (pn / p0)%Qc) (Q2R (annual_exponent 3)) - 1)%R.
Proof.
  apply (benchmark_buy_and_hold _ [Q2Qc 100; Q2Qc 110; Q2Qc 99]);
    [f_compute | repeat constructor | simpl; lia].
Defined.

