(* ===== verification/Pipeline.v ===== *)
(** * Composition of the signal generator, the aligner and the engine

    [backtest_strategy] feeds the claims frame of [get_jobless_claims_data]
    and the downloaded prices through the aligner into the engine (lines
    25-57).  The engine's theorems ([Backtest]) assume a frame whose
    signals are long (1) or flat (0); this file shows that the aligner
    delivers exactly such frames, whatever the ICSA series, so that on
    positive prices the whole pipeline computes the specification's
    strategy and its cumulative value stays positive. *)

From Stdlib Require Import List ZArith QArith Qcanon Lia.
From S2P Require Import Prelude PyFloat Pandas Resample Signal Align Backtest.
Import ListNotations.
Open Scope nat_scope.

(** The aligned frame of [prices_example] on the claims of [icsa_example]. *)
Definition aligned_example : Frame :=
  match align prices_example (get_jobless_claims_data icsa_example) with
  | Some df => df
  | None => []
  end.

(** ** Lemmas *)

Lemma value_at_cases (s : Series) d : value_at s d = NaN \/ In (value_at s d) (map snd s).
Proof.
  induction s as [|[d' v] s IH]; [left; reflexivity|]. simpl.
  destruct (d' =? d)%Z; [right; left; reflexivity|]. destruct IH; [left|right; right]; assumption.
Qed.

Lemma map_snd_combine_In {A B} (xs : list A) (ys : list B) y :
  In y (map snd (combine xs ys)) -> In y ys.
Proof.
  intros H. apply in_map_iff in H as ([x y'] & <- & H). apply in_combine_r in H. exact H.
Qed.

(** Every row of an aligned frame is long or flat. *)
Lemma aligned_signal raw icsa df r :
  align raw (get_jobless_claims_data icsa) = Some df -> In r df ->
  r_signal r = fq 1 \/ r_signal r = fq 0.
Proof.
  unfold align. destruct (no_valid_prices _); [discriminate|]. intros [= <-] Hr.
  apply filter_In in Hr as [Hr Hc]. apply in_map_iff in Hr as (d & <- & _).
  unfold row_complete, concat_row in *. cbn [r_price r_claims r_chg r_signal] in *.
  destruct (value_at_cases (claims_column (get_jobless_claims_data icsa) cl_signal) d)
    as [E|E]; [|apply map_snd_combine_In, signal_column_values in E as [E|[E|E]]; auto];
    rewrite E in Hc; cbn [isnan] in Hc; rewrite orb_true_r in Hc; discriminate.
Qed.

(** A column of ones and zeros is the image of a binary [Qc] list. *)
Lemma binary_column (df : Frame) :
  (forall r, In r df -> r_signal r = fq 1 \/ r_signal r = fq 0) ->
  exists sigs, signals_of df sigs /\ Forall binary sigs.
Proof.
  unfold signals_of. induction df as [|r df IH]; intros H; [exists []; split; constructor|].
  destruct IH as (sigs & Hs & Hb); [intros r' Hr'; apply H; right; exact Hr'|].
  destruct (H r (or_introl eq_refl)) as [E|E]; [exists (1%Qc :: sigs)|exists (0%Qc :: sigs)];
    (split; [cbn [map]; rewrite E, Hs; reflexivity|constructor; [unfold binary|exact Hb]]); auto.
Qed.

(** The fields of a successful engine run. *)
Lemma engine_ok_cum_strategy df spy r :
  backtest_engine df spy = inr r -> br_cum_strategy r = cumulative (strategy_returns df).
Proof.
  unfold backtest_engine. destruct (annualize _ _); [discriminate|]. intros [= <-]. reflexivity.
Qed.

(** ** Theorems *)

(** C3: The pipeline refines the specification.  On the aligned frame of
    any ICSA series and any download, with positive prices, the frame's
    [Signal] column is a list [sigs] of longs (1) and flats (0), the
    engine succeeds, its cumulative strategy is the specification's
    running product of [1 + s_t] with [s_t = sigs_(t-1) * r_t] for that
    very column (first row NaN), and every value of that product is
    positive: a long/flat strategy on positive prices never loses
    everything. *)
Theorem pipeline_refines_spec raw icsa spy df ps :
  align raw (get_jobless_claims_data icsa) = Some df ->
  map r_price df = map Fin ps -> Forall (fun p => (0 < p)%Qc) ps -> ps <> [] ->
  exists sigs r,
    map r_signal df = map Fin sigs /\ Forall binary sigs /\ backtest_engine df spy = inr r /\
    br_cum_strategy r = NaN :: map Fin (growth 1 (spec_strategy sigs ps)) /\
    Forall (fun c => (0 < c)%Qc) (growth 1 (spec_strategy sigs ps)).
Proof.
  intros Ha Hp Hpos Hne.
  destruct (binary_column df (fun r => aligned_signal raw icsa df r Ha)) as (sigs & Hs & Hb).
  assert (Hdf : df <> []) by (intros ->; destruct ps; [contradiction|discriminate]).
  destruct (engine_nonempty_ok df spy Hdf) as [r Hr].
  exists sigs, r. repeat split; [exact Hs|exact Hb|exact Hr| |].
  - rewrite (engine_ok_cum_strategy _ _ _ Hr). apply cumulative_strategy_spec; [split|..]; assumption.
  - apply growth_pos; [qc_lra|]. apply spec_strategy_factor_pos; assumption.
Qed.

(** ** Witnesses *)

Lemma pipeline_refines_spec_witness :
  exists sigs r,
    map r_signal aligned_example = map Fin sigs /\ Forall binary sigs /\ backtest_engine aligned_example (fq 0) = inr r /\
    br_cum_strategy r =
      NaN :: map Fin (growth 1 (spec_strategy sigs [Q2Qc 110; Q2Qc 99; Q2Qc 105])) /\
    Forall (fun c => (0 < c)%Qc) (growth 1 (spec_strategy sigs [Q2Qc 110; Q2Qc 99; Q2Qc 105])).
Proof.
  apply (pipeline_refines_spec prices_example icsa_example).
  - vm_compute. reflexivity.
  - f_compute.
  - repeat constructor.
  - discriminate.
Defined.
