(* ===== verification/PyDict.v ===== *)
(** * Python dictionaries, insertion-ordered

    A Python [dict] remembers the order in which its keys were first
    inserted: [d[k] = v] replaces the value in place when [k] is present
    and appends the pair otherwise, and [d.items()] iterates in that
    order.  The script relies on it at line 94, where the legend of the
    plot lists the tickers in the order [results] received them.  A dict
    is modelled as its list of items; [dict_get] and [dict_setitem] are
    [d.get(k)] and [d[k] = v].  The abstract specification is a finite
    map (stdpp's [gmap]): [dict_to_map] forgets the order, and the
    refinement lemmas show that every operation commutes with it, so
    lookups may be reasoned about on the map while the order stays
    available for iteration.  The well-formedness invariant (no key
    twice) holds of the empty dict and is preserved by [dict_setitem]. *)

From stdpp Require Import base list gmap.
From S2P Require Import Prelude.
Import ListNotations.

Section PyDict.
Context {K V : Type} `{EqDecision K}.

(** [{}]. *)
Definition dict_empty : list (K * V) := [].

(** [d.get(k)]: the value of the first (and, in a well-formed dict, only)
    pair with key [k]. *)
Fixpoint dict_get (d : list (K * V)) (k : K) : option V :=
  match d with
  | [] => None
  | (k', v) :: d' => if decide (k = k') then Some v else dict_get d' k
  end.

(** [d[k] = v]: in place when [k] is present, at the end otherwise. *)
Fixpoint dict_setitem (d : list (K * V)) (k : K) (v : V) : list (K * V) :=
  match d with
  | [] => [(k, v)]
  | (k', v') :: d' =>
      if decide (k = k') then (k, v) :: d' else (k', v') :: dict_setitem d' k v
  end.

(** [list(d)]: the keys in insertion order. *)
Definition dict_keys (d : list (K * V)) : list K := map fst d.

(** No key twice. *)
Definition dict_wf (d : list (K * V)) : Prop := NoDup (dict_keys d).

(** ** Lemmas *)

Lemma dict_get_setitem_eq d k v : dict_get (dict_setitem d k v) k = Some v.
Proof.
  induction d as [|[k' v'] d IH]; simpl; [by rewrite decide_True|].
  case_decide; simpl; case_decide; congruence.
Qed.

Lemma dict_get_setitem_ne d k k2 v :
  k2 <> k -> dict_get (dict_setitem d k v) k2 = dict_get d k2.
Proof.
  intros Hne. induction d as [|[k' v'] d IH]; simpl; [by rewrite decide_False|].
  case_decide as Hk; subst; simpl.
  - by rewrite !decide_False.
  - case_decide; [reflexivity|exact IH].
Qed.

Lemma dict_get_None d k : dict_get d k = None <-> k ∉ dict_keys d.
Proof.
  induction d as [|[k' v'] d IH]; simpl; [set_solver|].
  rewrite elem_of_cons. case_decide; [naive_solver|]. rewrite IH. naive_solver.
Qed.

Lemma dict_keys_setitem d k v :
  dict_keys (dict_setitem d k v) =
  if decide (k ∈ dict_keys d) then dict_keys d else dict_keys d ++ [k].
Proof.
  unfold dict_keys. induction d as [|[k' v'] d IH]; simpl; [reflexivity|].
  destruct (decide (k = k')) as [->|Hne]; simpl.
  - rewrite decide_True; [reflexivity|set_solver].
  - rewrite IH. destruct (decide (k ∈ map fst d)), (decide (k ∈ k' :: map fst d));
      first [reflexivity | set_solver].
Qed.

Lemma dict_wf_setitem d k v : dict_wf d -> dict_wf (dict_setitem d k v).
Proof.
  unfold dict_wf. rewrite dict_keys_setitem. case_decide; [done|].
  intros Hd. apply NoDup_app. split; [done|]. split; [set_solver|apply NoDup_singleton].
Qed.

Section Refinement.
Context `{Countable K}.

(** The abstraction: the finite map of a dict. *)
Definition dict_to_map (d : list (K * V)) : gmap K V := list_to_map d.

Lemma dict_to_map_lookup d k : dict_to_map d !! k = dict_get d k.
Proof.
  induction d as [|[k' v'] d IH]; simpl; [apply lookup_empty|].
  unfold dict_to_map in *. case_decide; subst.
  - apply lookup_insert_eq.
  - by rewrite lookup_insert_ne.
Qed.

Lemma dict_to_map_setitem d k v :
  dict_to_map (dict_setitem d k v) = <[k := v]> (dict_to_map d).
Proof.
  apply map_eq. intros k2. rewrite !dict_to_map_lookup.
  destruct (decide (k2 = k)) as [->|Hne].
  - by rewrite dict_get_setitem_eq, lookup_insert_eq.
  - by rewrite dict_get_setitem_ne, lookup_insert_ne, dict_to_map_lookup.
Qed.

Lemma dict_to_map_empty : dict_to_map dict_empty = ∅.
Proof. reflexivity. Qed.
End Refinement.
End PyDict.

#[export] Hint Rewrite @dict_get_setitem_eq : backtest_rw.
