(* ===== verification/Batch.v ===== *)
(** * The batch runner: [backtest_strategy] and the main loop (lines 25-88)

    [backtest_strategy] (lines 25-61) downloads a ticker's closes over the
    claims window, runs the aligner and the engine, and turns every
    failure into [None] with a printed notice: ["No valid price data for
    T."] on the guard of line 33, ["Error with T: e"] for an exception of
    the download or of the engine (the [except] of line 59).  The main
    program (lines 64-88) computes the claims frame, then the SPY
    benchmark with no handler around it, then loops over the tickers,
    printing ["Running strategy for T..."] and storing each successful
    result in the [results] dictionary.  The download
    ([yf.download(...)['Close']]) is an external collaborator: a section
    variable that returns the series or the message of the exception it
    raised; [DataSource] gives its Yahoo Finance instance.  [results] is an insertion-ordered dictionary ([PyDict]):
    the order of its keys is the order of the plot's legend (line 94);
    the printed lines are an output list threaded through the loop. *)

From Stdlib Require Import List ZArith QArith Qcanon Reals Lia.
From stdpp Require Import base gmap strings.
From S2P Require Import Prelude PyFloat Pandas Resample Signal Align Backtest Benchmark PyDict.
Import ListNotations.
Open Scope nat_scope.

(** The [results] dictionary: its items in insertion order. *)
Abbreviation Results := (list (string * BacktestResult)).

(** [str(e)] of the exceptions the engine raises. *)
Definition exc_message (e : py_exc) : string :=
  match e with IndexError => "single positional indexer is out-of-bounds" end.

(** Line 34. *)
Definition no_data_notice (t : string) : string :=
  "No valid price data for " +:+ t +:+ ".".

(** Line 60. *)
Definition error_notice (t msg : string) : string :=
  "Error with " +:+ t +:+ ": " +:+ msg.

(** Line 85. *)
Definition running_notice (t : string) : string :=
  "Running strategy for " +:+ t +:+ "...".

(** [jobless_claims.index.min()] and [max()], the download window of
    lines 28-29 and 71-72; [NaT] (no date) makes [strftime] raise. *)
Definition claims_window (cf : ClaimsFrame) : option (Z * Z) :=
  match cl_index cf with
  | [] => None
  | d :: ds => Some (fold_left Z.min ds d, fold_left Z.max ds d)
  end.

(** [str(e)] of [NaT.strftime]. *)
Definition nat_strftime_message : string := "NaTType does not support strftime".

(** [str(e)] of the [TypeError] of [resample] on a series whose index is
    not a [DatetimeIndex]: the index of an empty FRED series (line 17). *)
Definition resample_type_error : string :=
  "Only valid with DatetimeIndex, TimedeltaIndex or PeriodIndex, but got an instance of 'Index'".

Section Batch.
(** [yf.download(ticker, start=..., end=...)['Close']]: the closes, or
    the message of the exception the download raised. *)
Variable download : string -> Z -> Z -> string + Series.

(** Lines 25-61: the result, or [None], and the lines printed. *)
Definition backtest_strategy (t : string) (cf : ClaimsFrame) (spy_cagr : FR)
  : option BacktestResult * list string :=
  match claims_window cf with
  | None => (None, [error_notice t nat_strftime_message])
  | Some (start, stop) =>
      match download t start stop with
      | inl msg => (None, [error_notice t msg])
      | inr raw =>
          match align raw cf with
          | None => (None, [no_data_notice t])
          | Some df =>
              match backtest_engine df spy_cagr with
              | inl e => (None, [error_notice t (exc_message e)])
              | inr r => (Some r, [])
              end
          end
      end
  end.

(** Lines 84-88: the loop over the tickers, from a dictionary and the
    output so far. *)
Fixpoint run_loop (ts : list string) (cf : ClaimsFrame) (spy_cagr : FR)
         (results : Results) (out : list string) : Results * list string :=
  match ts with
  | [] => (results, out)
  | t :: ts' =>
      let out1 := out ++ [running_notice t] in
      let '(res, msgs) := backtest_strategy t cf spy_cagr in
      let results' := match res with
                      | Some r => dict_setitem results t r
                      | None => results
                      end in
      run_loop ts' cf spy_cagr results' (out1 ++ msgs)
  end.

(** Line 64. *)
Definition tickers : list string :=
  ["XLY"; "XLF"; "IWM"; "AMZN"; "TSLA"; "HD"; "JPM"; "WFC"; "CAT"].

(** Lines 64-88 from the ICSA series: the benchmark and the loop, or the
    message of an uncaught exception that ends the program.  An empty
    series stops the program at line 65, in the [resample] of line 17;
    the [NaT] window of lines 71-72 would raise next. *)
Definition main (icsa : Series) : string + (BenchmarkResult * (Results * list string)) :=
  match icsa with
  | [] => inl resample_type_error
  | _ =>
  let cf := get_jobless_claims_data icsa in
  match claims_window cf with
  | None => inl nat_strftime_message
  | Some (start, stop) =>
      match download "SPY" start stop with
      | inl msg => inl msg
      | inr spy_raw =>
          match benchmark spy_raw with
          | inl e => inl (exc_message e)
          | inr bm => inr (bm, run_loop tickers cf (bm_cagr bm) dict_empty [])
          end
      end
  end
  end.
End Batch.

(** A printed notice that reports a skipped ticker. *)
Definition skip_notice (t m : string) : Prop :=
  m = no_data_notice t \/ exists msg, m = error_notice t msg.

(** A download where XLF has no data, HD fails, and every other ticker
    gets [prices_example]. *)
Definition download_example (t : string) (start stop : Z) : string + Series :=
  if bool_decide (t = "XLF") then inr []
  else if bool_decide (t = "HD") then inl "HTTP Error 404"
  else inr prices_example.

Section BatchFacts.
Variable download : string -> Z -> Z -> string + Series.

(** A failing ticker prints exactly one notice; a successful one prints
    nothing. *)
Lemma backtest_strategy_output t cf spy :
  match backtest_strategy download t cf spy with
  | (None, msgs) => exists m, msgs = [m] /\ skip_notice t m
  | (Some _, msgs) => msgs = []
  end.
Proof.
  unfold backtest_strategy, skip_notice.
  destruct (claims_window cf) as [[s e]|]; [|eauto].
  destruct (download t s e) as [msg|raw]; [eauto|].
  destruct (align raw cf) as [df|]; [|eauto].
  destruct (backtest_engine df spy); eauto.
Qed.

Lemma run_loop_lookup ts cf spy results out k :
  dict_get (run_loop download ts cf spy results out).1 k =
  match (backtest_strategy download k cf spy).1 with
  | Some r => if decide (k ∈ ts) then Some r else dict_get results k
  | None => dict_get results k
  end.
Proof.
  revert results out. induction ts as [|t ts IH]; intros results out.
  - cbn [run_loop fst]. destruct (backtest_strategy download k cf spy).1; [|reflexivity].
    case_decide as H; [set_solver|reflexivity].
  - cbn [run_loop]. destruct (backtest_strategy download t cf spy) as [res msgs] eqn:Et.
    rewrite IH. destruct (decide (k = t)) as [->|Hne].
    + rewrite Et. cbn [fst]. destruct res as [r|]; [|reflexivity].
      rewrite dict_get_setitem_eq. destruct (decide (t ∈ ts)), (decide (t ∈ t :: ts));
        set_solver.
    + destruct ((backtest_strategy download k cf spy).1) as [r|].
      * destruct res; [rewrite dict_get_setitem_ne by congruence|];
          destruct (decide (k ∈ ts)), (decide (k ∈ t :: ts)); set_solver.
      * destruct res; [rewrite dict_get_setitem_ne by congruence|]; reflexivity.
Qed.

Lemma run_loop_out ts cf spy results out :
  (run_loop download ts cf spy results out).2 =
  out ++ flat_map (fun t => running_notice t :: (backtest_strategy download t cf spy).2) ts.
Proof.
  revert results out. induction ts as [|t ts IH]; intros results out.
  - simpl. rewrite app_nil_r. reflexivity.
  - cbn [run_loop flat_map]. destruct (backtest_strategy download t cf spy) as [res msgs].
    rewrite IH. cbn [snd]. rewrite <- !app_assoc. reflexivity.
Qed.

(** A success appends its ticker to the keys, a failure leaves them. *)
Lemma run_loop_keys ts cf spy results out :
  NoDup ts -> (forall t, t ∈ ts -> t ∉ dict_keys results) ->
  dict_keys (run_loop download ts cf spy results out).1 =
  dict_keys results ++ filter (fun t => is_Some ((backtest_strategy download t cf spy).1)) ts.
Proof.
  revert results out. induction ts as [|t ts IH]; intros results out Hnd Hfresh.
  - simpl. rewrite app_nil_r. reflexivity.
  - apply NoDup_cons in Hnd as [Ht Hnd]. cbn [run_loop]. rewrite filter_cons.
    destruct (backtest_strategy download t cf spy) as [res msgs] eqn:Et. cbn [fst].
    assert (Hfresh' : forall t', t' ∈ ts -> t' ∉ dict_keys
              (match res with Some r => dict_setitem results t r | None => results end)).
    { intros t' Ht'. destruct res as [r|]; [rewrite dict_keys_setitem; case_decide|];
        set_solver. }
    rewrite (IH _ _ Hnd Hfresh'). destruct res as [r|].
    + rewrite decide_True by (eexists; reflexivity).
      rewrite dict_keys_setitem, decide_False by set_solver. rewrite <- app_assoc. reflexivity.
    + rewrite decide_False by (intros [? ?]; discriminate). reflexivity.
Qed.

(** ** Theorems *)

(** C16: The results dictionary.  After the loop, a ticker has an entry
    exactly when it is in the list and its backtest succeeded, and the
    entry is that backtest's result. *)
Theorem results_exact ts cf spy t :
  dict_get (run_loop download ts cf spy dict_empty []).1 t =
  if decide (t ∈ ts) then (backtest_strategy download t cf spy).1 else None.
Proof.
  rewrite run_loop_lookup.
  destruct ((backtest_strategy download t cf spy).1); [|case_decide; reflexivity].
  reflexivity.
Qed.

(** C17: Insertion order.  With distinct tickers, the keys of [results]
    are, in order, the tickers whose backtest succeeded: line 94 plots the
    strategies in the order of the ticker list, the skipped ones left out. *)
Theorem results_order ts cf spy :
  NoDup ts ->
  dict_keys (run_loop download ts cf spy dict_empty []).1 =
  filter (fun t => is_Some ((backtest_strategy download t cf spy).1)) ts.
Proof. intros Hnd. rewrite run_loop_keys by (exact Hnd || set_solver). reflexivity. Qed.

(** C20: No silent skip.  Every ticker of the list whose backtest fails
    has no entry in the dictionary and a printed notice naming it. *)
Theorem skipped_ticker_noticed ts cf spy t :
  t ∈ ts -> (backtest_strategy download t cf spy).1 = None ->
  dict_get (run_loop download ts cf spy dict_empty []).1 t = None /\
  exists m, In m (run_loop download ts cf spy dict_empty []).2 /\ skip_notice t m.
Proof.
  intros Hin Hfail. rewrite run_loop_lookup, Hfail, run_loop_out.
  split; [reflexivity|].
  pose proof (backtest_strategy_output t cf spy) as Hout.
  destruct (backtest_strategy download t cf spy) as [res msgs] eqn:Eb. cbn in Hfail. subst res.
  destruct Hout as (m & -> & Hm). exists m. split; [|exact Hm].
  apply in_flat_map. exists t. split; [apply list_elem_of_In; exact Hin|].
  rewrite Eb. simpl. auto.
Qed.

(** C32: An empty download.  A ticker whose download (over the claims
    window) returns no number is skipped with the notice of line 34. *)
Theorem empty_download_skipped cf spy t start stop raw :
  claims_window cf = Some (start, stop) -> download t start stop = inr raw ->
  ~ (exists x, In x (map snd raw) /\ isnan x = false) ->
  backtest_strategy download t cf spy = (None, [no_data_notice t]).
Proof.
  intros Hw Hd Hraw. unfold backtest_strategy. rewrite Hw, Hd.
  apply (proj2 (align_none_iff raw cf)) in Hraw. rewrite Hraw. reflexivity.
Qed.

(** The claims window is missing exactly when FRED returned no value. *)
Lemma claims_window_None_iff icsa :
  claims_window (get_jobless_claims_data icsa) = None <-> icsa = [].
Proof.
  rewrite <- resample_nil_iff. unfold claims_window. cbn [get_jobless_claims_data cl_index].
  destruct (resample_last icsa); simpl; split; congruence.
Qed.

(** C27: When the program aborts.  [main] ends with an uncaught exception
    exactly when FRED returned no claims (the [resample] of line 17
    raises [TypeError] on the index of the empty series), when SPY's download raises, or when SPY's download holds no
    number (the [IndexError] of line 80); otherwise it reaches the loop. *)
Theorem main_error_iff icsa :
  (exists msg, main download icsa = inl msg) <->
  icsa = [] \/
  exists start stop, claims_window (get_jobless_claims_data icsa) = Some (start, stop) /\
    ((exists msg, download "SPY" start stop = inl msg) \/
     (exists raw, download "SPY" start stop = inr raw /\
                  ~ (exists x, In x (map snd raw) /\ isnan x = false))).
Proof.
  destruct icsa as [|p ps]; [split; [intros _; left; reflexivity|intros _; eexists; reflexivity]|].
  unfold main. cbv beta iota zeta. destruct (claims_window _) as [[start stop]|] eqn:Hw.
  - assert (Hne : p :: ps <> []) by discriminate.
    destruct (download "SPY" start stop) as [msg|raw] eqn:Hd.
    + split; [intros _; right; exists start, stop; eauto|intros _; eauto].
    + split.
      * intros [msg He]. right. exists start, stop. split; [reflexivity|right].
        exists raw. split; [exact Hd|]. apply benchmark_fails_iff.
        destruct (benchmark raw) as [e|]; [eauto|discriminate].
      * intros [E|(s' & e' & Hw' & [[msg Hd']|(raw' & Hd' & Hn)])]; [contradiction| |];
          injection Hw' as <- <-; [congruence|]. rewrite Hd in Hd'. injection Hd' as <-.
        apply benchmark_fails_iff in Hn as [e He]. rewrite He. eauto.
  - apply claims_window_None_iff in Hw. discriminate.
Qed.
(** C21: Every ticker is run.  For each ticker of the list, the output
    holds its running notice immediately followed by what its backtest
    printed: the loop reaches every ticker, whatever the others do. *)
Theorem every_ticker_runs ts cf spy t :
  In t ts ->
  exists pre post,
    (run_loop download ts cf spy dict_empty []).2 =
    pre ++ running_notice t :: (backtest_strategy download t cf spy).2 ++ post.
Proof.
  intros Hin. apply in_split in Hin as (l1 & l2 & ->). rewrite run_loop_out, flat_map_app.
  exists (flat_map (fun t => running_notice t :: (backtest_strategy download t cf spy).2) l1),
    (flat_map (fun t => running_notice t :: (backtest_strategy download t cf spy).2) l2).
  reflexivity.
Qed.
End BatchFacts.

(** C19: Failure isolation.  A ticker's entry in the dictionary depends only
    on its own download: two runs whose downloads agree on that ticker
    give it the same entry, whatever the other tickers' downloads do. *)
Theorem failure_isolation d1 d2 ts cf spy t :
  (forall s e, d1 t s e = d2 t s e) ->
  dict_get (run_loop d1 ts cf spy dict_empty []).1 t = dict_get (run_loop d2 ts cf spy dict_empty []).1 t.
Proof.
  intros Hd. rewrite !run_loop_lookup.
  unfold backtest_strategy. destruct (claims_window cf) as [[s e]|]; [|reflexivity].
  rewrite Hd. reflexivity.
Qed.

(** ** Witnesses *)

Lemma empty_download_skipped_witness :
  backtest_strategy download_example "XLF" (get_jobless_claims_data icsa_example) (fq 0)
  = (None, [no_data_notice "XLF"]).
Proof.
  apply (empty_download_skipped download_example _ _ "XLF" 8 29 []);
    [vm_compute; reflexivity | reflexivity | intros (x & [] & _)].
Defined.

Lemma skipped_ticker_noticed_witness :
  dict_get (run_loop download_example ["XLY"; "HD"] (get_jobless_claims_data icsa_example)
                     (fq 0) dict_empty []).1 "HD" = None /\
  exists m, In m (run_loop download_example ["XLY"; "HD"]
                           (get_jobless_claims_data icsa_example) (fq 0) dict_empty []).2 /\
            skip_notice "HD" m.
Proof.
  apply skipped_ticker_noticed; [set_solver | vm_compute; reflexivity].
Defined.

Lemma failure_isolation_witness :
  dict_get (run_loop download_example tickers (get_jobless_claims_data icsa_example)
                     (fq 0) dict_empty []).1 "XLF" =
  dict_get (run_loop (fun t _ _ => if bool_decide (t = "XLF") then inr [] else inl "down")
            tickers (get_jobless_claims_data icsa_example) (fq 0) dict_empty []).1 "XLF".
Proof. apply failure_isolation. intros s e. reflexivity. Defined.

Lemma results_order_witness :
  dict_keys (run_loop download_example tickers (get_jobless_claims_data icsa_example)
                      (fq 0) dict_empty []).1 =
  filter (fun t => is_Some ((backtest_strategy download_example t
                               (get_jobless_claims_data icsa_example) (fq 0)).1)) tickers.
Proof. apply results_order. apply (bool_decide_unpack _). vm_compute. reflexivity. Defined.

Lemma every_ticker_runs_witness :
  exists pre post,
    (run_loop download_example tickers (get_jobless_claims_data icsa_example) (fq 0)
              dict_empty []).2 =
    pre ++ running_notice "HD" ::
      (backtest_strategy download_example "HD" (get_jobless_claims_data icsa_example) (fq 0)).2
      ++ post.
Proof. apply every_ticker_runs. simpl. tauto. Defined.

Lemma main_error_iff_witness : exists msg, main download_example [] = inl msg.
Proof. apply main_error_iff. left. reflexivity. Defined.
