(* ===== verification/DataSource.v ===== *)
(** * External data retrieval: [yf.download] and [Fred.get_series]

    The program reads two external services.  FRED: line 13 builds the
    client [Fred(api_key=FRED_API_KEY)], which sends its key with every
    request, and line 17 asks it for the series ICSA.  Yahoo Finance:
    lines 27-30 and 70-73 call [yf.download(ticker, start=s, end=e)], the
    two dates printed by [strftime('%Y-%m-%d')] from the first and last
    date of the claims frame.  [yf.download] parses the two strings back
    into dates and returns the daily bars of the ticker dated from [start]
    included to [end] excluded; a request the service fails is logged by
    yfinance and returned as an empty frame, not raised.  The services
    themselves are inputs of the model: [history] (the daily closes Yahoo
    holds for a ticker, or the error of the request) and [fred_api] (the
    answer of FRED to a key and a series id).

    [PriceSource] is the interface the batch runner relies on: a
    successful download holds only bars of the requested window.
    [yf_close] is the call of the script and is an instance of it.
    The theorems show that [yf_close] returns exactly the window
    [start, stop) of the history (the date strings round-trip through
    [Dates]); that the bar dated on the last claims Friday, the excluded
    end of the window, never reaches a backtest; that with any
    [PriceSource] the join of line 37 has exactly the claims' weeks as
    rows, before [dropna]; and when the whole program, FRED and Yahoo
    included, aborts. *)

From Stdlib Require Import List ZArith QArith Lia Bool Sorted.
From stdpp Require Import base strings.
From S2P Require Import Prelude Dates PyFloat Pandas Resample Signal Align Backtest Benchmark PyDict Batch.
Import ListNotations.
Open Scope Z_scope.

(** What the batch runner relies on of a price download: when both ends
    of the window are dates with a four-digit year, a successful download
    holds only bars dated in the window, its end excluded. *)
Class PriceSource (download : string -> Z -> Z -> string + Series) : Prop :=
  price_window : forall t start stop raw,
    four_digit start = true -> four_digit stop = true ->
    download t start stop = inr raw -> Forall (fun p => start <= fst p < stop) raw.

(** [str(e)] of [pd.Timestamp] on a string that is not a date. *)
Definition timestamp_error : string := "could not convert string to Timestamp".

(** A bar inside the window [start, stop). *)
Definition in_window (start stop : Z) (p : Z * F) : bool := (start <=? fst p) && (fst p <? stop).

Section YFinance.
(** The daily closes Yahoo Finance holds for a ticker ([auto_adjust=True]),
    or the error of the request. *)
Variable history : string -> string + Series.

(** [yf.download(t, start=s, end=e, auto_adjust=True)['Close']]. *)
Definition yf_download (t start_s end_s : string) : string + Series :=
  match parse_ymd start_s, parse_ymd end_s with
  | Some start, Some stop =>
      match history t with
      | inl _ => inr []
      | inr bars => inr (List.filter (in_window start stop) bars)
      end
  | _, _ => inl timestamp_error
  end.

(** Lines 27-30 and 70-73: the call with the window printed by
    [strftime('%Y-%m-%d')]. *)
Definition yf_close (t : string) (start stop : Z) : string + Series :=
  yf_download t (strftime_ymd start) (strftime_ymd stop).

(** The bars of the window that a download of [t] returns. *)
Definition window_bars (t : string) (start stop : Z) : Series :=
  match history t with
  | inl _ => []
  | inr bars => List.filter (in_window start stop) bars
  end.
End YFinance.

(** Line 13: the FRED client, which holds the API key. *)
Record Fred := { fred_api_key : string }.

(** Line 17: [fred.get_series(series_id)], the request sent with the
    client's key. *)
Definition fred_get_series (fred_api : string -> string -> string + Series) (fred : Fred)
    (series_id : string) : string + Series :=
  fred_api (fred_api_key fred) series_id.

(** The program from line 13: the client, the ICSA series (an exception
    of FRED is not caught and ends the program), then [main] with the
    Yahoo Finance download. *)
Definition program (fred_api : string -> string -> string + Series) (api_key : string)
    (history : string -> string + Series) : string + (BenchmarkResult * (Results * list string)) :=
  let fred := {| fred_api_key := api_key |} in
  match fred_get_series fred_api fred "ICSA" with
  | inl msg => inl msg
  | inr icsa => main (yf_close history) icsa
  end.

(** A history with a close on every day from 1970-01-01 (day 0) to
    1970-02-04 (day 34), worth 100 plus the day number; the request for
    HD fails. *)
Definition history_example (t : string) : string + Series :=
  if bool_decide (t = "HD") then inl "HTTP Error 404"
  else inr (map (fun k => (Z.of_nat k, fq (inject_Z (100 + Z.of_nat k)))) (seq 0 35)).

(** FRED answers every request with the ICSA series of [Signal]. *)
Definition fred_example (api_key series_id : string) : string + Series := inr icsa_example.

(** ** Lemmas *)

Lemma yf_close_eq history t start stop :
  four_digit start = true -> four_digit stop = true ->
  yf_close history t start stop = inr (window_bars history t start stop).
Proof.
  intros Hs He. unfold yf_close, yf_download, window_bars.
  rewrite (parse_strftime_day start), (parse_strftime_day stop) by (apply four_digit_year; assumption).
  destruct (history t); reflexivity.
Qed.

Lemma window_bars_in history t start stop :
  Forall (fun p => start <= fst p < stop) (window_bars history t start stop).
Proof.
  unfold window_bars. destruct (history t) as [|bars]; [constructor|].
  apply List.Forall_forall. intros p Hp. apply List.filter_In in Hp as [_ Hp].
  unfold in_window in Hp. apply andb_true_iff in Hp as [H1 H2]. lia.
Qed.

#[export] Instance yf_close_source history : PriceSource (yf_close history).
Proof.
  intros t start stop raw Hs He Hd. rewrite yf_close_eq in Hd by assumption.
  injection Hd as <-. apply window_bars_in.
Qed.

(** [backtest_strategy] depends on the download only through the
    download of its own ticker over the claims window. *)
Lemma backtest_strategy_download_ext d1 d2 t cf spy start stop :
  claims_window cf = Some (start, stop) -> d1 t start stop = d2 t start stop ->
  backtest_strategy d1 t cf spy = backtest_strategy d2 t cf spy.
Proof. intros Hw Hd. unfold backtest_strategy. rewrite Hw, Hd. reflexivity. Qed.

(** The minimum and the maximum of a list are elements of it. *)
Lemma fold_min_In (xs : list Z) d0 : In (fold_left Z.min xs d0) (d0 :: xs).
Proof.
  revert d0; induction xs as [|x xs IH]; intros d0; [left; reflexivity|]. cbn [fold_left].
  destruct (IH (Z.min d0 x)) as [<-|H]; [|right; right; exact H].
  destruct (Z.min_spec d0 x) as [[_ ->]|[_ ->]]; [left|right; left]; reflexivity.
Qed.

Lemma fold_max_In (xs : list Z) d0 : In (fold_left Z.max xs d0) (d0 :: xs).
Proof.
  revert d0; induction xs as [|x xs IH]; intros d0; [left; reflexivity|]. cbn [fold_left].
  destruct (IH (Z.max d0 x)) as [<-|H]; [|right; right; exact H].
  destruct (Z.max_spec d0 x) as [[_ ->]|[_ ->]]; [right; left|left]; reflexivity.
Qed.

(** The window of a claims frame is its first and last week, and every
    week lies between them. *)
Lemma claims_window_bounds cf start stop :
  claims_window cf = Some (start, stop) ->
  In start (cl_index cf) /\ In stop (cl_index cf) /\
  forall b, In b (cl_index cf) -> start <= b <= stop.
Proof.
  unfold claims_window. destruct (cl_index cf) as [|d ds]; [discriminate|]. intros [= <- <-].
  split; [apply fold_min_In|]. split; [apply fold_max_In|].
  intros b Hb. destruct (fold_min_le ds d) as [Hm1 Hm2]. destruct (fold_max_ge ds d) as [HM1 HM2].
  destruct Hb as [<-|Hb]; [lia|]. specialize (Hm2 b Hb). specialize (HM2 b Hb). lia.
Qed.

(** A Friday between two weeks of a weekly range is a week of it. *)
Lemma week_range_between lo n a c b :
  is_friday lo = true -> is_friday b = true -> In a (week_range lo n) -> In c (week_range lo n) ->
  a <= b <= c -> In b (week_range lo n).
Proof.
  unfold week_range. intros Hlo Hb Ha Hc Hr.
  apply in_map_iff in Ha as (ka & <- & Hka). apply in_map_iff in Hc as (kc & <- & Hkc).
  apply in_seq in Hka, Hkc. pose proof (friday_diff lo b Hlo Hb) as Hm.
  apply in_map_iff. exists (Z.to_nat ((b - lo) / 7)).
  pose proof (Z.div_mod (b - lo) 7 ltac:(lia)).
  split; [rewrite Z2Nat.id by (apply Z.div_pos; lia); lia|].
  apply in_seq. split; [lia|].
  assert ((b - lo) / 7 <= Z.of_nat kc) by (apply Z.div_le_upper_bound; lia). lia.
Qed.

(** The weeks of a resampled series lie between the weeks of its
    earliest and latest observations. *)
Lemma resample_weeks_between (s : Series) b :
  In b (map fst (resample_last s)) ->
  exists d d', In d (map fst s) /\ In d' (map fst s) /\ week_anchor d <= b <= week_anchor d'.
Proof.
  unfold resample_last. destruct s as [|[d0 v0] s']; [intros []|].
  rewrite map_map. cbn [fst map]. rewrite map_id. intros Hb.
  exists (fold_left Z.min (map fst s') (Z.min d0 d0)), (fold_left Z.max (map fst s') (Z.max d0 d0)).
  rewrite Z.min_id, Z.max_id. split; [apply fold_min_In|]. split; [apply fold_max_In|].
  cbn [fold_left] in Hb. rewrite Z.min_id, Z.max_id in Hb.
  unfold week_range in Hb. apply in_map_iff in Hb as (k & <- & Hk). apply in_seq in Hk.
  set (lo := week_anchor (fold_left Z.min (map fst s') d0)) in *.
  set (hi := week_anchor (fold_left Z.max (map fst s') d0)) in *.
  assert (lo <= hi).
  { apply week_anchor_mono. pose proof (fold_min_le (map fst s') d0) as [H1 _].
    pose proof (fold_max_ge (map fst s') d0) as [H2 _]. lia. }
  pose proof (Z.div_mod (hi - lo) 7 ltac:(lia)). pose proof (Z.mod_pos_bound (hi - lo) 7 ltac:(lia)).
  rewrite Z2Nat.inj_add, Z2Nat.inj_pos in Hk by (try apply Z.div_pos; lia).
  assert (Z.of_nat k <= (hi - lo) / 7) by lia. lia.
Qed.

(** The day of a bar of a download lies in the window. *)
Lemma download_day_in `{PriceSource download} t start stop raw d :
  four_digit start = true -> four_digit stop = true -> download t start stop = inr raw ->
  In d (map fst raw) -> start <= d < stop.
Proof.
  intros Hs He Hd Hin. pose proof (price_window t start stop raw Hs He Hd) as Hw.
  apply in_map_iff in Hin as (p & <- & Hp). rewrite List.Forall_forall in Hw. exact (Hw p Hp).
Qed.

(** ** Theorems *)

(** C11: The join adds no week.  With any price source that keeps to
    its window, the frame [pd.concat([prices, jobless_claims], axis=1)]
    of line 37, before [dropna], has exactly the weeks of the claims
    frame as rows, in order: the weekly prices of the window
    [index.min(), index.max()) fall on claims weeks, so the union of the
    two indexes is the claims index. *)
Theorem concat_rows_claims_weeks `{PriceSource download} icsa t start stop raw :
  claims_window (get_jobless_claims_data icsa) = Some (start, stop) ->
  four_digit start = true -> four_digit stop = true ->
  download t start stop = inr raw ->
  map r_date (concat_axis1 (resample_last raw) (get_jobless_claims_data icsa)) =
  cl_index (get_jobless_claims_data icsa).
Proof.
  intros Hw Hs He Hd. set (cf := get_jobless_claims_data icsa) in *.
  assert (Hcl : cl_index cf = map fst (resample_last icsa)) by reflexivity.
  destruct (claims_window_bounds cf start stop Hw) as (Hstart & Hstop & _).
  destruct (resample_index icsa) as (lo & n & Hlo & Hidx).
  rewrite map_r_date_concat. rewrite Hcl in *.
  apply StronglySorted_lt_ext; [apply index_union_sorted; apply resample_sorted|apply resample_sorted|].
  intros x. rewrite index_union_In. split; [intros [Hx|Hx]; [|exact Hx]|intros Hx; right; exact Hx].
  destruct (resample_weeks_between raw x Hx) as (d & d' & Hd1 & Hd2 & Hr).
  pose proof (download_day_in t start stop raw d Hs He Hd Hd1).
  pose proof (download_day_in t start stop raw d' Hs He Hd Hd2).
  pose proof (week_anchor_bounds d).
  assert (week_anchor d' <= stop) by (apply week_anchor_least; [apply (resample_friday icsa), Hstop|lia]).
  rewrite Hidx in *. apply (week_range_between lo n start stop); try assumption; [|lia].
  apply (resample_friday raw), Hx.
Qed.

(** C12: The Yahoo Finance download.  For a window whose ends have
    four-digit years, the call of lines 27-30 never raises and returns
    exactly the bars of the ticker's history dated from the first claims
    week included to the last one excluded (none when the request
    fails): [end] is exclusive. *)
Theorem yf_close_window history t start stop :
  four_digit start = true -> four_digit stop = true ->
  exists raw, yf_close history t start stop = inr raw /\
    forall p, In p raw <-> (exists bars, history t = inr bars /\ In p bars) /\ start <= fst p < stop.
Proof.
  intros Hs He. exists (window_bars history t start stop). split; [apply yf_close_eq; assumption|].
  intros p. unfold window_bars. destruct (history t) as [msg|bars].
  - split; [intros []|intros [(bars & Hb & _) _]; discriminate].
  - rewrite List.filter_In. unfold in_window. rewrite andb_true_iff, Z.leb_le, Z.ltb_lt.
    split; [intros [Hp Hr]; split; [exists bars; split; [reflexivity|exact Hp]|lia]|].
    intros [(bars' & [= <-] & Hp) Hr]. split; [exact Hp|lia].
Qed.

(** C13: The last claims Friday is never priced.  The close of a ticker
    dated on the last week of the claims frame, the [end] of the window,
    has no effect on its backtest: adding it to the history leaves the
    result and the printed notices unchanged.  The last week's price is
    the close of an earlier day of that week. *)
Theorem last_friday_ignored history t bars v cf spy start stop :
  claims_window cf = Some (start, stop) -> four_digit start = true -> four_digit stop = true ->
  history t = inr bars ->
  backtest_strategy
    (yf_close (fun t' => if bool_decide (t' = t) then inr (bars ++ [(stop, v)]) else history t'))
    t cf spy =
  backtest_strategy (yf_close history) t cf spy.
Proof.
  intros Hw Hs He Hh. apply (backtest_strategy_download_ext _ _ t cf spy start stop Hw).
  rewrite !yf_close_eq by assumption. unfold window_bars. rewrite Hh, bool_decide_eq_true_2 by reflexivity.
  rewrite List.filter_app. cbn. unfold in_window at 2. cbn [fst]. rewrite Z.ltb_irrefl, andb_false_r.
  rewrite app_nil_r. reflexivity.
Qed.

(** C28: When the whole program aborts.  For claims windows with
    four-digit years, the program from line 13 ends with an uncaught
    exception exactly when FRED raises on the ICSA request, or returns a
    series with no week (the window's [NaT.strftime] raises), or Yahoo
    holds no valid SPY close in the window (the benchmark's [iloc[-1]]
    raises on an empty series; a failed SPY request counts as no close,
    since yfinance does not raise it). *)
Theorem program_error_iff fred_api key history :
  (forall icsa start stop, fred_api key "ICSA" = inr icsa ->
     claims_window (get_jobless_claims_data icsa) = Some (start, stop) ->
     four_digit start = true /\ four_digit stop = true) ->
  (exists msg, program fred_api key history = inl msg) <->
  (exists msg, fred_api key "ICSA" = inl msg) \/
  exists icsa, fred_api key "ICSA" = inr icsa /\
    forall start stop, claims_window (get_jobless_claims_data icsa) = Some (start, stop) ->
      ~ (exists x, In x (map snd (window_bars history "SPY" start stop)) /\ isnan x = false).
Proof.
  intros H4. unfold program, fred_get_series. cbn [fred_api_key].
  destruct (fred_api key "ICSA") as [msg|icsa] eqn:Ef.
  { split; [intros _; left; exists msg; reflexivity|intros _; exists msg; reflexivity]. }
  unfold main. destruct icsa as [|p ps].
  { split; [intros _; right; exists []; split; [reflexivity|]|intros _; eexists; reflexivity].
    intros s e Hse. rewrite (proj2 (claims_window_None_iff [])) in Hse by reflexivity. discriminate. }
  cbv beta iota zeta. destruct (claims_window (get_jobless_claims_data (p :: ps))) as [[start stop]|] eqn:Hw.
  - destruct (H4 (p :: ps) start stop eq_refl Hw) as [Hs He]. rewrite yf_close_eq by assumption.
    split.
    + intros [msg Hm]. right. exists (p :: ps). split; [reflexivity|]. intros s' e' Hse.
      rewrite Hw in Hse. injection Hse as <- <-. apply benchmark_fails_iff.
      destruct (benchmark _) as [e|bm]; [exists e; reflexivity|discriminate].
    + intros [[msg Hm]|(icsa' & [= <-] & Hb)]; [discriminate|].
      destruct (proj2 (benchmark_fails_iff _) (Hb start stop Hw)) as [e ->].
      eexists; reflexivity.
  - split; [intros _; right; exists (p :: ps); split; [reflexivity|intros s e Hse; rewrite Hw in Hse; discriminate]|].
    intros _. eexists; reflexivity.
Qed.

(** ** Witnesses *)

Lemma yf_close_window_witness :
  four_digit 8 = true /\ four_digit 29 = true /\
  exists raw, yf_close history_example "XLY" 8 29 = inr raw /\
    forall p, In p raw <->
      (exists bars, history_example "XLY" = inr bars /\ In p bars) /\ 8 <= fst p < 29.
Proof.
  split; [vm_compute; reflexivity|]. split; [vm_compute; reflexivity|].
  apply yf_close_window; vm_compute; reflexivity.
Defined.

Lemma last_friday_ignored_witness :
  backtest_strategy
    (yf_close (fun t' => if bool_decide (t' = "XLY")
                         then inr (map (fun k => (Z.of_nat k, fq (inject_Z (100 + Z.of_nat k))))
                                       (seq 0 35) ++ [(29, fq 1)])
                         else history_example t'))
    "XLY" (get_jobless_claims_data icsa_example) (fq 0%Q) =
  backtest_strategy (yf_close history_example) "XLY" (get_jobless_claims_data icsa_example) (fq 0%Q).
Proof.
  apply (last_friday_ignored history_example "XLY" _ (fq 1) _ (fq 0%Q) 8 29);
    vm_compute; reflexivity.
Defined.

Lemma concat_rows_claims_weeks_witness :
  map r_date (concat_axis1 (resample_last (window_bars history_example "XLY" 8 29))
                           (get_jobless_claims_data icsa_example)) =
  cl_index (get_jobless_claims_data icsa_example).
Proof.
  apply (concat_rows_claims_weeks (download := yf_close history_example) icsa_example "XLY" 8 29);
    vm_compute; reflexivity.
Defined.

Lemma program_error_iff_witness :
  (exists msg, program fred_example "key" history_example = inl msg) <->
  (exists msg, fred_example "key" "ICSA" = inl msg) \/
  exists icsa, fred_example "key" "ICSA" = inr icsa /\
    forall start stop, claims_window (get_jobless_claims_data icsa) = Some (start, stop) ->
      ~ (exists x, In x (map snd (window_bars history_example "SPY" start stop)) /\ isnan x = false).
Proof.
  apply program_error_iff. intros icsa start stop [= <-] Hw. vm_compute in Hw.
  injection Hw as <- <-. split; vm_compute; reflexivity.
Defined.
