(* ===== verification/Loop.v ===== *)
(** * The backtesting loop as a transition system (lines 84-88)

    [for ticker in tickers:] runs one iteration per ticker: it prints the
    running notice (line 85), calls [backtest_strategy] (line 86), which
    prints its own notices, and stores a successful result in [results]
    (lines 87-88).  Here an iteration is a transition [loop_step] of the
    state [LoopState] (the tickers still to run, the dictionary, the
    printed lines), with one rule for a success and one for a skip, in
    the style of a small-step semantics.  Against this relation the
    theorems show that a transition is deterministic, that every run
    stops, after exactly one transition per ticker, in a state with no
    ticker left, that every reachable state keeps the dictionary's
    invariant, and that the final state is the one [Batch.run_loop]
    computes.  The invariant describes a reachable state completely by the
    tickers already run: [results] holds exactly those whose backtest
    succeeded, with their results and no key twice, and the printed lines
    are their notices in order. *)

From Stdlib Require Import QArith.
From stdpp Require Import base list relations strings.
From S2P Require Import Prelude PyFloat Resample Signal Align Backtest Benchmark PyDict Batch.
Import ListNotations.

(** The loop's variables between two iterations. *)
Record LoopState := {
  ls_todo : list string;     (** the tickers not yet run *)
  ls_results : Results;      (** [results] *)
  ls_out : list string       (** the lines printed so far *)
}.

Section Loop.
Variable download : string -> Z -> Z -> string + Series.
Variable cf : ClaimsFrame.
Variable spy_cagr : FR.

(** One iteration of lines 85-88: [if result:] stores a success. *)
Inductive loop_step : LoopState -> LoopState -> Prop :=
| step_ok t ts results out r msgs :
    backtest_strategy download t cf spy_cagr = (Some r, msgs) ->
    loop_step {| ls_todo := t :: ts; ls_results := results; ls_out := out |}
              {| ls_todo := ts; ls_results := dict_setitem results t r;
                 ls_out := (out ++ [running_notice t]) ++ msgs |}
| step_skip t ts results out msgs :
    backtest_strategy download t cf spy_cagr = (None, msgs) ->
    loop_step {| ls_todo := t :: ts; ls_results := results; ls_out := out |}
              {| ls_todo := ts; ls_results := results;
                 ls_out := (out ++ [running_notice t]) ++ msgs |}.

(** The state before line 84: [results = {}] and nothing printed. *)
Definition loop_init (ts : list string) : LoopState :=
  {| ls_todo := ts; ls_results := dict_empty; ls_out := [] |}.

(** The state of the loop after the tickers [done]: no key twice in
    [results], a ticker has an entry exactly when it was run and its
    backtest succeeded, with that result, and the output is the notices
    of the tickers run, in order. *)
Definition loop_inv (ts : list string) (s : LoopState) : Prop :=
  exists done, ts = done ++ ls_todo s /\ dict_wf (ls_results s) /\
    (forall k v, dict_get (ls_results s) k = Some v <->
                 k ∈ done /\ (backtest_strategy download k cf spy_cagr).1 = Some v) /\
    ls_out s = flat_map (fun t => running_notice t :: (backtest_strategy download t cf spy_cagr).2) done.

(** ** Lemmas *)

Lemma loop_step_todo s s' :
  loop_step s s' -> exists t, ls_todo s = t :: ls_todo s'.
Proof. intros []; eexists; reflexivity. Qed.

(** Every ticker left can be run. *)
Lemma loop_step_progress t ts results out :
  exists s', loop_step {| ls_todo := t :: ts; ls_results := results; ls_out := out |} s'.
Proof.
  destruct (backtest_strategy download t cf spy_cagr) as [[r|] msgs] eqn:E;
    eexists; [apply step_ok|apply step_skip]; exact E.
Qed.

Lemma loop_nf_iff s : nf loop_step s <-> ls_todo s = [].
Proof.
  split.
  - destruct s as [[|t ts] results out]; [reflexivity|]. intros Hnf. exfalso.
    apply Hnf. apply loop_step_progress.
  - intros Hnil [s' Hs]. destruct (loop_step_todo _ _ Hs) as [t Ht]. congruence.
Qed.

Lemma loop_step_det s s1 s2 : loop_step s s1 -> loop_step s s2 -> s1 = s2.
Proof. intros [] H2; inversion H2; subst; congruence. Qed.

(** The strong normalisation of the loop, by the number of tickers left. *)
Lemma loop_sn s : sn loop_step s.
Proof.
  remember (length (ls_todo s)) as n eqn:En. revert s En.
  induction n as [n IH] using lt_wf_ind. intros s En. constructor. intros s' Hs.
  destruct (loop_step_todo _ _ Hs) as [t Ht]. apply (IH (length (ls_todo s'))); [|reflexivity].
  rewrite En, Ht. simpl. lia.
Qed.

(** From any state, one transition per ticker left reaches a final state. *)
Lemma loop_nsteps s :
  exists s', nsteps loop_step (length (ls_todo s)) s s' /\ ls_todo s' = [].
Proof.
  destruct s as [todo results out]. revert results out.
  induction todo as [|t ts IH]; intros results out; [eexists; split; [constructor|reflexivity]|].
  destruct (loop_step_progress t ts results out) as [s1 Hs1].
  pose proof (loop_step_todo _ _ Hs1) as [t' Ht']. cbn [ls_todo] in Ht'. injection Ht' as <- Hts.
  destruct s1 as [todo1 results1 out1]. cbn [ls_todo] in Hts. subst todo1.
  destruct (IH results1 out1) as (s' & Hn & Hf). exists s'. split; [|exact Hf].
  econstructor; [exact Hs1|exact Hn].
Qed.

(** One iteration of [run_loop] is one transition. *)
Lemma run_loop_step s s' :
  loop_step s s' ->
  run_loop download (ls_todo s) cf spy_cagr (ls_results s) (ls_out s) =
  run_loop download (ls_todo s') cf spy_cagr (ls_results s') (ls_out s').
Proof. intros [t ts results out r msgs E|t ts results out msgs E]; cbn; rewrite E; reflexivity. Qed.

Lemma loop_inv_init ts : loop_inv ts (loop_init ts).
Proof.
  exists []. split; [reflexivity|]. split; [constructor|]. split; [|reflexivity].
  intros k v. cbn. split; [discriminate|]. intros [Hk _]. apply elem_of_nil in Hk as [].
Qed.

Lemma loop_inv_step ts s s' : loop_inv ts s -> loop_step s s' -> loop_inv ts s'.
Proof.
  intros (done & Hts & Hwf & Hres & Hout) Hs.
  destruct Hs as [t ts' results out r msgs E|t ts' results out msgs E];
    cbn [ls_todo ls_results ls_out] in *; exists (done ++ [t]); cbn [ls_todo ls_results ls_out];
    (split; [rewrite <- app_assoc; exact Hts|]).
  - split; [apply dict_wf_setitem, Hwf|]. split.
    + intros k v. rewrite elem_of_app, list_elem_of_singleton.
      destruct (decide (k = t)) as [->|Hne].
      * rewrite dict_get_setitem_eq, E. cbn. split; [intros [= <-]; auto|intros [_ Hv]; exact Hv].
      * rewrite dict_get_setitem_ne by exact Hne. rewrite Hres. naive_solver.
    + rewrite Hout, flat_map_app. cbn [flat_map]. rewrite E. cbn [snd].
      rewrite app_nil_r, <- app_assoc. reflexivity.
  - split; [exact Hwf|]. split.
    + intros k v. rewrite elem_of_app, list_elem_of_singleton, Hres.
      destruct (decide (k = t)) as [->|Hne]; [rewrite E; cbn; naive_solver|naive_solver].
    + rewrite Hout, flat_map_app. cbn [flat_map]. rewrite E. cbn [snd].
      rewrite app_nil_r, <- app_assoc. reflexivity.
Qed.

(** ** Theorems *)

(** Every sequence of iterations from any state is finite, and exactly
    one iteration per ticker left leads to a state from which no
    iteration is possible. *)
Lemma loop_terminates s :
  sn loop_step s /\
  exists s', nsteps loop_step (length (ls_todo s)) s s' /\ nf loop_step s'.
Proof.
  split; [apply loop_sn|]. destruct (loop_nsteps s) as (s' & Hn & Hf).
  exists s'. split; [exact Hn|]. apply loop_nf_iff, Hf.
Qed.

(** C18: The loop invariant, by rule induction.  Every state the loop
    reaches from [results = {}] and nothing printed is described by the
    tickers [done] run so far, a prefix of the list: [results] has no key
    twice, a ticker has an entry exactly when it is in [done] and its
    [backtest_strategy] succeeded, with that result, and the output is
    the running notice and the notices of each ticker of [done], in
    order. *)
Theorem loop_invariant ts s :
  rtc loop_step (loop_init ts) s -> loop_inv ts s.
Proof.
  revert s. apply rtc_ind_r; [apply loop_inv_init|].
  intros s1 s2 _ H12 IH. exact (loop_inv_step ts s1 s2 IH H12).
Qed.

(** The final state from any state is what [run_loop] computes from it. *)
Lemma loop_final_run s s' :
  rtc loop_step s s' -> nf loop_step s' ->
  (ls_results s', ls_out s') = run_loop download (ls_todo s) cf spy_cagr (ls_results s) (ls_out s).
Proof.
  induction 1 as [s|s1 s2 s3 H12 _ IH]; intros Hnf.
  - apply loop_nf_iff in Hnf. destruct s as [todo results out]. cbn in *. subst. reflexivity.
  - rewrite (run_loop_step _ _ H12). apply IH, Hnf.
Qed.

(** The final state the transitions reach from [results = {}] is the
    one the recursive [run_loop] of [Batch] computes. *)
Lemma loop_matches_run_loop ts s :
  rtc loop_step (loop_init ts) s -> nf loop_step s ->
  (ls_results s, ls_out s) = run_loop download ts cf spy_cagr dict_empty [].
Proof. intros Hrtc Hnf. apply (loop_final_run _ _ Hrtc Hnf). Qed.
End Loop.

(** ** Witnesses *)

Lemma loop_invariant_witness :
  exists s, rtc (loop_step download_example (get_jobless_claims_data icsa_example) (fq 0%Q))
                (loop_init ["XLY"; "HD"]) s /\
            loop_inv download_example (get_jobless_claims_data icsa_example) (fq 0%Q)
                     ["XLY"; "HD"] s.
Proof.
  eexists. split.
  - eapply rtc_l; [apply step_ok; reflexivity|]. apply rtc_refl.
  - apply loop_invariant. eapply rtc_l; [apply step_ok; reflexivity|]. apply rtc_refl.
Defined.

