(* ===== verification/Format.v ===== *)
(** * Python's float formatting: ['.2f'] and ['.2%'] (lines 92 and 96)

    The legend labels of the plot print the benchmark CAGR and each
    alpha with [:.2%] and each Sharpe ratio with [:.2f].  CPython formats
    a float with a fixed number of decimals by rounding its value to the
    nearest multiple of [10^-2], ties to even, then printing the sign (of
    the value: [-0.001] prints as [-0.00]), the integer part in decimal,
    a point and two digits; NaN and the infinities print as [nan], [inf]
    and [-inf].  [.2%] multiplies by 100 first and appends a percent sign.
    The value is a float of the model ([FR], exact reals), so the rounding
    is that of the exact value; the digits are stdpp's [pretty] of a
    natural number.  [read_fixed2] and [read_percent] read such a text
    back (sign, integer digits, point, two decimals); they state what the
    legend says and are not code of the program.  The theorems show that
    [round_half_even] is the nearest integer with ties to even, and that
    the text printed of every finite value reads back as that rounding of
    the value in hundredths (of a percent for [.2%]).  The multiplication
    by 100 of [.2%] is exact here; CPython multiplies in float64 first. *)

From Stdlib Require Import ZArith QArith Reals Lra Lia Ascii.
From stdpp Require Import base strings pretty.
From S2P Require Import Prelude PyFloat.

(** Round to the nearest integer, ties to even. *)
Definition round_half_even (x : R) : Z :=
  let n := Int_part x in
  let f := frac_part x in
  if Rlt_dec f (1 / 2) then n
  else if Rlt_dec (1 / 2) f then (n + 1)%Z
  else if Z.even n then n else (n + 1)%Z.

(** [str] of a natural number. *)
Definition digits (m : Z) : string := pretty (Z.to_N m).

(** The text of a value whose hundredfold rounds to [n], negative or not. *)
Definition fixed2 (neg : bool) (n : Z) : string :=
  (if neg then "-" else "") +:+ digits (Z.abs n / 100) +:+ "." +:+
  digits (Z.abs n mod 100 / 10) +:+ digits (Z.abs n mod 10).

(** [format(x, '.2f')]. *)
Definition format_fixed2 (x : FR) : string :=
  match x with
  | Fin r => fixed2 (if Rlt_dec r 0 then true else false) (round_half_even (r * 100))
  | PInf => "inf"
  | NInf => "-inf"
  | NaN => "nan"
  end.

(** [format(x, '.2%')]. *)
Definition format_percent2 (x : FR) : string := format_fixed2 (fmul x (fq 100)) +:+ "%".

(** ** Reading a printed number back

    A reader of the text a legend shows, used to state what the text
    says: an optional sign, the decimal digits of the integer part, a
    point and two decimals.  It is not code of the program. *)

(** The longest run of decimal digits, read after the value [acc]. *)
Fixpoint read_digits (acc : N) (s : string) : N * string :=
  match s with
  | String c s' =>
      match Ascii.is_nat c with
      | Some d => read_digits (10 * acc + N.of_nat d) s'
      | None => (acc, s)
      end
  | EmptyString => (acc, s)
  end.

(** An optional minus sign. *)
Definition read_sign (s : string) : bool * string :=
  match s with
  | String c s' => if Ascii.eqb c "-"%char then (true, s') else (false, s)
  | EmptyString => (false, s)
  end.

(** A number printed with two decimals, in hundredths, and what follows. *)
Definition read_fixed2 (s : string) : option (Z * string) :=
  let '(neg, s1) := read_sign s in
  match read_digits 0 s1 with
  | (ip, String p (String c1 (String c2 s3))) =>
      match Ascii.eqb p "."%char, Ascii.is_nat c1, Ascii.is_nat c2 with
      | true, Some d1, Some d2 =>
          let m := Z.of_N (100 * ip + 10 * N.of_nat d1 + N.of_nat d2) in
          Some (if neg then (- m)%Z else m, s3)
      | _, _, _ => None
      end
  | _ => None
  end.

(** A percentage printed with two decimals, in hundredths of a percent. *)
Definition read_percent (s : string) : option Z :=
  match read_fixed2 s with
  | Some (n, "%"%string) => Some n
  | _ => None
  end.

(** ** Lemmas *)

Lemma frac_part_bounds x : (0 <= frac_part x < 1)%R.
Proof. unfold frac_part. pose proof (base_Int_part x). lra. Qed.

(** The rounded value is the integer part or the next integer, on the
    side of the nearer one. *)
Lemma round_half_even_cases x :
  (round_half_even x = Int_part x /\ frac_part x <= 1 / 2)%R \/
  (round_half_even x = (Int_part x + 1)%Z /\ 1 / 2 <= frac_part x)%R.
Proof.
  unfold round_half_even.
  destruct (Rlt_dec (frac_part x) (1 / 2)); [left; split; [reflexivity|lra]|].
  destruct (Rlt_dec (1 / 2) (frac_part x)); [right; split; [reflexivity|lra]|].
  destruct (Z.even (Int_part x)); [left|right]; (split; [reflexivity|lra]).
Qed.

(** Every integer is at most the integer part or at least the next one. *)
Lemma IZR_around_Int_part x z :
  (IZR z <= IZR (Int_part x) \/ IZR (Int_part x) + 1 <= IZR z)%R.
Proof.
  destruct (Z.le_gt_cases z (Int_part x)) as [H|H]; [left; apply IZR_le, H|].
  right. rewrite <- plus_IZR. apply IZR_le. lia.
Qed.

Lemma string_app_String c s t : String c s +:+ t = String c (s +:+ t).
Proof. reflexivity. Qed.

Lemma string_app_nil_l s : "" +:+ s = s.
Proof. reflexivity. Qed.

Lemma string_app_nil_r s : s +:+ "" = s.
Proof. induction s as [|c s IH]; [reflexivity|]. rewrite string_app_String, IH. reflexivity. Qed.

Lemma string_app_assoc s t u : s +:+ (t +:+ u) = (s +:+ t) +:+ u.
Proof. induction s as [|c s IH]; [reflexivity|]. rewrite !string_app_String, IH. reflexivity. Qed.

Section Digits.
Local Open Scope N_scope.

Lemma is_nat_pretty_N_char d : (d < 10)%N -> Ascii.is_nat (pretty_N_char d) = Some (N.to_nat d).
Proof.
  intros Hd. assert (d = 0 \/ d = 1 \/ d = 2 \/ d = 3 \/ d = 4 \/ d = 5 \/ d = 6 \/
                     d = 7 \/ d = 8 \/ d = 9)%N as Hc by lia.
  repeat destruct Hc as [->|Hc]; [reflexivity..|subst d; reflexivity].
Qed.

(** The digits of [x] in front of [s] start with a digit. *)
Lemma pretty_N_go_head x s :
  (0 < x)%N -> exists d t, (d < 10)%N /\ pretty_N_go x s = String (pretty_N_char d) t.
Proof.
  revert s. induction (N.lt_wf_0 x) as [x _ IH]; intros s Hx.
  rewrite pretty_N_go_step by exact Hx.
  destruct (N.eq_dec (x / 10) 0) as [E|E].
  - rewrite E, pretty_N_go_0. exists (x mod 10)%N, s. split; [apply N.mod_lt; discriminate|reflexivity].
  - apply IH; [apply N.div_lt; lia|revert E; generalize (x / 10); lia].
Qed.

Lemma pretty_N_go_app x s t : pretty_N_go x s +:+ t = pretty_N_go x (s +:+ t).
Proof.
  revert s. induction (N.lt_wf_0 x) as [x _ IH]; intros s.
  destruct (N.eq_dec x 0) as [->|Hx]; [rewrite !pretty_N_go_0; reflexivity|].
  rewrite (pretty_N_go_step x s), (pretty_N_go_step x (s +:+ t)) by lia.
  rewrite IH by (apply N.div_lt; lia). reflexivity.
Qed.

(** Reading the digits of [x] shifts them into the value read so far. *)
Lemma read_pretty_N_go x :
  exists p, forall acc s, read_digits acc (pretty_N_go x s) = read_digits (acc * p + x) s.
Proof.
  induction (N.lt_wf_0 x) as [x _ IH].
  destruct (N.eq_dec x 0) as [->|Hx]; [exists 1%N; intros; rewrite pretty_N_go_0, N.mul_1_r, N.add_0_r; reflexivity|].
  destruct (IH (x / 10)%N) as [p Hp]; [apply N.div_lt; lia|]. exists (10 * p)%N. intros acc s.
  rewrite pretty_N_go_step, Hp by lia. cbn [read_digits].
  rewrite is_nat_pretty_N_char by (apply N.mod_lt; discriminate). rewrite N2Nat.id. f_equal.
  pose proof (N.div_mod x 10 ltac:(lia)). lia.
Qed.

(** [str(m)] followed by a text that does not start with a digit is
    read back as [m]. *)
Lemma read_digits_pretty (m : N) c s :
  Ascii.is_nat c = None -> read_digits 0 (pretty m +:+ String c s) = (m, String c s).
Proof.
  intros Hc. unfold pretty, pretty_N. case_decide as Hm.
  - subst m. change ("0" +:+ String c s) with (String "0" (String c s)).
    cbn [read_digits Ascii.is_nat]. rewrite Hc. reflexivity.
  - rewrite pretty_N_go_app. change ("" +:+ String c s) with (String c s).
    destruct (read_pretty_N_go m) as [p ->]. cbn [read_digits]. rewrite Hc. reflexivity.
Qed.

End Digits.

Lemma digits_small d : (0 <= d < 10)%Z -> digits d = String (pretty_N_char (Z.to_N d)) "".
Proof.
  intros Hd. unfold digits, pretty, pretty_N. case_decide as H0; [rewrite H0; reflexivity|].
  rewrite pretty_N_go_step by lia. rewrite N.div_small, N.mod_small by lia. reflexivity.
Qed.

(** The first character of [str(m)] is a digit. *)
Lemma digits_head m t : exists d u, (d < 10)%N /\ digits m +:+ t = String (pretty_N_char d) u.
Proof.
  unfold digits, pretty, pretty_N. case_decide as H0.
  - exists 0%N, t. split; [lia|reflexivity].
  - destruct (pretty_N_go_head (Z.to_N m) "") as (d & u & Hd & ->); [lia|].
    exists d, (u +:+ t). split; [exact Hd|reflexivity].
Qed.

Lemma is_nat_dot : Ascii.is_nat "."%char = None.
Proof. reflexivity. Qed.

(** A number starts with no sign. *)
Lemma read_sign_digits m t : read_sign (digits m +:+ t) = (false, digits m +:+ t).
Proof.
  destruct (digits_head m t) as (d & u & Hd & ->). cbn.
  destruct (Ascii.eqb_spec (pretty_N_char d) "-"%char) as [E|E]; [|reflexivity].
  apply (f_equal Ascii.is_nat) in E. rewrite is_nat_pretty_N_char in E by exact Hd. discriminate.
Qed.

(** What [fixed2] prints is read back as the signed number of
    hundredths. *)
Lemma read_fixed2_fixed2 neg n t :
  read_fixed2 (fixed2 neg n +:+ t) = Some (if neg then - Z.abs n else Z.abs n, t)%Z.
Proof.
  pose proof (Z.abs_nonneg n) as Ha. set (a := Z.abs n) in *.
  assert (Hb : (0 <= a mod 100 / 10 < 10)%Z) by (Z.div_mod_to_equations; lia).
  assert (Hc : (0 <= a mod 10 < 10)%Z) by (Z.div_mod_to_equations; lia).
  assert (Hm : Z.of_N (100 * Z.to_N (a / 100) + 10 * Z.to_N (a mod 100 / 10) + Z.to_N (a mod 10)) = a).
  { rewrite !N2Z.inj_add, !N2Z.inj_mul, !Z2N.id by (Z.div_mod_to_equations; lia).
    Z.div_mod_to_equations; lia. }
  set (rest := String (pretty_N_char (Z.to_N (a mod 100 / 10))) (String (pretty_N_char (Z.to_N (a mod 10))) t)).
  pose proof (read_digits_pretty (Z.to_N (a / 100)) "."%char rest is_nat_dot) as Hr.
  unfold fixed2. fold a. rewrite (digits_small _ Hb), (digits_small _ Hc).
  rewrite <- !string_app_assoc, !string_app_String, !string_app_nil_l. fold rest.
  unfold read_fixed2. destruct neg;
    [rewrite string_app_String, string_app_nil_l; cbn [read_sign Ascii.eqb Bool.eqb]
    |rewrite string_app_nil_l, read_sign_digits];
    unfold digits in *; rewrite Hr; cbv iota beta; unfold rest; rewrite Ascii.eqb_refl;
    rewrite !is_nat_pretty_N_char by lia; rewrite !N2Nat.id, Hm; reflexivity.
Qed.

(** The rounded value has the sign of the value, or is zero. *)
Lemma round_half_even_sign x :
  ((x < 0)%R -> (round_half_even x <= 0)%Z) /\ ((0 <= x)%R -> (0 <= round_half_even x)%Z).
Proof.
  pose proof (base_Int_part x) as [Hl Hu].
  split; intros Hx; destruct (round_half_even_cases x) as [[-> _]|[-> _]].
  1,2: assert (Int_part x < 0)%Z by (apply lt_IZR; lra); lia.
  all: assert (-1 < Int_part x)%Z by (apply lt_IZR; lra); lia.
Qed.

(** What [format_fixed2] prints of a finite value is read back as the
    rounded number of hundredths, whatever the sign. *)
Lemma read_format_fixed2 r t :
  read_fixed2 (format_fixed2 (Fin r) +:+ t) = Some (round_half_even (r * 100), t).
Proof.
  unfold format_fixed2. rewrite read_fixed2_fixed2. f_equal. f_equal.
  pose proof (round_half_even_sign (r * 100)) as [Hn Hp].
  destruct (Rlt_dec r 0); [rewrite Z.abs_neq by (apply Hn; lra); lia|].
  rewrite Z.abs_eq by (apply Hp; lra). reflexivity.
Qed.

(** ** Theorems *)

(** C35: Correct rounding.  [round_half_even x] is an integer nearest to
    [x] (no integer is closer), and when [x] lies exactly half-way
    between two integers it is the even one: the rounding CPython applies
    when it prints a float with a fixed number of decimals. *)
Theorem round_half_even_nearest (x : R) :
  (forall z, Rabs (IZR (round_half_even x) - x) <= Rabs (IZR z - x))%R /\
  (frac_part x = 1 / 2 -> Z.even (round_half_even x) = true)%R.
Proof.
  split.
  - intros z. pose proof (frac_part_bounds x) as Hf. unfold frac_part in Hf.
    destruct (IZR_around_Int_part x z) as [Hz|Hz];
      destruct (round_half_even_cases x) as [[-> Hc]|[-> Hc]]; unfold frac_part in Hc;
      rewrite ?plus_IZR; unfold Rabs; repeat destruct (Rcase_abs _); lra.
  - intros Hhalf. unfold round_half_even. rewrite Hhalf.
    destruct (Rlt_dec (1 / 2) (1 / 2)); [lra|].
    destruct (Z.even (Int_part x)) eqn:E; [exact E|].
    rewrite Z.even_add, E. reflexivity.
Qed.

(** C36: The legend's numbers read back.  The text [:.2f] prints of a
    finite float is an optional minus sign, decimal digits, a point and
    two digits, which read as a number of hundredths give exactly the
    value times 100 rounded half to even; the text [:.2%] prints is the
    same form followed by [%], read as hundredths of a percent, the value
    times 10000 rounded.  Sign, integer part and both decimals are each
    in their place: [-0.001] reads back as 0 and [0.105] as [10.50%]. *)
Theorem format_read_back r :
  read_fixed2 (format_fixed2 (Fin r)) = Some (round_half_even (r * 100), ""%string) /\
  read_percent (format_percent2 (Fin r)) = Some (round_half_even (r * 100 * 100)).
Proof.
  split; [rewrite <- (string_app_nil_r (format_fixed2 _)); apply read_format_fixed2|].
  unfold format_percent2, read_percent, fq. cbn [fmul k_mul k_ofQ FloatCarrier_R].
  assert (Hq : Q2R 100 = 100%R) by (unfold Q2R; simpl; field).
  rewrite Hq, read_format_fixed2. reflexivity.
Qed.
