(* ===== verification/Plot.v ===== *)
(** * The final plot (lines 90-104)

    [matplotlib.pyplot] is a state machine: it keeps the open figures (the
    current one is the last created, and a call that needs a figure when
    none is open creates one of the default size 6.4 x 4.8), each call
    changes the current figure, and [plt.show()] displays every open
    figure and closes it.  [Pyplot] is that state, [plt_step] one call;
    [legend()] records the labels of the lines plotted so far (a label
    starting with [_] is left out, as matplotlib does).  The script of
    lines 90-104 is the list of calls [plot_calls]: a 14 x 8 figure, the
    SPY buy-and-hold curve dashed with its CAGR in the label, one curve
    per entry of [results] in the dictionary's order with its alpha and
    Sharpe ratio, the title, axis labels, legend, grid and layout, then
    [show()].  Labels are byte strings: the [α] of line 96 is its UTF-8
    encoding.  The theorems show what the displayed figure holds. *)

From Stdlib Require Import List ZArith QArith Reals Lia Ascii.
From stdpp Require Import base strings sets.
From S2P Require Import Prelude PyFloat Signal Align Backtest Benchmark PyDict Batch Format.
Import ListNotations.

(** A curve of the axes. *)
Record Line := {
  ln_x : list Z;        (** the series' index (dates) *)
  ln_y : list F;        (** its values *)
  ln_label : string;
  ln_style : string;    (** [linestyle] *)
  ln_width : Q          (** [linewidth] *)
}.

Record Figure := {
  fig_size : Q * Q;
  fig_lines : list Line;
  fig_title : string;
  fig_xlabel : string;
  fig_ylabel : string;
  fig_legend : option (list string);   (** the entries of the legend *)
  fig_grid : bool;
  fig_tight : bool
}.

(** The open figures, oldest first, and the figures displayed. *)
Record Pyplot := { plt_open : list Figure; plt_shown : list Figure }.

Definition plt_init : Pyplot := {| plt_open := []; plt_shown := [] |}.

(** The calls of the script. *)
Inductive call :=
| PFigure (w h : Q)
| PPlot (l : Line)
| PTitle (s : string)
| PXLabel (s : string)
| PYLabel (s : string)
| PLegend
| PGrid (b : bool)
| PTightLayout
| PShow.

Definition new_figure (w h : Q) : Figure :=
  {| fig_size := (w, h); fig_lines := []; fig_title := ""; fig_xlabel := "";
     fig_ylabel := ""; fig_legend := None; fig_grid := false; fig_tight := false |}.

(** [rcParams['figure.figsize']]. *)
Definition default_figure : Figure := new_figure (32 # 5) (24 # 5).

(** A label that the legend skips. *)
Definition private_label (s : string) : bool :=
  match s with String "_"%char _ => true | _ => false end.

Definition legend_entries (ls : list Line) : list string :=
  List.filter (fun s => negb (private_label s)) (map ln_label ls).

(** What a call does to the current figure. *)
Definition apply_call (c : call) (f : Figure) : Figure :=
  match c with
  | PPlot l => {| fig_size := fig_size f; fig_lines := fig_lines f ++ [l];
                  fig_title := fig_title f; fig_xlabel := fig_xlabel f;
                  fig_ylabel := fig_ylabel f; fig_legend := fig_legend f;
                  fig_grid := fig_grid f; fig_tight := fig_tight f |}
  | PTitle s => {| fig_size := fig_size f; fig_lines := fig_lines f; fig_title := s;
                   fig_xlabel := fig_xlabel f; fig_ylabel := fig_ylabel f;
                   fig_legend := fig_legend f; fig_grid := fig_grid f; fig_tight := fig_tight f |}
  | PXLabel s => {| fig_size := fig_size f; fig_lines := fig_lines f; fig_title := fig_title f;
                    fig_xlabel := s; fig_ylabel := fig_ylabel f;
                    fig_legend := fig_legend f; fig_grid := fig_grid f; fig_tight := fig_tight f |}
  | PYLabel s => {| fig_size := fig_size f; fig_lines := fig_lines f; fig_title := fig_title f;
                    fig_xlabel := fig_xlabel f; fig_ylabel := s;
                    fig_legend := fig_legend f; fig_grid := fig_grid f; fig_tight := fig_tight f |}
  | PLegend => {| fig_size := fig_size f; fig_lines := fig_lines f; fig_title := fig_title f;
                  fig_xlabel := fig_xlabel f; fig_ylabel := fig_ylabel f;
                  fig_legend := Some (legend_entries (fig_lines f));
                  fig_grid := fig_grid f; fig_tight := fig_tight f |}
  | PGrid b => {| fig_size := fig_size f; fig_lines := fig_lines f; fig_title := fig_title f;
                  fig_xlabel := fig_xlabel f; fig_ylabel := fig_ylabel f;
                  fig_legend := fig_legend f; fig_grid := b; fig_tight := fig_tight f |}
  | PTightLayout => {| fig_size := fig_size f; fig_lines := fig_lines f;
                       fig_title := fig_title f; fig_xlabel := fig_xlabel f;
                       fig_ylabel := fig_ylabel f; fig_legend := fig_legend f;
                       fig_grid := fig_grid f; fig_tight := true |}
  | PFigure _ _ | PShow => f
  end.

(** Apply to the current (last opened) figure, opening the default one
    when there is none. *)
Definition with_current (g : Figure -> Figure) (opn : list Figure) : list Figure :=
  match last_error opn with
  | None => [g default_figure]
  | Some f => removelast opn ++ [g f]
  end.

(** One call of [matplotlib.pyplot]. *)
Definition plt_step (st : Pyplot) (c : call) : Pyplot :=
  match c with
  | PFigure w h => {| plt_open := plt_open st ++ [new_figure w h]; plt_shown := plt_shown st |}
  | PShow => {| plt_open := []; plt_shown := plt_shown st ++ plt_open st |}
  | _ => {| plt_open := with_current (apply_call c) (plt_open st); plt_shown := plt_shown st |}
  end.

Definition run_calls (st : Pyplot) (cs : list call) : Pyplot := fold_left plt_step cs st.

(** Line 92. *)
Definition spy_label (bm : BenchmarkResult) : string :=
  "SPY Buy & Hold (CAGR: " +:+ format_percent2 (bm_cagr bm) +:+ ")".

Definition spy_line (bm : BenchmarkResult) : Line :=
  {| ln_x := bm_dates bm; ln_y := bm_cumulative bm; ln_label := spy_label bm;
     ln_style := "--"; ln_width := 2 |}.

(** Lines 95-96. *)
Definition strategy_label (t : string) (r : BacktestResult) : string :=
  t +:+ " (α: " +:+ format_percent2 (br_alpha r) +:+ ", Sharpe: " +:+
  format_fixed2 (br_sharpe r) +:+ ")".

Definition strategy_line (t : string) (r : BacktestResult) : Line :=
  {| ln_x := map r_date (br_df r); ln_y := br_cum_strategy r;
     ln_label := strategy_label t r; ln_style := "-"; ln_width := 3 # 2 |}.

(** Line 98: the title, with its line break. *)
Definition plot_title : string :=
  "Jobless Claims-Based Strategies vs SPY Buy & Hold" +:+
  String (Ascii.ascii_of_nat 10) "(Alpha & Sharpe Included)".

(** Lines 90-104. *)
Definition plot_calls (bm : BenchmarkResult) (results : Results) : list call :=
  [PFigure 14 8; PPlot (spy_line bm)] ++
  map (fun '(t, r) => PPlot (strategy_line t r)) results ++
  [PTitle plot_title; PXLabel "Date"; PYLabel "Cumulative Return"; PLegend;
   PGrid true; PTightLayout; PShow].

(** The figures on screen at the end of the program. *)
Definition final_plot (bm : BenchmarkResult) (results : Results) : Pyplot :=
  run_calls plt_init (plot_calls bm results).

(** The curves of the figure: SPY, then each entry of [results] in order. *)
Definition plot_lines (bm : BenchmarkResult) (results : Results) : list Line :=
  spy_line bm :: map (fun '(t, r) => strategy_line t r) results.

(** The figure the script displays, call by call. *)
Definition final_figure (bm : BenchmarkResult) (results : Results) : Figure :=
  {| fig_size := (14%Q, 8%Q); fig_lines := plot_lines bm results; fig_title := plot_title;
     fig_xlabel := "Date"; fig_ylabel := "Cumulative Return";
     fig_legend := Some (legend_entries (plot_lines bm results));
     fig_grid := true; fig_tight := true |}.

(** ** Lemmas *)

(** A call that acts on the current figure. *)
Definition figure_call (c : call) : bool :=
  match c with PFigure _ _ | PShow => false | _ => true end.

Lemma with_current_snoc g opn f : with_current g (opn ++ [f]) = opn ++ [g f].
Proof. unfold with_current. rewrite last_error_app1, removelast_last. reflexivity. Qed.

(** Calls on the current figure change only that figure. *)
Lemma run_calls_current opn sh f cs :
  forallb figure_call cs = true ->
  run_calls {| plt_open := opn ++ [f]; plt_shown := sh |} cs =
  {| plt_open := opn ++ [fold_left (fun f c => apply_call c f) cs f]; plt_shown := sh |}.
Proof.
  revert f. induction cs as [|c cs IH]; intros f H; [reflexivity|].
  apply andb_prop in H as [Hc H]. unfold run_calls in *. cbn [fold_left].
  replace (plt_step _ c) with {| plt_open := opn ++ [apply_call c f]; plt_shown := sh |}
    by (destruct c; try discriminate; unfold plt_step; cbn [plt_open plt_shown];
        rewrite with_current_snoc; reflexivity).
  apply IH, H.
Qed.

(** A figure of the script's size and default decorations, with [ls]. *)
Definition figure_with (ls : list Line) : Figure :=
  {| fig_size := (14%Q, 8%Q); fig_lines := ls; fig_title := ""; fig_xlabel := "";
     fig_ylabel := ""; fig_legend := None; fig_grid := false; fig_tight := false |}.

Lemma fold_plots ls0 ls :
  fold_left (fun f c => apply_call c f) (map PPlot ls) (figure_with ls0) = figure_with (ls0 ++ ls).
Proof.
  revert ls0. induction ls as [|l ls IH]; intros ls0; [rewrite app_nil_r; reflexivity|].
  cbn [map fold_left]. change (apply_call (PPlot l) (figure_with ls0)) with (figure_with (ls0 ++ [l])).
  rewrite IH, <- app_assoc. reflexivity.
Qed.

Lemma map_strategy_plots (results : Results) :
  map (fun '(t, r) => PPlot (strategy_line t r)) results =
  map PPlot (map (fun '(t, r) => strategy_line t r) results).
Proof. rewrite map_map. apply map_ext. intros [t r]. reflexivity. Qed.

Lemma run_calls_app st cs1 cs2 : run_calls st (cs1 ++ cs2) = run_calls (run_calls st cs1) cs2.
Proof. apply fold_left_app. Qed.

Lemma forallb_plots ls : forallb figure_call (map PPlot ls) = true.
Proof. induction ls; [reflexivity|exact IHls]. Qed.

(** Running the script. *)
Lemma run_script bm results :
  final_plot bm results = {| plt_open := []; plt_shown := [final_figure bm results] |}.
Proof.
  unfold final_plot, plot_calls. rewrite map_strategy_plots, !run_calls_app.
  change (run_calls plt_init [PFigure 14 8; PPlot (spy_line bm)])
    with {| plt_open := [] ++ [figure_with [spy_line bm]]; plt_shown := [] |}.
  rewrite run_calls_current by apply forallb_plots. rewrite fold_plots. reflexivity.
Qed.

(** ** Theorems *)

(** C31: The displayed figure.  After the script of lines 90-104 no
    figure is left open and exactly one is displayed: 14 x 8 inches, the
    SPY curve followed by one curve per entry of [results] in the
    dictionary's order, the title and axis labels of lines 98-100, a grid,
    and the legend of every curve plotted before [legend()] was called. *)
Theorem final_plot_figure bm results :
  final_plot bm results = {| plt_open := []; plt_shown := [final_figure bm results] |}.
Proof. apply run_script. Qed.

(** No label of the script's tickers starts with [_]. *)
Lemma private_label_app t s :
  private_label t = false -> private_label s = false -> private_label (t +:+ s) = false.
Proof. destruct t; [intros _ H; exact H|intros H _; exact H]. Qed.

Lemma legend_entries_plot bm results :
  Forall (fun t => private_label t = false) (dict_keys results) ->
  legend_entries (plot_lines bm results) =
  spy_label bm :: map (fun '(t, r) => strategy_label t r) results.
Proof.
  intros H. unfold legend_entries, plot_lines. cbn [map List.filter]. f_equal.
  induction results as [|[t r] results IH]; [reflexivity|].
  apply Forall_cons in H as [Ht H]. cbn [map List.filter ln_label strategy_line].
  unfold strategy_label at 1. rewrite private_label_app; [|exact Ht|reflexivity]. cbn [negb]. f_equal. apply IH, H.
Qed.

Lemma tickers_public : Forall (fun t => private_label t = false) tickers.
Proof. repeat constructor. Qed.

Lemma tickers_NoDup : NoDup tickers.
Proof. apply (bool_decide_unpack _). vm_compute. reflexivity. Qed.

(** C30: The program's legend.  When the program reaches the plot, the
    legend reads the SPY label and then, in the order of the ticker list
    of line 64, the label of every ticker whose backtest succeeded, and
    of no other. *)
Theorem program_legend download icsa bm results out :
  main download icsa = inr (bm, (results, out)) ->
  exists f, final_plot bm results = {| plt_open := []; plt_shown := [f] |} /\
    fig_legend f = Some (spy_label bm :: map (fun '(t, r) => strategy_label t r) results) /\
    dict_keys results =
      filter (fun t => is_Some ((backtest_strategy download t (get_jobless_claims_data icsa)
                                                    (bm_cagr bm)).1)) tickers.
Proof.
  intros Hm. destruct icsa as [|p ps] eqn:Ei; [discriminate|]. unfold main in Hm.
  cbv beta iota zeta in Hm. rewrite <- Ei in *. revert Hm.
  destruct (claims_window _) as [[start stop]|]; [|discriminate].
  destruct (download "SPY" start stop) as [|spy_raw]; [discriminate|].
  destruct (benchmark spy_raw) as [|bm']; [discriminate|].
  set (cf := get_jobless_claims_data icsa).
  destruct (run_loop download tickers cf (bm_cagr bm') dict_empty []) as [res out'] eqn:Erun.
  intros [= Hbm Hres Hout]. subst bm' res out'.
  replace results with (run_loop download tickers cf (bm_cagr bm) dict_empty []).1
    by (rewrite Erun; reflexivity).
  assert (Hk : dict_keys (run_loop download tickers cf (bm_cagr bm) dict_empty []).1 =
               filter (fun t => is_Some ((backtest_strategy download t cf (bm_cagr bm)).1))
                      tickers)
    by (rewrite run_loop_keys by (exact tickers_NoDup || set_solver); reflexivity).
  exists (final_figure bm (run_loop download tickers cf (bm_cagr bm) dict_empty []).1).
  split; [apply run_script|]. split; [|exact Hk].
  cbn [fig_legend final_figure]. f_equal. apply legend_entries_plot. rewrite Hk.
  apply Forall_forall. intros t Ht. apply list_elem_of_filter in Ht as [_ Ht].
  pose proof tickers_public as Hp. rewrite Forall_forall in Hp.
  apply Hp, Ht.
Qed.

(** ** Witnesses *)

Lemma program_legend_witness :
  exists bm results out,
    main download_example icsa_example = inr (bm, (results, out)) /\
    exists f, final_plot bm results = {| plt_open := []; plt_shown := [f] |} /\
      fig_legend f = Some (spy_label bm :: map (fun '(t, r) => strategy_label t r) results) /\
      dict_keys results =
        filter (fun t => is_Some ((backtest_strategy download_example t
                                     (get_jobless_claims_data icsa_example) (bm_cagr bm)).1))
               tickers.
Proof.
  destruct (main download_example icsa_example) as [e|[bm [results out]]] eqn:E;
    [vm_compute in E; discriminate|].
  exists bm, results, out. split; [reflexivity|].
  apply (program_legend download_example icsa_example bm results out E).
Defined.
